(** * Radiology AI assistant: the feedback-driven learning loop

    A shallow embedding of the Python modules

      - [modules/json_report_generator.py]  (report normalizer)
      - [modules/ontology_processor.py]     (mapping, validation, statistics)
      - [modules/explainability.py]         (explanations and their summary)
      - [modules/feedback_logger.py]        (feedback store)
      - [modules/continuous_learning.py]    (rule miner and rule applier)
      - [modules/report_evaluator.py]       (labels against the report text)

    Reports, findings and every payload that reaches the code as decoded
    JSON are values of the type [value]; a Python [dict] is an association
    list in insertion order.  Code that can raise returns a [result].
    Python floats are idealised as exact rationals ([Q]): comparisons,
    sums and [round(x, 2)] (half to even on hundredths) are exact, and
    [nan]/[inf] are not represented. *)

From Stdlib Require Import ZArith QArith Qround Qabs Lia Lqa Bool.
From Stdlib Require Import String Ascii List Permutation Sorted.
From stdpp Require Import base list strings.

Import ListNotations.
Set Warnings "-register-all".
Local Open Scope string_scope.
Local Open Scope list_scope.
Local Open Scope Z_scope.

(** ** Exceptions and results *)

Inductive exn : Type :=
| AttributeError
| TypeError
| ValueError
| OverflowError
| OSError
| UnicodeDecodeError.

Inductive result (A : Type) : Type :=
| Ok (a : A)
| Raise (e : exn).

Arguments Ok {A} a.
Arguments Raise {A} e.

Definition bind {A B} (m : result A) (k : A -> result B) : result B :=
  match m with
  | Ok a => k a
  | Raise e => Raise e
  end.

Notation "x <- m ;; k" := (bind m (fun x => k))
  (at level 65, m at next level, right associativity).

Definition is_ok {A} (m : result A) : bool :=
  match m with Ok _ => true | Raise _ => false end.

(** [for x in xs: acc = body(acc, x)], stopping at the first exception. *)
Fixpoint foldM {A S} (body : S -> A -> result S) (xs : list A) (acc : S)
  : result S :=
  match xs with
  | [] => Ok acc
  | x :: xs' => acc' <- body acc x ;; foldM body xs' acc'
  end.

(** [[f(x) for x in xs]], stopping at the first exception. *)
Fixpoint mapM {A B} (f : A -> result B) (xs : list A) : result (list B) :=
  match xs with
  | [] => Ok []
  | x :: xs' => y <- f x ;; ys <- mapM f xs' ;; Ok (y :: ys)
  end.

(** ** Python values *)

Inductive value : Type :=
| VNone
| VBool (b : bool)
| VInt (n : Z)
| VFloat (q : Q)
| VStr (s : string)
| VList (l : list value)
| VDict (d : list (string * value)).

(** A [dict] with text keys, in insertion order. *)
Definition dict : Type := list (string * value).

Fixpoint dict_get (k : string) (d : dict) : option value :=
  match d with
  | [] => None
  | (k', v) :: d' => if String.eqb k k' then Some v else dict_get k d'
  end.

(** [d[k] = v]: an existing key keeps its place, a new key goes last. *)
Fixpoint dict_set (k : string) (v : value) (d : dict) : dict :=
  match d with
  | [] => [(k, v)]
  | (k', v') :: d' =>
      if String.eqb k k' then (k', v) :: d' else (k', v') :: dict_set k v d'
  end.


Definition dict_keys (d : dict) : list string := map fst d.

(** [d.get(k, default)] *)
Definition get (d : dict) (k : string) (default : value) : value :=
  match dict_get k d with Some v => v | None => default end.

(** [x.get] on something that must be a dict. *)
Definition as_dict (v : value) : result dict :=
  match v with
  | VDict d => Ok d
  | _ => Raise AttributeError
  end.

(** Truth value of an object ([if x], [not x], [x or y]). *)
Definition truthy (v : value) : bool :=
  match v with
  | VNone => false
  | VBool b => b
  | VInt n => negb (n =? 0)
  | VFloat q => negb (Qeq_bool q 0)
  | VStr s => negb (String.eqb s "")
  | VList l => match l with [] => false | _ => true end
  | VDict d => match d with [] => false | _ => true end
  end.

(** [x or default] *)
Definition py_or (v default : value) : value :=
  if truthy v then v else default.

(** Numbers: [bool], [int] and [float] take part in arithmetic and in
    ordering comparisons; anything else raises [TypeError] there. *)
Definition as_number (v : value) : result Q :=
  match v with
  | VBool b => Ok (if b then 1%Q else 0%Q)
  | VInt n => Ok (inject_Z n)
  | VFloat q => Ok q
  | _ => Raise TypeError
  end.

Definition numeric (v : value) : option Q :=
  match v with
  | VBool b => Some (if b then 1%Q else 0%Q)
  | VInt n => Some (inject_Z n)
  | VFloat q => Some q
  | _ => None
  end.

(** [a == b]: numbers compare by value across [bool], [int] and [float],
    lists position by position, dicts key by key whatever the order. *)
Fixpoint py_eq (a b : value) {struct a} : bool :=
  match a, b with
  | VNone, VNone => true
  | VStr s, VStr t => String.eqb s t
  | VList l1, VList l2 =>
      (fix go (l1 l2 : list value) {struct l1} : bool :=
         match l1, l2 with
         | [], [] => true
         | x :: xs, y :: ys => py_eq x y && go xs ys
         | _, _ => false
         end) l1 l2
  | VDict d1, VDict d2 =>
      (length d1 =? length d2)%nat &&
      (fix go (d1 : dict) {struct d1} : bool :=
         match d1 with
         | [] => true
         | (k, v) :: r =>
             match dict_get k d2 with
             | Some v' => py_eq v v'
             | None => false
             end && go r
         end) d1
  | VBool _, _ | VInt _, _ | VFloat _, _ =>
      match numeric a, numeric b with
      | Some x, Some y => Qeq_bool x y
      | _, _ => false
      end
  | _, _ => false
  end.

(** Only immutable values can be dictionary keys or set members. *)
Definition hashable (v : value) : bool :=
  match v with
  | VList _ | VDict _ => false
  | _ => true
  end.

(** ** Text *)

Definition lower_ascii (c : ascii) : ascii :=
  let n := nat_of_ascii c in
  if ((65 <=? n) && (n <=? 90))%nat then ascii_of_nat (n + 32) else c.

(** [s.lower()] on ASCII letters; other bytes are left as they are. *)
Fixpoint lower (s : string) : string :=
  match s with
  | EmptyString => EmptyString
  | String c s' => String (lower_ascii c) (lower s')
  end.

(** [needle in haystack] for text. *)
Fixpoint contains (haystack needle : string) : bool :=
  String.prefix needle haystack ||
  match haystack with
  | EmptyString => false
  | String _ rest => contains rest needle
  end.

(** [x.lower()] on a value: only text has the method. *)
Definition py_lower (v : value) : result string :=
  match v with
  | VStr s => Ok (lower s)
  | _ => Raise AttributeError
  end.

(** How an f-string shows a value: text as it is, anything else as [str]
    prints it ([py_str] is Python's [str]). *)
Definition fmt (py_str : value -> string) (v : value) : string :=
  match v with
  | VStr s => s
  | _ => py_str v
  end.

(** The characters of a text as one-character texts. *)
Fixpoint chars (s : string) : list value :=
  match s with
  | EmptyString => []
  | String c s' => VStr (String c EmptyString) :: chars s'
  end.

(** [for x in v]: lists give their items, text its characters, a dict its
    keys; anything else is not iterable. *)
Definition py_iter (v : value) : result (list value) :=
  match v with
  | VList l => Ok l
  | VStr s => Ok (chars s)
  | VDict d => Ok (map (fun kv => VStr (fst kv)) d)
  | _ => Raise TypeError
  end.

(** [len(v)] *)
Definition py_len (v : value) : result Z :=
  match v with
  | VList l => Ok (Z.of_nat (length l))
  | VStr s => Ok (Z.of_nat (String.length s))
  | VDict d => Ok (Z.of_nat (length d))
  | _ => Raise TypeError
  end.

(** [zip(xs, ys)]: pairs up to the shorter length. *)
Fixpoint zip {A B} (xs : list A) (ys : list B) : list (A * B) :=
  match xs, ys with
  | x :: xs', y :: ys' => (x, y) :: zip xs' ys'
  | _, _ => []
  end.

(** ** Rounding *)

(** Nearest integer, ties to the even neighbour. *)
Definition round_half_even (q : Q) : Z :=
  let n := Qnum q in
  let d := Zpos (Qden q) in
  let f := n / d in
  let r2 := 2 * (n mod d) in
  if r2 <? d then f
  else if d <? r2 then f + 1
  else if Z.even f then f else f + 1.

(** [round(x, 2)] *)
Definition round2 (q : Q) : Q := Qred (round_half_even (q * 100) # 100).

Definition Qltb (x y : Q) : bool := negb (Qle_bool y x).

(** [min(1.0, x)] and [max(0.0, x)]: the first argument is kept unless the
    second is strictly beyond it. *)
Definition min1 (x : Q) : Q := if Qltb x 1 then x else 1%Q.
Definition max0 (x : Q) : Q := if Qltb 0 x then x else 0%Q.

(** ** Floating point

    A Python [float] is a binary64 number.  A float is written here as a
    rational: [VFloat q] stands for the float nearest to [q], which is what
    reading the decimal [q] from JSON gives, and the result of an operation
    is the exact value of the float it returns.  Operations round to
    nearest, ties to even.  The range of the exponent is not modelled:
    there is no infinity and no NaN. *)

Module Binary64.

(** Floats are the multiples of [2^-1074] with at most 53 significant
    bits: a number of units is rounded to a multiple of its [spacing]. *)
Definition units : Z := 2 ^ 1074.

Definition spacing (x : Q) : Z := 2 ^ Z.max (Z.log2 (Qfloor x) - 52) 0.

Definition nearest_units (x : Q) : Z :=
  round_half_even (x / inject_Z (spacing x)) * spacing x.

(** The float nearest to [q], as a rational. *)
Definition nearest (q : Q) : Q :=
  if Qle_bool 0 q
  then Qred (inject_Z (nearest_units (q * inject_Z units)) / inject_Z units)
  else Qred (- (inject_Z (nearest_units (- q * inject_Z units)) /
                inject_Z units)).

(** [x + y], [x - y] and [x / y] *)
Definition add (x y : Q) : Q := nearest (nearest x + nearest y).
Definition sub (x y : Q) : Q := nearest (nearest x - nearest y).
Definition div (x y : Q) : Q := nearest (nearest x / nearest y).

(** [round(x, 2)]: the float is rounded as the number it is, and the
    result is the float nearest to that number of hundredths. *)
Definition round2d (x : Q) : Q := round2 (nearest x).

End Binary64.

(** ** Sums of numbers *)

Definition int_of (v : value) : option Z :=
  match v with
  | VBool b => Some (if b then 1 else 0)
  | VInt n => Some n
  | _ => None
  end.

(** [a + b] of two numbers: exact on two ints, a float addition as soon as
    one of them is a float. *)
Definition py_add (a b : value) : result value :=
  match int_of a, int_of b with
  | Some x, Some y => Ok (VInt (x + y))
  | _, _ =>
      x <- as_number a ;;
      y <- as_number b ;;
      Ok (VFloat (Binary64.add x y))
  end.

(** [sum(xs)] as the language defines it: the items are added from left to
    right, starting from the int 0.  This is what CPython does before
    version 3.12. *)
Definition sum_left (xs : list value) : result value :=
  foldM py_add xs (VInt 0).

(** From version 3.12 on CPython adds the floats that follow a float total
    with a compensation (Neumaier's variant of Kahan's summation), which is
    added to the total at the end.  [compensated_step] is one step: the
    total and the compensation after the float [x]. *)
Definition compensated_step (acc : Q * Q) (x : Q) : Q * Q :=
  let (total, c) := acc in
  let t := Binary64.add total x in
  (t, if Qle_bool (Qabs (Binary64.nearest x)) (Qabs total)
      then Binary64.add c (Binary64.add (Binary64.sub total t) x)
      else Binary64.add c (Binary64.add (Binary64.sub x t) total)).

(** An int the fast loops of [sum] take: one that fits a C [long] (of 64
    bits). *)
Definition fits_long (n : Z) : bool := (- 2 ^ 63 <=? n) && (n <? 2 ^ 63).

Definition compensate (acc : Q * Q) : Q :=
  let (total, c) := acc in
  if Qeq_bool c 0 then total else Binary64.add total c.

(** The loop over the items that follow a float total. *)
Fixpoint sum_floats (xs : list value) (acc : Q * Q) : result value :=
  match xs with
  | [] => Ok (VFloat (compensate acc))
  | VFloat x :: rest => sum_floats rest (compensated_step acc x)
  | x :: rest =>
      match int_of x with
      | Some k =>
          if fits_long k
          then sum_floats rest (Binary64.add (fst acc) (inject_Z k), snd acc)
          else
            total <- py_add (VFloat (compensate acc)) x ;;
            foldM py_add rest total
      | None => Raise TypeError
      end
  end.

(** The loop over the leading ints, whose sum is exact. *)
Fixpoint sum_ints (xs : list value) (total : Z) : result value :=
  match xs with
  | [] => Ok (VInt total)
  | x :: rest =>
      match int_of x with
      | Some k =>
          if fits_long k && fits_long (total + k)
          then sum_ints rest (total + k)
          else foldM py_add rest (VInt (total + k))
      | None =>
          total <- py_add (VInt total) x ;;
          match total with
          | VFloat f => sum_floats rest (f, 0%Q)
          | _ => foldM py_add rest total
          end
      end
  end.

(** [sum(xs)]; [compensated] tells whether the interpreter is of version
    3.12 or later. *)
Definition py_sum (compensated : bool) (xs : list value) : result value :=
  if compensated then sum_ints xs 0 else sum_left xs.

(** [sum(xs) / n] for an int [n > 0]: the quotient of two ints is rounded
    once; a float total is divided by [float(n)]. *)
Definition mean (compensated : bool) (xs : list value) (n : Z) : result Q :=
  total <- py_sum compensated xs ;;
  match total with
  | VFloat s => Ok (Binary64.div s (inject_Z n))
  | VInt s => Ok (Binary64.nearest (inject_Z s / inject_Z n))
  | _ => Raise TypeError
  end.

(** The operand of a float operation, where the range of a float counts:
    an int is converted first, and from [2^1024 - 2^970] on the conversion
    raises [OverflowError]. *)
Definition float_operand (v : value) : result Q :=
  match v with
  | VBool b => Ok (if b then 1%Q else 0%Q)
  | VInt n =>
      if Z.abs n <? 2 ^ 1024 - 2 ^ 970 then Ok (inject_Z n)
      else Raise OverflowError
  | VFloat q => Ok q
  | _ => Raise TypeError
  end.

(** ** [sorted(xs, key=..., reverse=True)]

    Python's sort is stable, also under [reverse=True]: items with equal
    keys keep their relative order.  The stable result is unique, so it is
    computed here by insertion. *)

Section SortedReverse.
Context {A : Type} (key : A -> Q).

Fixpoint insert_desc (x : A) (l : list A) : list A :=
  match l with
  | [] => [x]
  | y :: l' =>
      if Qltb (key x) (key y) then y :: insert_desc x l' else x :: y :: l'
  end.

Fixpoint sorted_reverse (l : list A) : list A :=
  match l with
  | [] => []
  | x :: l' => insert_desc x (sorted_reverse l')
  end.
End SortedReverse.

(** ** Files holding a JSON log

    What a read of a log file can meet.  [Garbled] is a file whose text is
    not JSON ([json.JSONDecodeError]); [Unreadable e] is any other failure
    of [open] or of the read, raising [e]. *)

Inductive file (A : Type) : Type :=
| Missing
| Garbled
| Unreadable (e : exn)
| Stored (content : A).

Arguments Missing {A}.
Arguments Garbled {A}.
Arguments Unreadable {A} e.
Arguments Stored {A} content.

(** ** Learning records ([learning_data.json]) *)

Module LearningEntry.
Record t : Type := mk {
  timestamp : string;
  image : string;
  original_findings : value;
  edited_findings : value;
  explanations : value;
  user_feedback : value;
  ontology_mapping : value;
  has_edits : bool;
  edit_count : Z
}.

(** The record as the dict that [json.load] gives back. *)
Definition to_value (e : t) : value :=
  VDict [("timestamp", VStr (timestamp e));
         ("image", VStr (image e));
         ("original_findings", original_findings e);
         ("edited_findings", edited_findings e);
         ("explanations", explanations e);
         ("user_feedback", user_feedback e);
         ("ontology_mapping", ontology_mapping e);
         ("has_edits", VBool (has_edits e));
         ("edit_count", VInt (edit_count e))].
End LearningEntry.

(** ** Mined rules: the three variants of the ["type"] key *)

Inductive rule : Type :=
| EditPattern (pattern : string) (support : Z) (confidence : Q)
| ConfidenceAdjustment (pattern : string) (adjustment : Q) (support : Z)
| FindingAssociation (pattern : value) (associations : list value)
    (support : Z).

(** [rule.get("support", 0)] *)
Definition rule_support (r : rule) : Z :=
  match r with
  | EditPattern _ s _ => s
  | ConfidenceAdjustment _ _ s => s
  | FindingAssociation _ _ s => s
  end.

(** [rule["pattern"]] *)
Definition rule_pattern (r : rule) : value :=
  match r with
  | EditPattern p _ _ => VStr p
  | ConfidenceAdjustment p _ _ => VStr p
  | FindingAssociation p _ _ => p
  end.

Definition is_confidence_adjustment (r : rule) : bool :=
  match r with ConfidenceAdjustment _ _ _ => true | _ => false end.

(** ** [modules/continuous_learning.py] *)

Module ContinuousLearningEngine.

(** [self]: the rules cached by the last mining.  ([self.patterns] and
    [self.confidence_adjustments] are never read nor written.) *)
Record engine : Type := { rules : list rule }.

(** [__init__] *)
Definition init : engine := {| rules := [] |}.

(** [load_learning_data]: a file that does not exist falls through to
    [return []]; [json.JSONDecodeError] and [FileNotFoundError] are caught
    and give [[]] too; any other exception leaves the function. *)
Definition load_learning_data (f : file (list LearningEntry.t))
  : result (list LearningEntry.t) :=
  match f with
  | Missing => Ok []
  | Garbled => Ok []
  | Unreadable e => Raise e
  | Stored data => Ok data
  end.

(** A [Counter]: [patterns[k] += 1]. *)
Fixpoint counter_incr (k : string) (c : list (string * Z))
  : list (string * Z) :=
  match c with
  | [] => [(k, 1)]
  | (k', n) :: c' =>
      if String.eqb k k' then (k', n + 1) :: c'
      else (k', n) :: counter_incr k c'
  end.

(** [adjustments[k] = adjustments[k] + [x]] on a [defaultdict(list)]. *)
Fixpoint adjustments_add (k : value) (x : Q) (a : list (value * list Q))
  : list (value * list Q) :=
  match a with
  | [] => [(k, [x])]
  | (k', xs) :: a' =>
      if py_eq k k' then (k', xs ++ [x]) :: a'
      else (k', xs) :: adjustments_add k x a'
  end.

(** [s.add(x)]: a set is held as the list of its members in the order of
    their arrival.  The order in which [list(s)] gives them is not fixed by
    Python (for text it changes with the hash seed of the process): it is
    a parameter of the miner, [list_of_set] below. *)
Definition set_add (x : value) (s : list value) : list value :=
  if existsb (py_eq x) s then s else s ++ [x].

(** [associations[k].add(x)] on a [defaultdict(set)]. *)
Fixpoint associations_add (k x : value) (a : list (value * list value))
  : list (value * list value) :=
  match a with
  | [] => [(k, [x])]
  | (k', s) :: a' =>
      if py_eq k k' then (k', set_add x s) :: a'
      else (k', s) :: associations_add k x a'
  end.

Section WithStr.
(** [str(x)], as Python prints a value. *)
Variable py_str : value -> string.
(** [list(s)] of a set [s], given by its members in the order of arrival:
    the members in the order of the process. *)
Variable list_of_set : list value -> list value.

Definition _extract_edit_patterns (learning_data : list LearningEntry.t)
  : result (list (string * Z)) :=
  foldM (fun patterns entry =>
    if negb (LearningEntry.has_edits entry) then Ok patterns
    else
      original <- py_iter (LearningEntry.original_findings entry) ;;
      edited <- py_iter (LearningEntry.edited_findings entry) ;;
      foldM (fun patterns (p : value * value) =>
        let (orig_f, edit_f) := p in
        if negb (py_eq orig_f edit_f) then
          o <- as_dict orig_f ;;
          e <- as_dict edit_f ;;
          Ok (counter_incr
                (fmt py_str (get o "finding" (VStr "")) +:+ " -> " +:+
                 fmt py_str (get e "finding" (VStr "")))
                patterns)
        else Ok patterns)
        (zip original edited) patterns)
    learning_data [].

(** [sum(values) / len(values)] *)
Definition average (values : list Q) : Q :=
  (fold_left Qplus values 0 / inject_Z (Z.of_nat (length values)))%Q.

Definition _extract_confidence_patterns
  (learning_data : list LearningEntry.t) : result (list (value * Q)) :=
  adjustments <-
    foldM (fun adjustments entry =>
      original <- py_iter (LearningEntry.original_findings entry) ;;
      edited <- py_iter (LearningEntry.edited_findings entry) ;;
      foldM (fun adjustments (p : value * value) =>
        let (orig_f, edit_f) := p in
        o <- as_dict orig_f ;;
        let finding_name := get o "finding" (VStr "") in
        let orig_conf := get o "confidence" (VFloat (1 # 2)) in
        e <- as_dict edit_f ;;
        let edit_conf := get e "confidence" (VFloat (1 # 2)) in
        oc <- as_number orig_conf ;;
        ec <- as_number edit_conf ;;
        if Qltb (1 # 10) (Qabs (oc - ec)) then
          if hashable finding_name
          then Ok (adjustments_add finding_name (ec - oc)%Q adjustments)
          else Raise TypeError
        else Ok adjustments)
        (zip original edited) adjustments)
      learning_data [] ;;
  Ok (map (fun kv => (fst kv, average (snd kv))) adjustments).

(** The inner loops of the co-occurrence pass:
    [for name2 in finding_names[i+1:]] and
    [for i, name1 in enumerate(finding_names)]. *)
Definition associate_with (name1 : value) (later : list value)
  (associations : list (value * list value))
  : result (list (value * list value)) :=
  foldM (fun associations name2 =>
    if negb (hashable name1) then Raise TypeError
    else if negb (hashable name2) then Raise TypeError
    else Ok (associations_add name2 name1
               (associations_add name1 name2 associations)))
    later associations.

Fixpoint associate_all (finding_names : list value)
  (associations : list (value * list value))
  : result (list (value * list value)) :=
  match finding_names with
  | [] => Ok associations
  | name1 :: later =>
      associations' <- associate_with name1 later associations ;;
      associate_all later associations'
  end.

(** [[f.get("finding", "") for f in findings if f.get("finding")]] *)
Fixpoint named_findings (findings : list value) : result (list value) :=
  match findings with
  | [] => Ok []
  | f :: findings' =>
      d <- as_dict f ;;
      names <- named_findings findings' ;;
      if truthy (get d "finding" VNone)
      then Ok (get d "finding" (VStr "") :: names)
      else Ok names
  end.

Definition _extract_finding_patterns
  (learning_data : list LearningEntry.t)
  : result (list (value * list value)) :=
  associations <-
    foldM (fun associations entry =>
      findings <- py_iter (LearningEntry.original_findings entry) ;;
      finding_names <- named_findings findings ;;
      associate_all finding_names associations)
      learning_data [] ;;
  Ok (map (fun kv : value * list value => (fst kv, list_of_set (snd kv)))
        associations).

Definition _count_pattern_occurrences (pattern : string)
  (learning_data : list LearningEntry.t) : Z :=
  fold_left (fun count entry =>
    if contains (py_str (LearningEntry.to_value entry)) pattern
    then count + 1 else count)
    learning_data 0.

Definition _calculate_rule_confidence (pattern : string)
  (learning_data : list LearningEntry.t) : Q :=
  let pattern_count := _count_pattern_occurrences pattern learning_data in
  let total_entries :=
    Z.of_nat (length (List.filter LearningEntry.has_edits learning_data)) in
  if total_entries =? 0 then 0%Q
  else round2 (inject_Z pattern_count / inject_Z total_entries).

(** The list [rules] of [mine_rules] as it stands before it is sorted:
    edit patterns, then confidence adjustments, then associations, each
    in the order of its dictionary. *)
Definition edit_rules (min_support : Z)
  (learning_data : list LearningEntry.t)
  (edit_patterns : list (string * Z)) : list rule :=
  flat_map (fun kv : string * Z =>
    let (pattern, count) := kv in
    if min_support <=? count
    then [EditPattern pattern count
            (_calculate_rule_confidence pattern learning_data)]
    else [])
    edit_patterns.

Definition confidence_rules (learning_data : list LearningEntry.t)
  (confidence_patterns : list (value * Q)) : result (list rule) :=
  foldM (fun acc (kv : value * Q) =>
    let (pattern, adjustment) := kv in
    if Qltb (1 # 10) (Qabs adjustment) then
      match pattern with
      | VStr p =>
          Ok (acc ++ [ConfidenceAdjustment p (round2 adjustment)
                        (_count_pattern_occurrences p learning_data)])
      | _ => Raise TypeError
      end
    else Ok acc)
    confidence_patterns [].

Definition association_rules (min_support : Z)
  (finding_patterns : list (value * list value)) : list rule :=
  flat_map (fun kv : value * list value =>
    let (pattern, associations) := kv in
    if min_support <=? Z.of_nat (length associations)
    then [FindingAssociation pattern associations
            (Z.of_nat (length associations))]
    else [])
    finding_patterns.

Definition discovered_rules (min_support : Z)
  (learning_data : list LearningEntry.t) : result (list rule) :=
  edit_patterns <- _extract_edit_patterns learning_data ;;
  confidence_patterns <- _extract_confidence_patterns learning_data ;;
  finding_patterns <- _extract_finding_patterns learning_data ;;
  from_confidence <- confidence_rules learning_data confidence_patterns ;;
  Ok (edit_rules min_support learning_data edit_patterns ++
      from_confidence ++
      association_rules min_support finding_patterns).

Definition support_key (r : rule) : Q := inject_Z (rule_support r).

(** [mine_rules]: reads the learning log [f]; gives the rule list and
    the engine after the call. *)
Definition mine_rules (f : file (list LearningEntry.t)) (self : engine)
  (min_support : Z) : result (list rule * engine) :=
  learning_data <- load_learning_data f ;;
  match learning_data with
  | [] => Ok ([], self)
  | _ :: _ =>
      found <- discovered_rules min_support learning_data ;;
      let sorted := sorted_reverse support_key found in
      Ok (sorted, {| rules := sorted |})
  end.

(** The body of [for rule in self.rules], for the finding named
    [finding_name]. *)
Definition apply_rule (finding_name : value) (improved_finding : dict)
  (rule : rule) : result dict :=
  match rule with
  | ConfidenceAdjustment pattern adjustment _ =>
      name <- py_lower finding_name ;;
      if contains (lower pattern) name then
        current_conf <-
          as_number (get improved_finding "confidence"
                       (VFloat (1 # 2))) ;;
        let new_conf := max0 (min1 (current_conf + adjustment)) in
        Ok (dict_set "adjustment_reason"
              (VStr ("Based on learned pattern: " +:+ pattern))
              (dict_set "confidence_adjusted" (VBool true)
                 (dict_set "confidence" (VFloat (round2 new_conf))
                    improved_finding)))
      else Ok improved_finding
  | _ => Ok improved_finding
  end.

(** The body of [for finding in report.get("findings", [])]. *)
Definition improve_finding (rules : list rule) (finding : value)
  : result value :=
  improved_finding <- as_dict finding ;;
  let finding_name := get improved_finding "finding" (VStr "") in
  improved_finding <-
    foldM (apply_rule finding_name) rules improved_finding ;;
  Ok (VDict improved_finding).

(** The loop of [_rule_applies], which returns at the first match. *)
Fixpoint any_finding_matches (pattern : string) (findings : list value)
  : result bool :=
  match findings with
  | [] => Ok false
  | finding :: rest =>
      d <- as_dict finding ;;
      name <- py_lower (get d "finding" (VStr "")) ;;
      if contains name (lower pattern) then Ok true
      else any_finding_matches pattern rest
  end.

Definition _rule_applies (report : dict) (r : rule) : result bool :=
  match r with
  | ConfidenceAdjustment pattern _ _ =>
      findings <- py_iter (get report "findings" (VList [])) ;;
      any_finding_matches pattern findings
  | _ => Ok false
  end.

(** [len([r for r in self.rules if self._rule_applies(report, r)])] *)
Definition count_applicable (report : dict) (rules : list rule)
  : result Z :=
  foldM (fun n r =>
    b <- _rule_applies report r ;;
    Ok (if b : bool then n + 1 else n))
    rules 0.

(** [if not self.rules: self.mine_rules()] *)
Definition ensure_rules (f : file (list LearningEntry.t)) (self : engine)
  : result engine :=
  match rules self with
  | [] => mined <- mine_rules f self 2 ;; Ok (snd mined)
  | _ :: _ => Ok self
  end.

Definition apply_rules_to_report (f : file (list LearningEntry.t))
  (self : engine) (report : dict) : result (dict * engine) :=
  self <- ensure_rules f self ;;
  findings <- py_iter (get report "findings" (VList [])) ;;
  improved_findings <- mapM (improve_finding (rules self)) findings ;;
  let improved_report :=
    dict_set "findings" (VList improved_findings) report in
  rules_applied <- count_applicable report (rules self) ;;
  Ok (dict_set "rules_applied" (VInt rules_applied) improved_report,
      self).

Definition get_learning_statistics (f : file (list LearningEntry.t))
  (self : engine) : result (dict * engine) :=
  learning_data <- load_learning_data f ;;
  mined <- mine_rules f self 2 ;;
  let rules := fst mined in
  let count (p : rule -> bool) := VInt (Z.of_nat (length (List.filter p rules))) in
  Ok ([("total_learning_entries", VInt (Z.of_nat (length learning_data)));
       ("total_rules_mined", VInt (Z.of_nat (length rules)));
       ("rules_by_type",
        VDict [("edit_pattern",
                count (fun r => match r with
                                | EditPattern _ _ _ => true
                                | _ => false end));
               ("confidence_adjustment", count is_confidence_adjustment);
               ("finding_association",
                count (fun r => match r with
                                | FindingAssociation _ _ _ => true
                                | _ => false end))]);
       ("high_confidence_rules",
        count (fun r => match r with
                        | EditPattern _ _ c => Qle_bool (7 # 10) c
                        | _ => false end));
       ("entries_with_edits",
        VInt (Z.of_nat (length (List.filter LearningEntry.has_edits
                                  learning_data))))],
      snd mined).
End WithStr.
End ContinuousLearningEngine.

(** ** [modules/feedback_logger.py] *)

(** An entry of [feedback_logs.json]. *)
Module Entry.
Record t : Type := mk {
  timestamp : string;
  image : string;
  original_report : dict;
  edited_report : option dict;
  explanations : value;
  user_feedback : value;
  ontology_mapping : value;
  metadata : value;
  has_edits : bool;
  edit_count : Z
}.
End Entry.

Module FeedbackLogger.

(** [self]: the two log files under [log_dir]. *)
Record logger : Type := {
  feedback_log : file (list Entry.t);
  learning_data : file (list LearningEntry.t)
}.

(** [_load_logs] and [_load_learning_data] read their file the way
    [load_learning_data] does. *)
Definition _load_logs (self : logger) : result (list Entry.t) :=
  match feedback_log self with
  | Missing => Ok []
  | Garbled => Ok []
  | Unreadable e => Raise e
  | Stored logs => Ok logs
  end.

Definition _load_learning_data (self : logger)
  : result (list LearningEntry.t) :=
  match learning_data self with
  | Missing => Ok []
  | Garbled => Ok []
  | Unreadable e => Raise e
  | Stored data => Ok data
  end.

(** [_save_logs]: the file is rewritten in full.  (Writes are taken to
    succeed: a storage failure is outside this model.) *)
Definition _save_logs (self : logger) (logs : list Entry.t) : logger :=
  {| feedback_log := Stored logs; learning_data := learning_data self |}.

Definition differing_pairs (xs ys : list value) : Z :=
  Z.of_nat (length (List.filter (fun p : value * value =>
                              negb (py_eq (fst p) (snd p)))
                      (zip xs ys))).

Definition _count_edits (original edited : dict) : result Z :=
  let original_findings := get original "findings" (VList []) in
  let edited_findings := get edited "findings" (VList []) in
  n_original <- py_len original_findings ;;
  n_edited <- py_len edited_findings ;;
  let edit_count :=
    if negb (n_original =? n_edited) then Z.abs (n_original - n_edited)
    else 0 in
  originals <- py_iter original_findings ;;
  editeds <- py_iter edited_findings ;;
  let edit_count := edit_count + differing_pairs originals editeds in
  let edit_count :=
    if negb (py_eq (get original "impression" VNone)
               (get edited "impression" VNone))
    then edit_count + 1 else edit_count in
  let edit_count :=
    if negb (py_eq (get original "recommendations" VNone)
               (get edited "recommendations" VNone))
    then edit_count + 1 else edit_count in
  Ok edit_count.

(** [_save_learning_data]: the learning record of [entry] is appended.
    [entry.get("edited_report", {})] is [None] when the entry carries no
    edited report (the key is there), and [None.get] raises. *)
Definition _save_learning_data (self : logger) (entry : Entry.t)
  : logger * result unit :=
  match Entry.edited_report entry with
  | None => (self, Raise AttributeError)
  | Some edited =>
      let learning_entry :=
        LearningEntry.mk
          (Entry.timestamp entry)
          (Entry.image entry)
          (get (Entry.original_report entry) "findings" (VList []))
          (get edited "findings" (VList []))
          (Entry.explanations entry)
          (Entry.user_feedback entry)
          (Entry.ontology_mapping entry)
          (Entry.has_edits entry)
          (Entry.edit_count entry) in
      match _load_learning_data self with
      | Raise e => (self, Raise e)
      | Ok data =>
          ({| feedback_log := feedback_log self;
              learning_data := Stored (data ++ [learning_entry]) |},
           Ok tt)
      end
  end.

(** The search of [log_feedback] for an entry to update: the first entry
    of the same image that has no edits. *)
Definition existing_entry_index (logs : list Entry.t) (image_name : string)
  : option nat :=
  fst <$> list_find (fun existing_log : Entry.t =>
                       Entry.image existing_log = image_name /\
                       Entry.has_edits existing_log = false) logs.

(** [log_feedback]; [now] is [datetime.now().isoformat()], an absent
    optional argument is [VNone] (or [None] for [edited_report]).
    The logger after the call comes with what the call returns. *)
Definition log_feedback (self : logger) (now : string)
  (image_name : string) (original_report : dict)
  (edited_report : option dict)
  (explanations user_feedback ontology_mapping metadata : value)
  : logger * result Entry.t :=
  let counted :=
    match edited_report with
    | Some edited =>
        if truthy (VDict edited) then _count_edits original_report edited
        else Ok 0
    | None => Ok 0
    end in
  match counted with
  | Raise e => (self, Raise e)
  | Ok edit_count =>
      let entry :=
        Entry.mk now image_name original_report edited_report
          (py_or explanations (VList []))
          (py_or user_feedback (VDict []))
          (py_or ontology_mapping (VDict []))
          (py_or metadata (VDict []))
          (match edited_report with Some _ => true | None => false end)
          edit_count in
      match _load_logs self with
      | Raise e => (self, Raise e)
      | Ok logs =>
          let logs :=
            match existing_entry_index logs image_name with
            | Some i => <[i := entry]> logs
            | None => logs ++ [entry]
            end in
          let self := _save_logs self logs in
          match _save_learning_data self entry with
          | (self, Raise e) => (self, Raise e)
          | (self, Ok _) => (self, Ok entry)
          end
      end
  end.

Definition get_feedback_statistics (self : logger) : result dict :=
  logs <- _load_logs self ;;
  match logs with
  | [] => Ok [("total_entries", VInt 0);
              ("entries_with_edits", VInt 0);
              ("total_edits", VInt 0);
              ("average_edits_per_entry", VInt 0)]
  | _ :: _ =>
      let n := Z.of_nat (length logs) in
      let entries_with_edits :=
        Z.of_nat (length (List.filter Entry.has_edits logs)) in
      let total_edits :=
        fold_left (fun acc log => acc + Entry.edit_count log) logs 0 in
      Ok [("total_entries", VInt n);
          ("entries_with_edits", VInt entries_with_edits);
          ("total_edits", VInt total_edits);
          ("average_edits_per_entry",
           VFloat (round2 (inject_Z total_edits / inject_Z n)));
          ("edit_rate",
           VFloat (round2 (inject_Z entries_with_edits / inject_Z n)))]
  end.
End FeedbackLogger.

(** ** [modules/explainability.py] *)

Module ExplainabilityEngine.

Definition explanation_templates (level : string) : string :=
  if String.eqb level "high" then
    "Strong visual evidence supports this finding with clear radiographic features."
  else if String.eqb level "medium" then
    "Moderate visual evidence present, but some features may be subtle or partially obscured."
  else
    "Limited visual evidence; findings may be subtle or require additional views for confirmation.".

(** The [if]/[elif]/[else] of [_explain_finding] on the confidence of a
    finding: ["high" if c >= 0.7 else "medium" if c >= 0.4 else "low"]. *)
Definition confidence_level (c : Q) : string :=
  if Qle_bool (7 # 10) c then "high"
  else if Qle_bool (4 # 10) c then "medium"
  else "low".

Definition key_phrases : list string :=
  ["increased"; "decreased"; "enlarged"; "opacity"; "effusion";
   "consolidation"; "atelectasis"; "pneumothorax"; "edema";
   "cardiomegaly"; "blunting"; "collapse"; "device"].

Definition _extract_key_evidence (evidence : value) : result (list string) :=
  if negb (truthy evidence) then Ok []
  else
    evidence_lower <- py_lower evidence ;;
    Ok (firstn 5 (List.filter (fun phrase => contains evidence_lower phrase)
                    key_phrases)).

(** [evidence[:100]]: text and lists can be sliced.  (A dict raises
    [TypeError] too before Python 3.12 and [KeyError] from then on.) *)
Definition first_100 (v : value) : result value :=
  match v with
  | VStr s => Ok (VStr (String.substring 0 100 s))
  | VList l => Ok (VList (firstn 100 l))
  | _ => Raise TypeError
  end.

Section WithFormat.
(** [str(x)] and the format [f"{x:.1%}"] of a number. *)
Variable py_str : value -> string.
Variable percent : Q -> string.

Definition evidence_entry (type : string) (description : value) : value :=
  VDict [("type", VStr type);
         ("description", description);
         ("relevance", VStr "high")].

Definition _build_evidence_chain (finding : dict) : result (list value) :=
  let evidence := get finding "evidence" (VStr "") in
  let location := get finding "location" (VStr "") in
  let chain := [] in
  let chain :=
    if truthy location
    then chain ++ [evidence_entry "location"
                     (VStr ("Finding located in: " +:+ fmt py_str location))]
    else chain in
  let chain :=
    if truthy evidence
    then chain ++ [evidence_entry "visual" evidence]
    else chain in
  confidence <- as_number (get finding "confidence" (VFloat (1 # 2))) ;;
  Ok (if Qle_bool (7 # 10) confidence
      then chain ++ [evidence_entry "confidence"
             (VStr "High confidence based on clear radiographic features")]
      else chain).

Definition _generate_reasoning (finding : dict) (level : string)
  (evidence : value) : result string :=
  let finding_name := get finding "finding" (VStr "") in
  let location := get finding "location" (VStr "") in
  let severity := get finding "severity" (VStr "") in
  let parts := ["The AI identified '" +:+ fmt py_str finding_name +:+ "'"] in
  let parts :=
    if truthy location then parts ++ ["in the " +:+ fmt py_str location]
    else parts in
  let parts :=
    if truthy severity
    then parts ++ ["with " +:+ fmt py_str severity +:+ " severity"]
    else parts in
  shown <- as_number (get finding "confidence" (VInt 0)) ;;
  let parts :=
    parts ++ ["based on " +:+ level +:+ " confidence (" +:+
              percent shown +:+ ")"] in
  parts <-
    (if truthy evidence then
       excerpt <- first_100 evidence ;;
       Ok (parts ++ ["supported by: " +:+ fmt py_str excerpt +:+ "..."])
     else Ok parts) ;;
  Ok (String.concat " " parts).

Definition _explain_finding (finding : dict) : result dict :=
  let confidence_value := get finding "confidence" (VFloat (1 # 2)) in
  let evidence := get finding "evidence" (VStr "") in
  confidence <- as_number confidence_value ;;
  let level := confidence_level confidence in
  let template := explanation_templates level in
  evidence_chain <- _build_evidence_chain finding ;;
  reasoning <- _generate_reasoning finding level evidence ;;
  key_evidence <- _extract_key_evidence evidence ;;
  Ok [("confidence_level", VStr level);
      ("confidence_score", confidence_value);
      ("evidence_chain", VList evidence_chain);
      ("reasoning", VStr reasoning);
      ("template", VStr template);
      ("key_evidence", VList (map VStr key_evidence))].

Definition generate_explanations (findings : list value)
  : result (list value) :=
  mapM (fun finding =>
    d <- as_dict finding ;;
    explanation <- _explain_finding d ;;
    Ok (VDict (dict_set "explanation" (VDict explanation) d)))
    findings.
End WithFormat.

(** [f.get("confidence", 0)] of every finding, as numbers. *)
Definition confidences (findings : list value) : result (list Q) :=
  mapM (fun f => d <- as_dict f ;;
                 as_number (get d "confidence" (VInt 0))) findings.

Definition key_finding (f : dict) : value :=
  VDict [("finding", get f "finding" (VStr ""));
         ("confidence", get f "confidence" (VInt 0));
         ("location", get f "location" (VStr ""))].

(** The label of the summary: the mean, a float, against the floats
    written [0.7] and [0.4]. *)
Definition reliability_level (avg_confidence : Q) : string :=
  if Qle_bool (Binary64.nearest (7 # 10)) avg_confidence then "high"
  else if Qle_bool (Binary64.nearest (4 # 10)) avg_confidence then "medium"
  else "low".

(** [compensated]: whether [sum] is the one of Python 3.12 or later. *)
Definition generate_summary_explanation (compensated : bool)
  (findings : list value) : result dict :=
  let total_findings := Z.of_nat (length findings) in
  scored <- mapM (fun f => d <- as_dict f ;;
                           c <- as_number (get d "confidence" (VInt 0)) ;;
                           Ok (d, c)) findings ;;
  let high_confidence_count :=
    Z.of_nat (length (List.filter (fun dc : dict * Q => Qle_bool (7 # 10) (snd dc))
                        scored)) in
  avg_confidence <-
    (if 0 <? total_findings
     then mean compensated
            (map (fun dc : dict * Q => get (fst dc) "confidence" (VInt 0))
               scored)
            total_findings
     else Ok 0%Q) ;;
  Ok [("total_findings", VInt total_findings);
      ("high_confidence_findings", VInt high_confidence_count);
      ("average_confidence",
       if 0 <? total_findings then VFloat (Binary64.round2d avg_confidence)
       else VInt 0);
      ("overall_reliability", VStr (reliability_level avg_confidence));
      ("key_findings",
       VList (map (fun dc : dict * Q => key_finding (fst dc))
                (firstn 3 (sorted_reverse snd scored))))].
End ExplainabilityEngine.

(** ** [modules/ontology_processor.py] *)

Module OntologyProcessor.

(** [self]: the condition -> keywords table and the label list. *)
Record processor : Type := {
  radlex_terms : list (string * list string);
  chexpert_labels : list string
}.

(** [round(x, 2)] of a number: an [int] (or [bool]) comes back as an
    [int], a [float] rounded to hundredths. *)
Definition py_round2 (v : value) : result value :=
  match v with
  | VFloat q => Ok (VFloat (Binary64.round2d q))
  | VInt n => Ok (VInt n)
  | VBool b => Ok (VInt (if b then 1 else 0))
  | _ => Raise TypeError
  end.

(** [base_confidence + 0.2] and [+ 0.1] are float additions; without a
    match the confidence goes to [round] as it is. *)
Definition _calculate_mapping_confidence
  (radlex_matches chexpert_matches : list string)
  (original_confidence : value) : result value :=
  let nonempty (l : list string) :=
    match l with [] => false | _ :: _ => true end in
  base_confidence <-
    (if nonempty radlex_matches && nonempty chexpert_matches then
       c <- float_operand original_confidence ;;
       Ok (VFloat (min1 (Binary64.add c (2 # 10))))
     else if nonempty radlex_matches || nonempty chexpert_matches then
       c <- float_operand original_confidence ;;
       Ok (VFloat (min1 (Binary64.add c (1 # 10))))
     else Ok original_confidence) ;;
  py_round2 base_confidence.

(** The scan of the condition table for one text: the conditions matched
    (each once, in table order) and every keyword matched. *)
Definition match_radlex (self : processor) (combined_text : string)
  : list string * list string :=
  fold_left (fun (acc : list string * list string)
                 (entry : string * list string) =>
    let (condition, keywords) := entry in
    fold_left (fun (acc : list string * list string) keyword =>
      let (matched_conditions, matched_keywords) := acc in
      if contains combined_text (lower keyword) then
        (if existsb (String.eqb condition) matched_conditions
         then matched_conditions
         else matched_conditions ++ [condition],
         matched_keywords ++ [keyword])
      else acc)
      keywords acc)
    (radlex_terms self) ([], []).

Definition match_chexpert (self : processor) (combined_text : string)
  : list string :=
  List.filter (fun label => contains combined_text (lower label))
    (chexpert_labels self).

(** [map_findings_to_ontology]; [list(set(matched_keywords))] keeps one
    copy of each keyword, in an order Python does not fix. *)
Definition map_findings_to_ontology (self : processor)
  (findings : list value) : result (list value) :=
  mapM (fun finding =>
    d <- as_dict finding ;;
    finding_name <- py_lower (get d "finding" (VStr "")) ;;
    evidence <- py_lower (get d "evidence" (VStr "")) ;;
    let combined_text := finding_name +:+ " " +:+ evidence in
    let (matched_conditions, matched_keywords) :=
      match_radlex self combined_text in
    let chexpert_matches := match_chexpert self combined_text in
    mapping_confidence <-
      _calculate_mapping_confidence matched_conditions chexpert_matches
        (get d "confidence" (VFloat (1 # 2))) ;;
    Ok (VDict (dict_set "ontology_mapping"
                 (VDict [("radlex_conditions",
                          VList (map VStr matched_conditions));
                         ("radlex_keywords",
                          VList (map VStr (remove_dups matched_keywords)));
                         ("chexpert_labels",
                          VList (map VStr chexpert_matches));
                         ("mapping_confidence", mapping_confidence)])
                 d)))
    findings.
(** [suggest_standard_terms]: the conditions with a keyword in the text,
then the labels in it, none listed twice. *)
Definition suggest_standard_terms (self : processor) (finding_text : string)
  : list string :=
  let finding_lower := lower finding_text in
  let add (suggestions : list string) (term : string) :=
    if existsb (String.eqb term) suggestions then suggestions
    else suggestions ++ [term] in
  let suggestions :=
    fold_left (fun suggestions (entry : string * list string) =>
      let (condition, keywords) := entry in
      fold_left (fun suggestions keyword =>
        if contains finding_lower (lower keyword)
        then add suggestions condition
        else suggestions)
        keywords suggestions)
      (radlex_terms self) [] in
  fold_left (fun suggestions label =>
    if contains finding_lower (lower label)
    then add suggestions label
    else suggestions)
    (chexpert_labels self) suggestions.

(** [f.get("ontology_mapping", {}).get(key)], as a truth value. *)
Definition mapped_to (key : string) (finding : value) : result bool :=
  d <- as_dict finding ;;
  ontology <- as_dict (get d "ontology_mapping" (VDict [])) ;;
  Ok (truthy (get ontology key VNone)).

(** [sum(1 for f in findings if ...)] *)
Definition count_mapped (key : string) (findings : list value) : result Z :=
  flags <- mapM (mapped_to key) findings ;;
  Ok (Z.of_nat (length (List.filter (fun b : bool => b) flags))).

(** [compensated]: whether [sum] is the one of Python 3.12 or later.  The
    quotient of two ints is the float nearest to it. *)
Definition get_ontology_statistics (compensated : bool)
  (findings : list value) : result dict :=
  let total_findings := Z.of_nat (length findings) in
  radlex_mapped <- count_mapped "radlex_conditions" findings ;;
  chexpert_mapped <- count_mapped "chexpert_labels" findings ;;
  avg_confidence <-
    (if 0 <? total_findings
     then
       confidences <-
         mapM (fun f => d <- as_dict f ;; Ok (get d "confidence" (VInt 0)))
           findings ;;
       mean compensated confidences total_findings
     else Ok 0%Q) ;;
  let ratio (n : Z) : value :=
    if 0 <? total_findings
    then VFloat (Binary64.nearest (inject_Z n / inject_Z total_findings))
    else VInt 0 in
  Ok [("total_findings", VInt total_findings);
      ("radlex_coverage", ratio radlex_mapped);
      ("chexpert_coverage", ratio chexpert_mapped);
      ("average_confidence",
       if 0 <? total_findings then VFloat (Binary64.round2d avg_confidence)
       else VInt 0);
      ("mapped_findings", VInt (radlex_mapped + chexpert_mapped))].

Section WithFormat.
(** [str(x)] and the format [f"{x:.1%}"] of a number. *)
Variable py_str : value -> string.
Variable percent : Q -> string.

(** The body of the loop of [validate_findings]: the warnings and the
suggestions after one more finding. *)
Definition validate_finding (acc : list string * list string)
  (finding : value) : result (list string * list string) :=
  let (warnings, suggestions) := acc in
  d <- as_dict finding ;;
  let finding_name := get d "finding" (VStr "") in
  ontology <- as_dict (get d "ontology_mapping" (VDict [])) ;;
  let warnings :=
    if negb (truthy (get ontology "radlex_conditions" VNone)) &&
       negb (truthy (get ontology "chexpert_labels" VNone))
    then warnings ++
         ["Finding '" +:+ fmt py_str finding_name +:+
          "' does not map to standard RadLex/CheXpert terms"]
    else warnings in
  confidence <- as_number (get d "confidence" (VFloat (1 # 2))) ;;
  if Qltb confidence (3 # 10) then
    Ok (warnings ++
        ["Low confidence (" +:+ percent confidence +:+ ") for finding '" +:+
         fmt py_str finding_name +:+ "'"],
        suggestions)
  else if Qltb (9 # 10) confidence &&
          negb (truthy (get ontology "radlex_conditions" VNone)) then
    Ok (warnings,
        suggestions ++
        ["High confidence finding '" +:+ fmt py_str finding_name +:+
         "' - consider verifying ontology mapping"])
  else Ok (warnings, suggestions).

Definition validate_findings (findings : list value) : result dict :=
  checked <- foldM validate_finding findings ([], []) ;;
  let (warnings, suggestions) := checked : list string * list string in
  Ok [("valid", VBool (match warnings with [] => true | _ :: _ => false end));
      ("warnings", VList (map VStr warnings));
      ("suggestions", VList (map VStr suggestions))].
End WithFormat.
End OntologyProcessor.

(** ** [modules/json_report_generator.py]: the normalizer *)

Module JsonReportGenerator.

(** The largest magnitude an [int] may have for [float(n)] to succeed:
    from [2^1024 - 2^970] on the conversion overflows. *)
Definition float_limit : Z := 2 ^ 1024 - 2 ^ 970.

Section WithParser.
(** [float(s)] for a text [s]: the number it denotes, or [None] where
    Python raises [ValueError]. *)
Variable float_of_text : string -> option Q.

(** [float(v)] *)
Definition py_float (v : value) : result Q :=
  match v with
  | VFloat q => Ok q
  | VInt n =>
      if Z.abs n <? float_limit then Ok (inject_Z n)
      else Raise OverflowError
  | VBool b => Ok (if b then 1%Q else 0%Q)
  | VStr s =>
      match float_of_text s with
      | Some q => Ok q
      | None => Raise ValueError
      end
  | _ => Raise TypeError
  end.

Definition normalize_finding (finding : dict) : result value :=
  confidence <- py_float (get finding "confidence" (VFloat (1 # 2))) ;;
  Ok (VDict [("finding", get finding "finding" (VStr ""));
             ("location", get finding "location" (VStr ""));
             ("evidence", get finding "evidence" (VStr ""));
             ("confidence", VFloat confidence);
             ("severity", get finding "severity" (VStr "unknown"))]).

(** The loop over [report["findings"]]: entries that are not dicts are
    dropped. *)
Fixpoint normalize_findings (findings : list value)
  : result (list value) :=
  match findings with
  | [] => Ok []
  | VDict finding :: rest =>
      normalized_finding <- normalize_finding finding ;;
      others <- normalize_findings rest ;;
      Ok (normalized_finding :: others)
  | _ :: rest => normalize_findings rest
  end.

Definition _normalize_report_structure (report : dict) : result dict :=
  findings <-
    match dict_get "findings" report with
    | Some (VList findings) => normalize_findings findings
    | _ => Ok []
    end ;;
  let impression := get report "impression" (VStr "") in
  let recommendations :=
    match dict_get "recommendations" report with
    | Some (VList l) => VList l
    | Some (VStr s) => VList [VStr s]
    | _ => VList []
    end in
  let metadata :=
    match dict_get "metadata" report with
    | Some (VDict m) => VDict m
    | _ => VDict []
    end in
  Ok [("findings", VList findings);
      ("impression", impression);
      ("recommendations", recommendations);
      ("metadata", metadata)].
End WithParser.
End JsonReportGenerator.

(** ** [modules/report_evaluator.py] *)

Module ReportEvaluator.

(** [radlex_dict.get(label, [])] *)
Fixpoint keywords_of (label : string) (radlex_dict : list (string * list string))
  : list string :=
  match radlex_dict with
  | [] => []
  | (k, keywords) :: rest =>
      if String.eqb label k then keywords else keywords_of label rest
  end.

(** [any(term.lower() in report_text.lower() for term in keywords)] *)
Definition mentions (report_text : string) (keywords : list string) : bool :=
  existsb (fun term => contains (lower report_text) (lower term)) keywords.

Definition compare_labels_with_report (labels : list string)
  (report_text : string) (radlex_dict : list (string * list string))
  : list string * list string :=
  fold_left (fun (acc : list string * list string) label =>
    let (matched, missed) := acc in
    if mentions report_text (keywords_of label radlex_dict)
    then (matched ++ [label], missed)
    else (matched, missed ++ [label]))
    labels ([], []).
End ReportEvaluator.

(** ** Vocabulary of the properties

    Predicates in which the properties below are stated.  They follow the
    wording of the specification, not the code. *)

(** A finding the rule applier can work on: a dict whose name is text and
    whose confidence (0.5 when absent) is a number. *)
Definition well_formed_finding (f : value) : bool :=
  match f with
  | VDict d =>
      match get d "finding" (VStr "") with
      | VStr _ => is_ok (as_number (get d "confidence" (VFloat (1 # 2))))
      | _ => false
      end
  | _ => false
  end.

(** "[pattern] is a case-insensitive substring of the finding's name". *)
Definition name_contains (pattern : string) (f : value) : bool :=
  match f with
  | VDict d =>
      match get d "finding" (VStr "") with
      | VStr name => contains (lower name) (lower pattern)
      | _ => false
      end
  | _ => false
  end.

(** "A rule, of any variant, whose pattern substring-matches at least one
    finding name". *)
Definition pattern_matches (findings : list value) (r : rule) : bool :=
  match rule_pattern r with
  | VStr pattern => existsb (name_contains pattern) findings
  | _ => false
  end.

(** The same for confidence-adjustment rules only. *)
Definition confidence_rule_matches (findings : list value) (r : rule)
  : bool :=
  is_confidence_adjustment r && pattern_matches findings r.

(** The keys of a finding that applying a rule may set. *)
Definition adjustment_key (k : string) : bool :=
  String.eqb k "confidence" || String.eqb k "confidence_adjusted" ||
  String.eqb k "adjustment_reason".

(** The arguments of a [log_feedback] call other than the image name and
    the edited report. *)
Module Payload.
Record t : Type := mk {
  now : string;
  original_report : dict;
  explanations : value;
  user_feedback : value;
  ontology_mapping : value;
  metadata : value
}.
End Payload.

(** The logger after one [log_feedback] call (the specification's
    [record()]), whatever the call returned or raised. *)
Definition record (self : FeedbackLogger.logger) (image_name : string)
  (p : Payload.t) (edited_report : option dict) : FeedbackLogger.logger :=
  fst (FeedbackLogger.log_feedback self (Payload.now p) image_name
         (Payload.original_report p) edited_report
         (Payload.explanations p) (Payload.user_feedback p)
         (Payload.ontology_mapping p) (Payload.metadata p)).

(** A sequence of calls, each with its image name, payload and edited
    report. *)
Definition record_all (self : FeedbackLogger.logger)
  (calls : list (string * Payload.t * option dict)) : FeedbackLogger.logger :=
  fold_left (fun self call =>
               record self (fst (fst call)) (snd (fst call)) (snd call))
    calls self.

(** The entries a read of the feedback log gives. *)
Definition entries_of (self : FeedbackLogger.logger) : list Entry.t :=
  match FeedbackLogger._load_logs self with
  | Ok logs => logs
  | Raise _ => []
  end.

Definition entries_for (image : string) (logs : list Entry.t)
  : list Entry.t :=
  List.filter (fun e => String.eqb (Entry.image e) image) logs.

Definition unedited_for (image : string) (logs : list Entry.t)
  : list Entry.t :=
  List.filter (fun e => String.eqb (Entry.image e) image &&
                        negb (Entry.has_edits e)) logs.

(** "For a given image name, at most one entry without edits exists". *)
Definition at_most_one_unedited (logs : list Entry.t) : Prop :=
  forall image, (length (unedited_for image logs) <= 1)%nat.

(** The call gets as far as saving the feedback log: counting the edits of
    a non-empty edited report does not raise. *)
Definition counts_edits (original_report : dict) (edited_report : option dict)
  : bool :=
  match edited_report with
  | Some edited =>
      if truthy (VDict edited)
      then is_ok (FeedbackLogger._count_edits original_report edited)
      else true
  | None => true
  end.

(** "Update or append" by recursion on the log: the first entry of the image
    that has no edits is replaced, and without such an entry the new one
    goes last. *)
Fixpoint upsert (image_name : string) (entry : Entry.t)
  (logs : list Entry.t) : list Entry.t :=
  match logs with
  | [] => [entry]
  | e :: rest =>
      if String.eqb (Entry.image e) image_name && negb (Entry.has_edits e)
      then entry :: rest
      else e :: upsert image_name entry rest
  end.


Definition bonus (hits : nat) : Q :=
  match hits with
  | O => 0
  | S O => 1 # 10
  | _ => 2 # 10
  end.

(** *** The order of discovery of the mined rules

    What the three passes of the miner meet, in the order of the log: the
    records one after the other, in a record the findings by position.  A
    key enters a dictionary the first time it is met. *)


Definition items (v : value) : list value :=
  match py_iter v with Ok l => l | Raise _ => [] end.












(** A number, and what a sum of numbers is: an int or a float. *)
Definition is_number (v : value) : bool := is_ok (as_number v).

Definition is_sum (v : value) : bool :=
  match v with
  | VInt _ | VFloat _ => true
  | _ => false
  end.

(** The confidences the summary adds up, and the mean it computes from
    them: 0 when there is no finding. *)
Definition confidence_values (findings : list value) : list value :=
  map (fun f => match f with
                | VDict d => get d "confidence" (VInt 0)
                | _ => VInt 0
                end) findings.





(** "A value [float()] accepts": a float, a boolean, an integer within
    the float range, or numeric text. *)
Definition float_accepts (float_of_text : string -> option Q) (v : value)
  : bool :=
  match v with
  | VFloat _ | VBool _ => true
  | VInt n => Z.abs n <? JsonReportGenerator.float_limit
  | VStr s =>
      match float_of_text s with Some _ => true | None => false end
  | _ => false
  end.

(** The exception of [float()] on a value it does not accept: an integer
    too large, text that is no number, or anything that is neither a
    number nor text. *)
Definition float_error (v : value) : exn :=
  match v with
  | VInt _ => OverflowError
  | VStr _ => ValueError
  | _ => TypeError
  end.

(** The first confidence (0.5 when absent), among the dicts of a list of
    findings, that [float()] does not accept. *)
Fixpoint first_rejected (float_of_text : string -> option Q)
  (findings : list value) : option value :=
  match findings with
  | [] => None
  | VDict d :: rest =>
      if float_accepts float_of_text (get d "confidence" (VFloat (1 # 2)))
      then first_rejected float_of_text rest
      else Some (get d "confidence" (VFloat (1 # 2)))
  | _ :: rest => first_rejected float_of_text rest
  end.

(** The same for a payload: only a ["findings"] that is a list is
    scanned. *)
Definition rejected_confidence (float_of_text : string -> option Q)
  (report : dict) : option value :=
  match dict_get "findings" report with
  | Some (VList findings) => first_rejected float_of_text findings
  | _ => None
  end.

(** A payload whose confidences can be coerced: where ["findings"] is a
    list, each dict in it has a confidence (0.5 when absent) that [float]
    accepts. *)
Definition coercible (float_of_text : string -> option Q) (report : dict)
  : bool :=
  match rejected_confidence float_of_text report with
  | None => true
  | Some _ => false
  end.

(** The dicts among the items of a list, in order. *)
Definition dicts_of (items : list value) : list dict :=
  flat_map (fun f => match f with VDict d => [d] | _ => [] end) items.

(** "[out] is the canonical finding of [src]": the five keys, the text
    fields defaulted, the confidence a float, 0.5 when [src] has none. *)
Definition canonical_finding (float_of_text : string -> option Q)
  (src : dict) (out : value) : Prop :=
  exists c,
    JsonReportGenerator.py_float float_of_text
      (get src "confidence" (VFloat (1 # 2))) = Ok c /\
    (dict_get "confidence" src = None -> c = (1 # 2)%Q) /\
    out = VDict [("finding", get src "finding" (VStr ""));
                 ("location", get src "location" (VStr ""));
                 ("evidence", get src "evidence" (VStr ""));
                 ("confidence", VFloat c);
                 ("severity", get src "severity" (VStr "unknown"))].

(** A list of keys without repetition. *)
Fixpoint no_dup (l : list string) : bool :=
  match l with
  | [] => true
  | x :: rest => negb (existsb (String.eqb x) rest) && no_dup rest
  end.

(** A value as Python can hold it: no dict in it has a key twice. *)
Fixpoint unique_keys (v : value) : bool :=
  match v with
  | VList l =>
      (fix all (l : list value) : bool :=
         match l with
         | [] => true
         | x :: rest => unique_keys x && all rest
         end) l
  | VDict d =>
      no_dup (map fst d) &&
      (fix all (d : list (string * value)) : bool :=
         match d with
         | [] => true
         | (_, x) :: rest => unique_keys x && all rest
         end) d
  | _ => true
  end.

(** The number of constructors of a value. *)
Fixpoint value_size (v : value) : nat :=
  match v with
  | VList l =>
      S ((fix sum (l : list value) : nat :=
            match l with
            | [] => O
            | x :: rest => (value_size x + sum rest)%nat
            end) l)
  | VDict d =>
      S ((fix sum (d : list (string * value)) : nat :=
            match d with
            | [] => O
            | (_, x) :: rest => (value_size x + sum rest)%nat
            end) d)
  | _ => 1%nat
  end.

Definition is_dict (v : value) : bool :=
  match v with VDict _ => true | _ => false end.

(** What the rule applier may have done to a finding: nothing, or an
    adjustment by one of the confidence rules, which leaves a confidence in
    [0, 1] that is a whole number of hundredths, the mark and the reason. *)
Definition adjusted_or_same (rules : list rule) (finding improved : value)
  : Prop :=
  improved = finding \/
  exists (d : dict) (c : Q) (z : Z) (pattern : string) (adjustment : Q)
         (support : Z),
    improved = VDict d /\
    In (ConfidenceAdjustment pattern adjustment support) rules /\
    dict_get "confidence" d = Some (VFloat c) /\
    (0 <= c)%Q /\ (c <= 1)%Q /\ (c * 100 == inject_Z z)%Q /\
    dict_get "confidence_adjusted" d = Some (VBool true) /\
    dict_get "adjustment_reason" d =
      Some (VStr ("Based on learned pattern: " +:+ pattern)).

(** The thresholds a mined rule has passed. *)
Definition within_thresholds (min_support : Z) (r : rule) : Prop :=
  match r with
  | EditPattern _ support confidence =>
      min_support <= support /\ (0 <= confidence)%Q
  | ConfidenceAdjustment _ adjustment support =>
      (1 # 10 <= Qabs adjustment)%Q /\ 0 <= support
  | FindingAssociation _ associations support =>
      support = Z.of_nat (length associations) /\ min_support <= support
  end.

(** A term is listed once: it goes last unless it is there already. *)
Definition add_once (terms : list string) (term : string) : list string :=
  if existsb (String.eqb term) terms then terms else terms ++ [term].

(** "[keyword], in lower case, occurs in [text]". *)
Definition keyword_in (text keyword : string) : bool :=
  contains text (lower keyword).

(** An entry of the condition table one of whose keywords occurs in
    [text]. *)
Definition condition_hit (text : string) (entry : string * list string)
  : bool :=
  existsb (keyword_in text) (snd entry).

(** "[condition] is a condition of the table with a keyword in [text]" and
    "[keyword] is a keyword of the table that occurs in [text]". *)
Definition condition_matches (self : OntologyProcessor.processor)
  (text condition : string) : Prop :=
  exists keywords keyword,
    In (condition, keywords) (OntologyProcessor.radlex_terms self) /\
    In keyword keywords /\ keyword_in text keyword = true.

Definition keyword_matches (self : OntologyProcessor.processor)
  (text keyword : string) : Prop :=
  exists condition keywords,
    In (condition, keywords) (OntologyProcessor.radlex_terms self) /\
    In keyword keywords /\ keyword_in text keyword = true.

(** "[enhanced] is [finding] with its ontology mapping": the finding is a
    dict with a text name and evidence, and gets one more key, which holds
    the matched conditions and keywords (each once), the labels matched (in
    the order of the label list) and the mapping confidence. *)
Definition mapped_by (self : OntologyProcessor.processor)
  (finding enhanced : value) : Prop :=
  exists (d : dict) (name evidence : string)
         (conditions keywords labels : list string) (confidence : value),
    finding = VDict d /\
    get d "finding" (VStr "") = VStr name /\
    get d "evidence" (VStr "") = VStr evidence /\
    enhanced =
      VDict (dict_set "ontology_mapping"
               (VDict [("radlex_conditions", VList (map VStr conditions));
                       ("radlex_keywords", VList (map VStr keywords));
                       ("chexpert_labels", VList (map VStr labels));
                       ("mapping_confidence", confidence)])
               d) /\
    NoDup conditions /\ NoDup keywords /\
    (forall c, In c conditions <->
               condition_matches self (lower name +:+ " " +:+ lower evidence) c)
    /\
    (forall k, In k keywords <->
               keyword_matches self (lower name +:+ " " +:+ lower evidence) k)
    /\
    labels = List.filter (keyword_in (lower name +:+ " " +:+ lower evidence))
               (OntologyProcessor.chexpert_labels self) /\
    OntologyProcessor._calculate_mapping_confidence conditions labels
      (get d "confidence" (VFloat (1 # 2))) = Ok confidence.




(** A finding with a truthy entry under [key] in its ontology mapping. *)
Definition has_entry (key : string) (finding : value) : bool :=
  match finding with
  | VDict d =>
      match get d "ontology_mapping" (VDict []) with
      | VDict ontology => truthy (get ontology key VNone)
      | _ => false
      end
  | _ => false
  end.


(** A finding that [validate_findings] lets pass without a warning: it maps
    to a condition or to a label, and its confidence is 0.3 or more. *)
Definition acceptable (finding : value) : bool :=
  match finding with
  | VDict d =>
      match get d "ontology_mapping" (VDict []),
            as_number (get d "confidence" (VFloat (1 # 2))) with
      | VDict ontology, Ok confidence =>
          (truthy (get ontology "radlex_conditions" VNone) ||
           truthy (get ontology "chexpert_labels" VNone)) &&
          Qle_bool (3 # 10) confidence
      | _, _ => false
      end
  | _ => false
  end.

Definition is_empty {A : Type} (l : list A) : bool :=
  match l with [] => true | _ :: _ => false end.

(** The entry that closes the evidence chain of a finding of high
    confidence. *)
Definition high_confidence_entry : value :=
  ExplainabilityEngine.evidence_entry "confidence"
    (VStr "High confidence based on clear radiographic features").

(** What the summary reads of a finding: its name, confidence and location
    as they go into ["key_findings"], and its confidence as a number. *)
Definition summary_view (dc : dict * Q) : value * Q :=
  (ExplainabilityEngine.key_finding (fst dc), snd dc).

(** "[explained] is [finding] with its explanation": one key more, which
    holds what [_explain_finding] gives for the finding. *)
Definition explained_by (py_str : value -> string) (percent : Q -> string)
  (finding explained : value) : Prop :=
  exists (d explanation : dict),
    finding = VDict d /\
    ExplainabilityEngine._explain_finding py_str percent d = Ok explanation /\
    explained = VDict (dict_set "explanation" (VDict explanation) d).

(** "The report text mentions [label]": one of the keywords the table gives
    for the label occurs in it, case apart. *)
Definition mentioned (report_text : string)
  (radlex_dict : list (string * list string)) (label : string) : bool :=
  ReportEvaluator.mentions report_text
    (ReportEvaluator.keywords_of label radlex_dict).

(** ** Sample data

    Concrete reports, rules and log records on which the properties below
    are exercised. *)

Definition sample_finding : dict :=
  [("finding", VStr "Cardiomegaly");
   ("location", VStr "cardiac silhouette");
   ("evidence", VStr "Enlarged cardiac silhouette");
   ("confidence", VFloat (75 # 100));
   ("severity", VStr "mild")].

(** A finding with a name and a confidence, and the report that holds it. *)
Definition finding_of (name : string) (confidence : Q) : dict :=
  [("finding", VStr name); ("confidence", VFloat confidence)].

Definition report_of (findings : list dict) : dict :=
  [("findings", VList (map VDict findings))].

Definition cardiomegaly_rule : rule :=
  ConfidenceAdjustment "Cardiomegaly" (2 # 5) 1.

(** The learning record of the end-to-end scenario: one finding, whose
    confidence the radiologist raised from 0.5 to 0.9. *)
Definition cardiomegaly_record (timestamp image : string)
  (explanations user_feedback ontology_mapping : value) (edit_count : Z)
  : LearningEntry.t :=
  LearningEntry.mk timestamp image
    (VList [VDict (finding_of "Cardiomegaly" (1 # 2))])
    (VList [VDict (finding_of "Cardiomegaly" (9 # 10))])
    explanations user_feedback ontology_mapping true edit_count.

(** A log of one record, without edits, whose report has three findings. *)
Definition association_log : list LearningEntry.t :=
  [LearningEntry.mk "2025-01-01T10:30:00" "x.jpg"
     (VList [VDict (finding_of "Cardiomegaly" (1 # 2));
             VDict (finding_of "Edema" (6 # 10));
             VDict (finding_of "Effusion" (7 # 10))])
     (VList []) (VList []) (VDict []) (VDict []) false 0].

(** Three calls for one image: two automatic logs of a generated report,
    then the radiologist's edit. *)
Definition generated_report : dict :=
  report_of [finding_of "Cardiomegaly" (1 # 2)].

Definition corrected_report : dict :=
  report_of [finding_of "Cardiomegaly" (9 # 10)].

Definition payload_at (now : string) : Payload.t :=
  Payload.mk now generated_report VNone VNone VNone VNone.

Definition empty_logger : FeedbackLogger.logger :=
  {| FeedbackLogger.feedback_log := Missing;
     FeedbackLogger.learning_data := Missing |}.

Definition after_three_calls : FeedbackLogger.logger :=
  record
    (record
       (record empty_logger "x.jpg" (payload_at "2025-01-01T10:00:00") None)
       "x.jpg" (payload_at "2025-01-01T10:05:00") None)
    "x.jpg" (payload_at "2025-01-01T10:30:00") (Some corrected_report).

(** A small condition table and label list. *)
Definition sample_processor : OntologyProcessor.processor :=
  {| OntologyProcessor.radlex_terms :=
       [("Cardiomegaly", ["enlarged cardiac silhouette"; "Cardiomegaly"]);
        ("Edema", ["edema"; "Kerley"])];
     OntologyProcessor.chexpert_labels := ["Cardiomegaly"; "Edema"] |}.

(** A call that carries the radiologist's edit, on an empty store. *)
Definition edit_calls : list (string * Payload.t * option dict) :=
  [("x.jpg", payload_at "2025-01-01T10:00:00", None);
   ("x.jpg", payload_at "2025-01-01T10:30:00", Some corrected_report)].

(** * Properties *)

(** ** Results and dictionaries *)

Lemma bind_ok {A B} (m : result A) (k : A -> result B) (b : B) :
  bind m k = Ok b -> exists a, m = Ok a /\ k a = Ok b.
Proof. destruct m as [a|e]; simpl; [eauto | discriminate]. Qed.

(** Splits a hypothesis [x <- m ;; k = Ok b] into its two steps. *)
Ltac bind_inv H :=
  let a := fresh "a" in
  let Ha := fresh "Ha" in
  apply bind_ok in H; destruct H as (a & Ha & H).

Lemma mapM_length {A B} (f : A -> result B) xs ys :
  mapM f xs = Ok ys -> length ys = length xs.
Proof.
  revert ys; induction xs as [|x xs IH]; simpl; intros ys H.
  - injection H as <-; reflexivity.
  - bind_inv H. bind_inv H. injection H as <-. simpl. f_equal. eauto.
Qed.


Lemma mapM_total {A B} (f : A -> result B) xs :
  Forall (fun x => exists y, f x = Ok y) xs -> exists ys, mapM f xs = Ok ys.
Proof.
  induction 1 as [|x xs [y Hy] _ [ys Hys]]; simpl.
  - eauto.
  - rewrite Hy, Hys. simpl. eauto.
Qed.

Lemma dict_get_set_eq k v d : dict_get k (dict_set k v d) = Some v.
Proof.
  induction d as [|[k' v'] d IH]; simpl.
  - now rewrite String.eqb_refl.
  - destruct (String.eqb k k') eqn:E; simpl; rewrite E; auto.
Qed.

Lemma dict_get_set_ne k k' v d :
  k <> k' -> dict_get k' (dict_set k v d) = dict_get k' d.
Proof.
  intros Hne. induction d as [|[k0 v0] d IH]; simpl.
  - destruct (String.eqb k' k) eqn:E; [|reflexivity].
    apply String.eqb_eq in E. congruence.
  - destruct (String.eqb k k0) eqn:E; simpl.
    + apply String.eqb_eq in E. subst k0.
      destruct (String.eqb k' k) eqn:E'; [|reflexivity].
      apply String.eqb_eq in E'. congruence.
    + now rewrite IH.
Qed.

Lemma get_set_ne k k' v d default :
  k <> k' -> get (dict_set k v d) k' default = get d k' default.
Proof. intros H. unfold get. now rewrite dict_get_set_ne. Qed.




(** ** Reading a log that is missing or is not JSON *)

Section ReadFailure.
Import FeedbackLogger ContinuousLearningEngine.


(** The claim C9 as stated fails: a log whose bytes are not UTF-8 cannot be
    decoded, and its read raises [UnicodeDecodeError], which is neither of
    the two exceptions caught; so do the statistics and the mining. *)
Lemma undecodable_log_raises :
  let self :=
    {| feedback_log := Unreadable UnicodeDecodeError;
       learning_data := Unreadable UnicodeDecodeError |} in
  _load_logs self = Raise UnicodeDecodeError /\
  _load_learning_data self = Raise UnicodeDecodeError /\
  get_feedback_statistics self = Raise UnicodeDecodeError /\
  load_learning_data (Unreadable UnicodeDecodeError) =
    Raise UnicodeDecodeError /\
  mine_rules (fun _ => "") (fun s => s) (Unreadable UnicodeDecodeError)
    init 2 = Raise UnicodeDecodeError.
Proof. repeat split. Qed.

End ReadFailure.

(** ** Rational comparisons as booleans *)

Lemma Qltb_lt x y : Qltb x y = true <-> (x < y)%Q.
Proof.
  unfold Qltb. rewrite negb_true_iff.
  split.
  - intros H. apply Qnot_le_lt. intros Hle.
    apply Qle_bool_iff in Hle. congruence.
  - intros H. destruct (Qle_bool y x) eqn:E; [|reflexivity].
    apply Qle_bool_iff in E. exfalso. apply (Qlt_not_le _ _ H E).
Qed.

Lemma Qltb_ge x y : Qltb x y = false <-> (y <= x)%Q.
Proof.
  unfold Qltb. rewrite negb_false_iff. apply Qle_bool_iff.
Qed.

Lemma Qle_bool_false x y : Qle_bool x y = false <-> (y < x)%Q.
Proof.
  split.
  - intros H. apply Qnot_le_lt. intros Hle.
    apply Qle_bool_iff in Hle. congruence.
  - intros H. destruct (Qle_bool x y) eqn:E; [|reflexivity].
    apply Qle_bool_iff in E. exfalso. apply (Qlt_not_le _ _ H E).
Qed.

(** ** Rounding to hundredths *)

Lemma round_half_even_spec (q : Q) :
  let r := round_half_even q in
  let n := Qnum q in
  let d := Zpos (Qden q) in
  (2 * r - 1) * d <= 2 * n <= (2 * r + 1) * d /\
  (2 * n = (2 * r - 1) * d \/ 2 * n = (2 * r + 1) * d -> Z.even r = true).
Proof.
  unfold round_half_even. cbv zeta.
  set (n := Qnum q). set (d := Zpos (Qden q)).
  assert (Hd : 0 < d) by (unfold d; lia).
  pose proof (Z.div_mod n d ltac:(lia)) as Hdm.
  pose proof (Z.mod_pos_bound n d Hd) as Hm.
  set (f := n / d) in *. set (m := n mod d) in *.
  destruct (2 * m <? d) eqn:E1; [apply Z.ltb_lt in E1|apply Z.ltb_ge in E1].
  - split; [nia|]. intros [H|H]; exfalso; nia.
  - destruct (d <? 2 * m) eqn:E2; [apply Z.ltb_lt in E2|apply Z.ltb_ge in E2].
    + split; [nia|]. intros [H|H]; exfalso; nia.
    + destruct (Z.even f) eqn:Ef.
      * split; [nia|]. intros _. exact Ef.
      * split; [nia|]. intros _.
        rewrite Z.add_1_r, Z.even_succ, <- Z.negb_even, Ef. reflexivity.
Qed.

Lemma round_half_even_mono (q1 q2 : Q) :
  (q1 <= q2)%Q -> round_half_even q1 <= round_half_even q2.
Proof.
  intros Hle. unfold Qle in Hle.
  destruct (round_half_even_spec q1) as [[L1 U1] T1].
  destruct (round_half_even_spec q2) as [[L2 U2] T2].
  cbv zeta in *.
  set (r1 := round_half_even q1) in *. set (r2 := round_half_even q2) in *.
  set (n1 := Qnum q1) in *. set (n2 := Qnum q2) in *.
  set (d1 := Zpos (Qden q1)) in *. set (d2 := Zpos (Qden q2)) in *.
  assert (Hd1 : 0 < d1) by (unfold d1; lia).
  assert (Hd2 : 0 < d2) by (unfold d2; lia).
  destruct (Z_le_gt_dec r1 r2) as [|Hgt]; [assumption|exfalso].
  assert (H1 : (2 * r1 - 1) * d1 * d2 <= 2 * n1 * d2) by nia.
  assert (H2 : 2 * n2 * d1 <= (2 * r2 + 1) * d2 * d1) by nia.
  assert (H3 : 2 * n1 * d2 <= 2 * n2 * d1) by lia.
  assert (H4 : (2 * r1 - 1) * (d1 * d2) <= (2 * r2 + 1) * (d1 * d2)) by lia.
  assert (Hp : 0 < d1 * d2) by nia.
  assert (H5 : 2 * r1 - 1 <= 2 * r2 + 1) by nia.
  assert (Hr : r1 = r2 + 1) by lia.
  assert (E1 : 2 * n1 * d2 = (2 * r1 - 1) * d1 * d2) by nia.
  assert (E2 : 2 * n2 * d1 = (2 * r2 + 1) * d2 * d1) by nia.
  assert (Ev1 : Z.even r1 = true) by (apply T1; left; nia).
  assert (Ev2 : Z.even r2 = true) by (apply T2; right; nia).
  rewrite Hr, Z.add_1_r, Z.even_succ, <- Z.negb_even, Ev2 in Ev1.
  discriminate.
Qed.

Lemma round_half_even_inject (z : Z) : round_half_even (inject_Z z) = z.
Proof.
  unfold round_half_even, inject_Z. simpl.
  rewrite Z.div_1_r, Z.mod_1_r. reflexivity.
Qed.

Lemma round_half_even_integer (q : Q) (z : Z) :
  (q == inject_Z z)%Q -> round_half_even q = z.
Proof.
  intros H. rewrite <- (round_half_even_inject z).
  apply Z.le_antisymm; apply round_half_even_mono; rewrite H; apply Qle_refl.
Qed.

Lemma round2_eq (q : Q) : (round2 q == round_half_even (q * 100) # 100)%Q.
Proof. apply Qred_correct. Qed.

Lemma round2_mono (q1 q2 : Q) : (q1 <= q2)%Q -> (round2 q1 <= round2 q2)%Q.
Proof.
  intros H. rewrite !round2_eq.
  assert (Hm : round_half_even (q1 * 100) <= round_half_even (q2 * 100)).
  { apply round_half_even_mono. apply Qmult_le_compat_r; [exact H|discriminate]. }
  unfold Qle. simpl. lia.
Qed.


Lemma Qmake_100 (r : Z) : (r # 100 == inject_Z r * (1 # 100))%Q.
Proof. unfold Qeq, Qmult, inject_Z. simpl. lia. Qed.


Lemma round2_exact (q : Q) (z : Z) :
  (q * 100 == inject_Z z)%Q -> (round2 q == q)%Q.
Proof.
  intros H. rewrite round2_eq, (round_half_even_integer _ _ H).
  assert (Hq : (q == inject_Z z / 100)%Q).
  { rewrite <- H. field. }
  rewrite Hq. unfold Qeq, Qdiv, Qmult, Qinv, inject_Z. simpl. lia.
Qed.

Lemma round2_proper (q1 q2 : Q) : (q1 == q2)%Q -> (round2 q1 == round2 q2)%Q.
Proof.
  intros H. apply Qle_antisym; apply round2_mono; rewrite H; apply Qle_refl.
Qed.

Lemma min1_spec (x : Q) :
  ((x < 1)%Q /\ min1 x = x) \/ ((1 <= x)%Q /\ min1 x = 1%Q).
Proof.
  unfold min1. destruct (Qltb x 1) eqn:E.
  - left. split; [now apply Qltb_lt|reflexivity].
  - right. split; [now apply Qltb_ge|reflexivity].
Qed.

(** ** Floating point: rounding to the nearest float *)

Section Binary64Facts.
Import Binary64.

Lemma inject_Z_pos (z : Z) : 0 < z -> (0 < inject_Z z)%Q.
Proof. intros H. change 0%Q with (inject_Z 0). now rewrite <- Zlt_Qlt. Qed.

Lemma spacing_pos (x : Q) : 0 < spacing x.
Proof. unfold spacing. apply Z.pow_pos_nonneg; lia. Qed.

Lemma round_half_even_nonneg (q : Q) : (0 <= q)%Q -> 0 <= round_half_even q.
Proof.
  intros H. rewrite <- (round_half_even_inject 0).
  now apply round_half_even_mono.
Qed.

(** Rounding to the multiples of [s]. *)
Lemma grid_mono (s : Z) (x y : Q) :
  0 < s -> (x <= y)%Q ->
  round_half_even (x / inject_Z s) * s <= round_half_even (y / inject_Z s) * s.
Proof.
  intros Hs H. apply Z.mul_le_mono_nonneg_r; [lia|].
  apply round_half_even_mono.
  apply Qmult_le_compat_r; [exact H|].
  apply Qinv_le_0_compat. apply Qlt_le_weak. now apply inject_Z_pos.
Qed.

Lemma grid_upper (s k : Z) (x : Q) :
  0 < s -> (x <= inject_Z (k * s))%Q ->
  round_half_even (x / inject_Z s) * s <= k * s.
Proof.
  intros Hs H. apply Z.mul_le_mono_nonneg_r; [lia|].
  rewrite <- (round_half_even_inject k). apply round_half_even_mono.
  apply Qle_shift_div_r; [now apply inject_Z_pos|].
  now rewrite <- inject_Z_mult.
Qed.

Lemma grid_lower (s k : Z) (x : Q) :
  0 < s -> (inject_Z (k * s) <= x)%Q ->
  k * s <= round_half_even (x / inject_Z s) * s.
Proof.
  intros Hs H. apply Z.mul_le_mono_nonneg_r; [lia|].
  rewrite <- (round_half_even_inject k) at 1. apply round_half_even_mono.
  apply Qle_shift_div_l; [now apply inject_Z_pos|].
  now rewrite <- inject_Z_mult.
Qed.

Lemma log2_upper (n : Z) : 0 <= n -> n < 2 ^ (Z.log2 n + 1).
Proof.
  intros H. destruct (Z.eq_dec n 0) as [->|Hn]; [reflexivity|].
  pose proof (Z.log2_spec n ltac:(lia)) as [_ Hu].
  now rewrite Z.add_1_r.
Qed.

Lemma Qfloor_nonneg (x : Q) : (0 <= x)%Q -> 0 <= Qfloor x.
Proof.
  intros H. change 0 with (Qfloor 0). now apply Qfloor_resp_le.
Qed.

Lemma below_next_binade (x : Q) (g : Z) :
  (0 <= x)%Q -> Z.log2 (Qfloor x) - 52 <= g -> 0 <= g ->
  (x <= inject_Z (2 ^ 53 * 2 ^ g))%Q.
Proof.
  intros Hx Hg H0.
  pose proof (Qfloor_nonneg x Hx) as Hf.
  pose proof (log2_upper _ Hf) as Hu.
  assert (Hp : 2 ^ (Z.log2 (Qfloor x) + 1) <= 2 ^ (53 + g))
    by (apply Z.pow_le_mono_r; lia).
  rewrite <- Z.pow_add_r by lia.
  apply Qlt_le_weak. eapply Qlt_le_trans; [apply Qlt_floor|].
  rewrite <- Zle_Qle. lia.
Qed.

Lemma above_binade (x : Q) (g : Z) :
  0 < g -> g = Z.log2 (Qfloor x) - 52 ->
  (inject_Z (2 ^ 52 * 2 ^ g) <= x)%Q.
Proof.
  intros H0 Hg.
  assert (Hl : 0 < Z.log2 (Qfloor x)) by lia.
  assert (Hf : 0 < Qfloor x).
  { destruct (Z_lt_le_dec 0 (Qfloor x)) as [|Hn]; [assumption|].
    rewrite (Z.log2_nonpos _ Hn) in Hl. lia. }
  pose proof (Z.log2_spec _ Hf) as [Hlo _].
  rewrite <- Z.pow_add_r by lia.
  eapply Qle_trans; [|apply Qfloor_le].
  rewrite <- Zle_Qle. replace (52 + g) with (Z.log2 (Qfloor x)) by lia.
  exact Hlo.
Qed.

Lemma nearest_units_mono (x y : Q) :
  (0 <= x)%Q -> (x <= y)%Q -> nearest_units x <= nearest_units y.
Proof.
  intros Hx Hxy. unfold nearest_units, spacing.
  set (gx := Z.max (Z.log2 (Qfloor x) - 52) 0).
  set (gy := Z.max (Z.log2 (Qfloor y) - 52) 0).
  assert (Hg : gx <= gy).
  { unfold gx, gy. apply Z.max_le_compat_r.
    apply Z.sub_le_mono_r. apply Z.log2_le_mono.
    now apply Qfloor_resp_le. }
  assert (Hgx : 0 <= gx) by (unfold gx; lia).
  destruct (Z.eq_dec gx gy) as [E|Hne].
  - rewrite E. apply grid_mono; [apply Z.pow_pos_nonneg; lia|exact Hxy].
  - assert (Hlt : gx < gy) by lia.
    assert (Hsx : 0 < 2 ^ gx) by (apply Z.pow_pos_nonneg; lia).
    assert (Hsy : 0 < 2 ^ gy) by (apply Z.pow_pos_nonneg; lia).
    transitivity (2 ^ 53 * 2 ^ gx).
    + apply grid_upper; [exact Hsx|].
      apply below_next_binade; [exact Hx|unfold gx; lia|exact Hgx].
    + transitivity (2 ^ 52 * 2 ^ gy).
      * rewrite <- !Z.pow_add_r by lia. apply Z.pow_le_mono_r; lia.
      * apply grid_lower; [exact Hsy|].
        apply above_binade; [lia|unfold gy in *; lia].
Qed.

Lemma nearest_units_nonneg (x : Q) : (0 <= x)%Q -> 0 <= nearest_units x.
Proof.
  intros H. unfold nearest_units.
  apply Z.mul_nonneg_nonneg; [|pose proof (spacing_pos x); lia].
  apply round_half_even_nonneg.
  apply Qle_shift_div_l; [apply inject_Z_pos, spacing_pos|].
  now rewrite Qmult_0_l.
Qed.

Lemma units_pos : 0 < units.
Proof. reflexivity. Qed.

Lemma nearest_nonneg_case (q : Q) :
  (0 <= q)%Q ->
  (nearest q == inject_Z (nearest_units (q * inject_Z units)) / inject_Z units)%Q.
Proof.
  intros H. unfold nearest. apply Qle_bool_iff in H. rewrite H.
  apply Qred_correct.
Qed.

Lemma nearest_neg_case (q : Q) :
  (q < 0)%Q ->
  (nearest q ==
   - (inject_Z (nearest_units (- q * inject_Z units)) / inject_Z units))%Q.
Proof.
  intros H. unfold nearest. apply Qle_bool_false in H. rewrite H.
  apply Qred_correct.
Qed.

Lemma in_units_nonneg (q : Q) : (0 <= q)%Q -> (0 <= q * inject_Z units)%Q.
Proof.
  intros H. apply Qmult_le_0_compat; [exact H|].
  apply Qlt_le_weak, inject_Z_pos, units_pos.
Qed.

Lemma from_units_nonneg (z : Z) : 0 <= z -> (0 <= inject_Z z / inject_Z units)%Q.
Proof.
  intros H. apply Qle_shift_div_l; [apply inject_Z_pos, units_pos|].
  rewrite Qmult_0_l. change 0%Q with (inject_Z 0). now rewrite <- Zle_Qle.
Qed.

Lemma from_units_mono (a b : Z) :
  a <= b -> (inject_Z a / inject_Z units <= inject_Z b / inject_Z units)%Q.
Proof.
  intros H. apply Qmult_le_compat_r; [now rewrite <- Zle_Qle|].
  apply Qinv_le_0_compat, Qlt_le_weak, inject_Z_pos, units_pos.
Qed.

Lemma nearest_nonneg (q : Q) : (0 <= q)%Q -> (0 <= nearest q)%Q.
Proof.
  intros H. rewrite (nearest_nonneg_case q H).
  apply from_units_nonneg, nearest_units_nonneg, in_units_nonneg, H.
Qed.

Lemma nearest_nonpos (q : Q) : (q < 0)%Q -> (nearest q <= 0)%Q.
Proof.
  intros H. rewrite (nearest_neg_case q H).
  assert (Hq : (0 <= - q)%Q) by lra.
  pose proof (from_units_nonneg _ (nearest_units_nonneg _ (in_units_nonneg _ Hq))).
  lra.
Qed.

(** Rounding to the nearest float is monotone. *)
Lemma nearest_mono (x y : Q) : (x <= y)%Q -> (nearest x <= nearest y)%Q.
Proof.
  intros H.
  destruct (Qlt_le_dec x 0) as [Hx|Hx], (Qlt_le_dec y 0) as [Hy|Hy].
  - rewrite (nearest_neg_case x Hx), (nearest_neg_case y Hy).
    apply Qopp_le_compat. apply from_units_mono.
    apply nearest_units_mono.
    + apply in_units_nonneg. lra.
    + apply Qmult_le_compat_r; [lra|].
      apply Qlt_le_weak, inject_Z_pos, units_pos.
  - eapply Qle_trans; [apply nearest_nonpos, Hx|apply nearest_nonneg, Hy].
  - exfalso. lra.
  - rewrite (nearest_nonneg_case x Hx), (nearest_nonneg_case y Hy).
    apply from_units_mono. apply nearest_units_mono.
    + now apply in_units_nonneg.
    + apply Qmult_le_compat_r; [exact H|].
      apply Qlt_le_weak, inject_Z_pos, units_pos.
Qed.
End Binary64Facts.

Section Binary64Error.
Import Binary64.







Lemma nearest_0 : nearest 0 = 0%Q.
Proof. vm_compute. reflexivity. Qed.

Lemma nearest_1 : nearest 1 = 1%Q.
Proof. vm_compute. reflexivity. Qed.
End Binary64Error.

(** ** Sums of numbers do not raise *)

Section Sums.

Lemma py_add_numbers (a b : value) :
  is_number a = true -> is_number b = true ->
  exists r, py_add a b = Ok r /\ is_sum r = true.
Proof.
  destruct a, b; simpl; intros Ha Hb; try discriminate;
    eexists; (split; [reflexivity|reflexivity]).
Qed.

Lemma is_sum_number (v : value) : is_sum v = true -> is_number v = true.
Proof. now destruct v. Qed.

Lemma sum_left_numbers (xs : list value) : forall acc,
  is_sum acc = true -> Forall (fun v => is_number v = true) xs ->
  exists r, foldM py_add xs acc = Ok r /\ is_sum r = true.
Proof.
  induction xs as [|x xs IH]; intros acc Hacc Hxs.
  - exists acc. split; [reflexivity|exact Hacc].
  - inversion Hxs as [|? ? Hx Hrest]; subst.
    destruct (py_add_numbers acc x (is_sum_number _ Hacc) Hx) as (r & Hr & Hs).
    cbn [foldM]. rewrite Hr. cbn [bind]. now apply IH.
Qed.

Lemma sum_floats_numbers (xs : list value) : forall acc,
  Forall (fun v => is_number v = true) xs ->
  exists r, sum_floats xs acc = Ok r /\ is_sum r = true.
Proof.
  induction xs as [|x xs IH]; intros acc Hxs.
  - eexists. split; reflexivity.
  - inversion Hxs as [|? ? Hx Hrest]; subst.
    destruct x as [|b|k|q| | |]; try discriminate Hx; cbn [sum_floats int_of].
    + destruct (fits_long _); [now apply IH|].
      cbn [py_add int_of as_number bind]. apply sum_left_numbers; auto.
    + destruct (fits_long _); [now apply IH|].
      cbn [py_add int_of as_number bind]. apply sum_left_numbers; auto.
    + now apply IH.
Qed.

Lemma sum_ints_numbers (xs : list value) : forall total,
  Forall (fun v => is_number v = true) xs ->
  exists r, sum_ints xs total = Ok r /\ is_sum r = true.
Proof.
  induction xs as [|x xs IH]; intros total Hxs.
  - eexists. split; reflexivity.
  - inversion Hxs as [|? ? Hx Hrest]; subst.
    destruct x as [|b|k|q| | |]; try discriminate Hx; cbn [sum_ints int_of].
    + destruct (fits_long _ && fits_long _); [now apply IH|].
      apply sum_left_numbers; auto.
    + destruct (fits_long _ && fits_long _); [now apply IH|].
      apply sum_left_numbers; auto.
    + cbn [py_add int_of as_number bind]. now apply sum_floats_numbers.
Qed.

(** [sum] does not raise on numbers, and gives an int or a float. *)
Lemma py_sum_numbers (compensated : bool) (xs : list value) :
  Forall (fun v => is_number v = true) xs ->
  exists r, py_sum compensated xs = Ok r /\ is_sum r = true.
Proof.
  intros H. unfold py_sum. destruct compensated.
  - now apply sum_ints_numbers.
  - now apply sum_left_numbers.
Qed.

Lemma mean_numbers (compensated : bool) (xs : list value) (n : Z) :
  Forall (fun v => is_number v = true) xs ->
  exists avg, mean compensated xs n = Ok avg.
Proof.
  intros H. destruct (py_sum_numbers compensated xs H) as (r & Hr & Hs).
  unfold mean. rewrite Hr. cbn [bind].
  destruct r; try discriminate Hs; eauto.
Qed.

(** What the passes over the findings read. *)
Lemma scored_values (findings : list value) : forall scored,
  mapM (fun f => d <- as_dict f ;;
                 c <- as_number (get d "confidence" (VInt 0)) ;;
                 Ok (d, c)) findings = Ok scored ->
  map (fun dc : dict * Q => get (fst dc) "confidence" (VInt 0)) scored =
    confidence_values findings /\
  Forall (fun v => is_number v = true) (confidence_values findings).
Proof.
  induction findings as [|f findings IH]; intros scored H.
  - injection H as <-. split; [reflexivity|constructor].
  - cbn [mapM] in H. bind_inv H. bind_inv H. injection H as <-.
    bind_inv Ha. bind_inv Ha. injection Ha as <-.
    destruct f as [| | | | | |d]; try discriminate. injection Ha1 as <-.
    destruct (IH _ Ha0) as [E F]. cbn [map fst confidence_values].
    split; [now rewrite E|]. constructor; [|exact F].
    unfold is_number. now rewrite Ha2.
Qed.
End Sums.

(** ** Explainability: the confidence buckets *)

Section Bucketing.
Import ExplainabilityEngine.









(** The claim C7 as stated fails for the summary.  Three findings of
    confidence 0.7 have the mean 0.7, yet the summary calls them "medium":
    the floating-point sum divided by 3 is 0.6999999999999998, below the
    float 0.7, with the plain sum as with the compensated one.  Likewise
    0.1 and 0.7, of mean 0.4, are "low". *)
Lemma reliability_misses_exact_mean :
  forall compensated : bool,
    (exists summary,
       generate_summary_explanation compensated
         [VDict (finding_of "Cardiomegaly" (7 # 10));
          VDict (finding_of "Edema" (7 # 10));
          VDict (finding_of "Effusion" (7 # 10))] = Ok summary /\
       dict_get "overall_reliability" summary = Some (VStr "medium") /\
       dict_get "high_confidence_findings" summary = Some (VInt 3)) /\
    (7 # 10 <= ((7 # 10) + (7 # 10) + (7 # 10)) / 3)%Q /\
    confidence_level (((7 # 10) + (7 # 10) + (7 # 10)) / 3) = "high" /\
    (exists summary,
       generate_summary_explanation compensated
         [VDict (finding_of "Cardiomegaly" (1 # 10));
          VDict (finding_of "Edema" (7 # 10))] = Ok summary /\
       dict_get "overall_reliability" summary = Some (VStr "low")) /\
    (4 # 10 <= ((1 # 10) + (7 # 10)) / 2)%Q.
Proof.
  intros compensated.
  split; [|split; [|split; [|split]]].
  - destruct compensated; eexists; (split; [vm_compute; reflexivity|]);
      split; reflexivity.
  - discriminate.
  - reflexivity.
  - destruct compensated; eexists; (split; [vm_compute; reflexivity|]);
      reflexivity.
  - discriminate.
Qed.

End Bucketing.

(** ** Applying mined rules *)

Section RuleApplication.
Import ContinuousLearningEngine.
Variable py_str : value -> string.
Variable list_of_set : list value -> list value.

(** C2 (the code departs from the claim).  With the single rule
    ["Cardiomegaly" +0.4] cached, a finding named "Mild Cardiomegaly",
    whose name contains the pattern, comes back with its confidence 0.5
    untouched and no adjustment mark (while [rules_applied] counts the rule
    as applying); and a finding named "Card", whose name does not contain
    the pattern, is adjusted to 0.9: the loop tests whether the finding's
    name is a substring of the pattern. *)
Theorem adjustment_tests_name_inside_pattern :
  forall (f : file (list LearningEntry.t)),
    let self := {| rules := [cardiomegaly_rule] |} in
    contains (lower "Mild Cardiomegaly") (lower "Cardiomegaly") = true /\
    apply_rules_to_report py_str list_of_set f self
      (report_of [finding_of "Mild Cardiomegaly" (1 # 2)]) =
    Ok ([("findings",
          VList [VDict (finding_of "Mild Cardiomegaly" (1 # 2))]);
         ("rules_applied", VInt 1)], self) /\
    contains (lower "Card") (lower "Cardiomegaly") = false /\
    apply_rules_to_report py_str list_of_set f self
      (report_of [finding_of "Card" (1 # 2)]) =
    Ok ([("findings",
          VList [VDict [("finding", VStr "Card");
                        ("confidence", VFloat (9 # 10));
                        ("confidence_adjusted", VBool true);
                        ("adjustment_reason",
                         VStr "Based on learned pattern: Cardiomegaly")]]);
         ("rules_applied", VInt 0)], self).
Proof.
  intros f self. repeat split; reflexivity.
Qed.

(** The rules mined from the one-record log of the scenario, before the
    sort: the supports are the only parts that depend on how Python prints
    the record. *)
Lemma scenario_discovered ts img ex uf om n :
  let record := cardiomegaly_record ts img ex uf om n in
  discovered_rules py_str list_of_set 1 [record] =
  Ok [EditPattern "Cardiomegaly -> Cardiomegaly" 1
        (_calculate_rule_confidence py_str "Cardiomegaly -> Cardiomegaly"
           [record]);
      ConfidenceAdjustment "Cardiomegaly" (2 # 5)
        (_count_pattern_occurrences py_str "Cardiomegaly" [record])].
Proof. reflexivity. Qed.

(** C3.  From a learning log holding one record with original findings
    [Cardiomegaly 0.5], edited findings [Cardiomegaly 0.9] and
    [has_edits = true], mining with [min_support = 1] gives a
    confidence-adjustment rule for "Cardiomegaly" with adjustment 0.4; the
    mined rules applied to a fresh report with a finding "Cardiomegaly" of
    confidence 0.5 give that finding confidence 0.9 and
    [confidence_adjusted = true]. *)
Theorem end_to_end_learning_loop :
  forall (ts img : string) (ex uf om : value) (n : Z) (self : engine),
    let log := Stored [cardiomegaly_record ts img ex uf om n] in
    exists (mined : list rule) (self' : engine) (support : Z)
           (improved : dict) (rules_applied : Z),
      mine_rules py_str list_of_set log self 1 = Ok (mined, self') /\
      rules self' = mined /\
      In (ConfidenceAdjustment "Cardiomegaly" (2 # 5) support) mined /\
      apply_rules_to_report py_str list_of_set log self'
        (report_of [finding_of "Cardiomegaly" (1 # 2)]) =
      Ok ([("findings", VList [VDict improved]);
           ("rules_applied", VInt rules_applied)], self') /\
      dict_get "finding" improved = Some (VStr "Cardiomegaly") /\
      dict_get "confidence" improved = Some (VFloat (9 # 10)) /\
      dict_get "confidence_adjusted" improved = Some (VBool true).
Proof.
  intros ts img ex uf om n self log.
  set (record := cardiomegaly_record ts img ex uf om n).
  set (s := _count_pattern_occurrences py_str "Cardiomegaly" [record]).
  set (e := EditPattern "Cardiomegaly -> Cardiomegaly" 1
              (_calculate_rule_confidence py_str
                 "Cardiomegaly -> Cardiomegaly" [record])).
  set (c := ConfidenceAdjustment "Cardiomegaly" (2 # 5) s).
  assert (Hm : mine_rules py_str list_of_set log self 1 =
               Ok (sorted_reverse support_key [e; c],
                   {| rules := sorted_reverse support_key [e; c] |})).
  { unfold mine_rules, log. simpl load_learning_data. cbv beta iota.
    fold record. unfold bind at 1. cbv beta iota.
    pose proof (scenario_discovered ts img ex uf om n) as Hd.
    cbv zeta in Hd. fold record in Hd. rewrite Hd. reflexivity. }
  assert (Hs : sorted_reverse support_key [e; c] = [e; c] \/
               sorted_reverse support_key [e; c] = [c; e]).
  { simpl. destruct (Qltb (support_key e) (support_key c)); auto. }
  exists (sorted_reverse support_key [e; c]),
         {| rules := sorted_reverse support_key [e; c] |}, s.
  destruct Hs as [Hs|Hs]; rewrite Hs in *.
  - eexists _, _. split; [exact Hm|]. split; [reflexivity|].
    split; [simpl; auto|]. split; [reflexivity|].
    repeat split.
  - eexists _, _. split; [exact Hm|]. split; [reflexivity|].
    split; [simpl; auto|]. split; [reflexivity|].
    repeat split.
Qed.

(** *** What a rule may change in a finding *)

Lemma adjustment_key_false k :
  adjustment_key k = false ->
  "confidence" <> k /\ "confidence_adjusted" <> k /\
  "adjustment_reason" <> k.
Proof.
  unfold adjustment_key. intros H.
  apply orb_false_iff in H. destruct H as [H H3].
  apply orb_false_iff in H. destruct H as [H1 H2].
  apply String.eqb_neq in H1, H2, H3. auto.
Qed.

Lemma apply_rule_frame (name : string) (r : rule) (d : dict) (c : Q) :
  as_number (get d "confidence" (VFloat (1 # 2))) = Ok c ->
  exists d' c',
    apply_rule (VStr name) d r = Ok d' /\
    as_number (get d' "confidence" (VFloat (1 # 2))) = Ok c' /\
    forall k, adjustment_key k = false -> dict_get k d' = dict_get k d.
Proof.
  intros Hc. destruct r as [p s q|p a s|p l s]; simpl.
  - exists d, c. auto.
  - destruct (contains (lower p) (lower name)).
    + rewrite Hc. simpl. eexists _, _. split; [reflexivity|]. split.
      * unfold get. rewrite dict_get_set_ne by discriminate.
        rewrite dict_get_set_ne by discriminate.
        rewrite dict_get_set_eq. reflexivity.
      * intros k Hk. apply adjustment_key_false in Hk.
        destruct Hk as (H1 & H2 & H3).
        now rewrite !dict_get_set_ne by assumption.
    + exists d, c. auto.
  - exists d, c. auto.
Qed.

Lemma apply_rules_frame (name : string) (rs : list rule) (d : dict) c :
  as_number (get d "confidence" (VFloat (1 # 2))) = Ok c ->
  exists d',
    foldM (apply_rule (VStr name)) rs d = Ok d' /\
    forall k, adjustment_key k = false -> dict_get k d' = dict_get k d.
Proof.
  revert d c. induction rs as [|r rs IH]; intros d c Hc; simpl.
  - exists d. auto.
  - destruct (apply_rule_frame name r d c Hc) as (d1 & c1 & H1 & Hc1 & Hf1).
    rewrite H1. simpl.
    destruct (IH d1 c1 Hc1) as (d' & H' & Hf').
    exists d'. split; [exact H'|].
    intros k Hk. rewrite Hf' by exact Hk. now apply Hf1.
Qed.

Lemma improve_finding_frame (rs : list rule) (f : value) :
  well_formed_finding f = true ->
  exists d d',
    f = VDict d /\ improve_finding rs f = Ok (VDict d') /\
    forall k, adjustment_key k = false -> dict_get k d' = dict_get k d.
Proof.
  unfold well_formed_finding. intros H.
  destruct f as [| | | | |l|d]; try discriminate.
  destruct (get d "finding" (VStr "")) as [| | | |name| |] eqn:En;
    try discriminate.
  destruct (as_number (get d "confidence" (VFloat (1 # 2)))) as [c|e] eqn:Ec;
    try discriminate.
  destruct (apply_rules_frame name rs d c Ec) as (d' & H' & Hf).
  exists d, d'. split; [reflexivity|]. split; [|exact Hf].
  unfold improve_finding. simpl. rewrite En, H'. reflexivity.
Qed.

(** *** Counting the rules that apply *)

Lemma any_finding_matches_spec (pattern : string) (findings : list value) :
  forallb well_formed_finding findings = true ->
  any_finding_matches pattern findings =
    Ok (existsb (name_contains pattern) findings).
Proof.
  induction findings as [|f fs IH]; simpl; intros H; [reflexivity|].
  apply andb_true_iff in H. destruct H as [Hf Hfs].
  unfold well_formed_finding in Hf. unfold name_contains at 1.
  destruct f as [| | | | |l|d]; try discriminate. simpl.
  destruct (get d "finding" (VStr "")) as [| | | |name| |];
    try discriminate.
  simpl. destruct (contains (lower name) (lower pattern)); simpl.
  - reflexivity.
  - now apply IH.
Qed.

Lemma _rule_applies_spec (report : dict) (findings : list value) (r : rule) :
  get report "findings" (VList []) = VList findings ->
  forallb well_formed_finding findings = true ->
  _rule_applies report r = Ok (confidence_rule_matches findings r).
Proof.
  intros Hg Hw. unfold confidence_rule_matches, pattern_matches.
  destruct r as [p s q|p a s|p l s]; simpl; try reflexivity.
  rewrite Hg. simpl. now apply any_finding_matches_spec.
Qed.

Lemma count_applicable_from (report : dict) (findings : list value)
  (rs : list rule) (n : Z) :
  get report "findings" (VList []) = VList findings ->
  forallb well_formed_finding findings = true ->
  foldM (fun n r => b <- _rule_applies report r ;;
                    Ok (if b : bool then n + 1 else n)) rs n =
  Ok (n + Z.of_nat (length (List.filter (confidence_rule_matches findings) rs))).
Proof.
  intros Hg Hw. revert n. induction rs as [|r rs IH]; intros n; simpl.
  - f_equal. lia.
  - rewrite (_rule_applies_spec _ _ _ Hg Hw). simpl. rewrite IH.
    destruct (confidence_rule_matches findings r); simpl; f_equal; lia.
Qed.

Lemma improve_findings_total (rs : list rule) (findings : list value) :
  forallb well_formed_finding findings = true ->
  exists improved, mapM (improve_finding rs) findings = Ok improved.
Proof.
  intros Hw. apply mapM_total. apply List.Forall_forall. intros f Hf.
  rewrite forallb_forall in Hw.
  destruct (improve_finding_frame rs f (Hw f Hf)) as (d & d' & _ & H & _).
  eauto.
Qed.

(** C8 (as amended).  For a report whose findings are well formed, the
    [rules_applied] value is the number of confidence-adjustment rules in
    force whose pattern is a case-insensitive substring of the name of at
    least one finding of the report as given; rules of the other two
    variants are never counted. *)
Theorem rules_applied_counts_confidence_rules :
  forall (f : file (list LearningEntry.t)) (self self' : engine)
         (report : dict) (findings : list value),
    ensure_rules py_str list_of_set f self = Ok self' ->
    get report "findings" (VList []) = VList findings ->
    forallb well_formed_finding findings = true ->
    exists out,
      apply_rules_to_report py_str list_of_set f self report = Ok (out, self') /\
      dict_get "rules_applied" out =
        Some (VInt (Z.of_nat
                      (length (List.filter (confidence_rule_matches findings)
                                 (rules self'))))).
Proof.
  intros f self self' report findings He Hg Hw.
  destruct (improve_findings_total (rules self') findings Hw)
    as [improved Hi].
  unfold apply_rules_to_report. rewrite He. simpl. rewrite Hg. simpl.
  rewrite Hi. simpl. unfold count_applicable.
  rewrite (count_applicable_from report findings _ 0 Hg Hw). simpl.
  eexists. split; [reflexivity|]. apply dict_get_set_eq.
Qed.

End RuleApplication.

Section RuleApplicationInstances.
Import ContinuousLearningEngine.

Lemma rules_applied_counts_confidence_rules_witness :
  exists out,
    apply_rules_to_report (fun _ => "") (fun s => s) Missing
      {| rules := [cardiomegaly_rule] |}
      (report_of [finding_of "Mild Cardiomegaly" (1 # 2)]) =
    Ok (out, {| rules := [cardiomegaly_rule] |}) /\
    dict_get "rules_applied" out = Some (VInt 1).
Proof.
  exact (rules_applied_counts_confidence_rules (fun _ => "") (fun s => s) Missing
           {| rules := [cardiomegaly_rule] |}
           {| rules := [cardiomegaly_rule] |}
           (report_of [finding_of "Mild Cardiomegaly" (1 # 2)])
           [VDict (finding_of "Mild Cardiomegaly" (1 # 2))]
           eq_refl eq_refl eq_refl).
Defined.

(** The claim C8 as stated fails: a finding-association rule whose pattern
    is the very name of the report's finding is not counted. *)
Lemma rules_applied_skips_associations :
  let association :=
    FindingAssociation (VStr "Cardiomegaly")
      [VStr "Edema"; VStr "Pleural Effusion"] 2 in
  let self := {| rules := [association] |} in
  let findings := [VDict (finding_of "Cardiomegaly" (1 # 2))] in
  Z.of_nat (length (List.filter (pattern_matches findings) (rules self)))
    = 1 /\
  exists out,
    apply_rules_to_report (fun _ => "") (fun s => s) Missing self
      (report_of [finding_of "Cardiomegaly" (1 # 2)]) = Ok (out, self) /\
    dict_get "rules_applied" out = Some (VInt 0).
Proof.
  simpl. split; [reflexivity|].
  eexists. split; reflexivity.
Qed.

(** The claim C10 as stated fails: on a report without findings the rule
    applier adds the key ["findings"] as well as ["rules_applied"]. *)
Lemma apply_adds_findings_key :
  let report := [("impression", VStr "No acute disease.")] in
  dict_keys report = ["impression"] /\
  exists out,
    apply_rules_to_report (fun _ => "") (fun s => s) Missing init report =
      Ok (out, init) /\
    dict_keys out = ["impression"; "findings"; "rules_applied"] /\
    dict_get "findings" out = Some (VList []).
Proof.
  simpl. split; [reflexivity|].
  eexists. split; [reflexivity|]. split; reflexivity.
Qed.

End RuleApplicationInstances.

(** ** The feedback store: update or append *)

Section Upsert.
Import FeedbackLogger.

Lemma existing_entry_index_upsert image_name entry logs :
  match existing_entry_index logs image_name with
  | Some i => <[i := entry]> logs
  | None => logs ++ [entry]
  end = upsert image_name entry logs.
Proof.
  unfold existing_entry_index.
  induction logs as [|e rest IH]; simpl; [reflexivity|].
  destruct (decide (Entry.image e = image_name /\
                    Entry.has_edits e = false)) as [[Hi He]|Hn]; simpl.
  - rewrite Hi, He, String.eqb_refl. reflexivity.
  - destruct (String.eqb (Entry.image e) image_name) eqn:Ei; simpl.
    + apply String.eqb_eq in Ei.
      destruct (Entry.has_edits e) eqn:Eh; simpl.
      * rewrite <- IH.
        destruct (list_find _ rest) as [[i y]|]; reflexivity.
      * exfalso. apply Hn. auto.
    + rewrite <- IH.
      destruct (list_find _ rest) as [[i y]|]; reflexivity.
Qed.

Lemma _save_learning_data_feedback_log self entry :
  feedback_log (fst (_save_learning_data self entry)) = feedback_log self.
Proof.
  unfold _save_learning_data.
  destruct (Entry.edited_report entry); [|reflexivity].
  destruct (_load_learning_data self); reflexivity.
Qed.

Lemma entries_of_loaded self logs :
  _load_logs self = Ok logs -> entries_of self = logs.
Proof. unfold entries_of. now intros ->. Qed.

(** A call that gets as far as the save leaves the log with the new entry
    put in by [upsert]. *)
Lemma record_saves self x p ed logs :
  _load_logs self = Ok logs ->
  counts_edits (Payload.original_report p) ed = true ->
  exists entry,
    Entry.image entry = x /\
    Entry.timestamp entry = Payload.now p /\
    Entry.edited_report entry = ed /\
    Entry.has_edits entry =
      match ed with Some _ => true | None => false end /\
    _load_logs (record self x p ed) = Ok (upsert x entry logs).
Proof.
  intros Hl Hc. unfold record, log_feedback.
  set (counted := match ed with
                  | Some edited =>
                      if truthy (VDict edited)
                      then _count_edits (Payload.original_report p) edited
                      else Ok 0
                  | None => Ok 0
                  end).
  assert (Hcount : exists n, counted = Ok n).
  { unfold counted, counts_edits in *. destruct ed as [edited|]; eauto.
    destruct (truthy (VDict edited)); eauto.
    destruct (_count_edits _ edited); [eauto|discriminate]. }
  destruct Hcount as [n ->]. rewrite Hl.
  rewrite existing_entry_index_upsert.
  match goal with
  | |- context [upsert x ?e logs] => exists e
  end.
  repeat (split; [reflexivity|]).
  match goal with
  | |- context [_save_learning_data ?s ?e] =>
      pose proof (_save_learning_data_feedback_log s e) as Hf;
      destruct (_save_learning_data s e) as [s' [u|err]]
  end; simpl in *; unfold _load_logs; rewrite Hf; reflexivity.
Qed.

(** Any call either leaves the log as it was or is an [upsert] of an entry
    of the image with the edit mark of the call. *)
Lemma record_cases self x p ed :
  entries_of (record self x p ed) = entries_of self \/
  exists entry,
    Entry.image entry = x /\
    Entry.has_edits entry =
      match ed with Some _ => true | None => false end /\
    entries_of (record self x p ed) = upsert x entry (entries_of self).
Proof.
  destruct (_load_logs self) as [logs|e] eqn:Hl.
  - destruct (counts_edits (Payload.original_report p) ed) eqn:Hc.
    + right. destruct (record_saves self x p ed logs Hl Hc)
        as (entry & Hi & _ & _ & Hh & He).
      exists entry. rewrite (entries_of_loaded _ _ Hl).
      rewrite (entries_of_loaded _ _ He). auto.
    + left. unfold record, log_feedback, counts_edits in *.
      destruct ed as [edited|]; [|discriminate].
      destruct (truthy (VDict edited)); [|discriminate].
      destruct (_count_edits _ edited); [discriminate|reflexivity].
  - left. unfold record, log_feedback. rewrite Hl.
    destruct (match ed with
              | Some edited =>
                  if truthy (VDict edited)
                  then _count_edits (Payload.original_report p) edited
                  else Ok 0
              | None => Ok 0
              end); reflexivity.
Qed.

(** A call without an edited report saves the feedback log and then raises:
    [_save_learning_data] calls [.get] on the [None] stored under
    ["edited_report"]. *)
Lemma log_feedback_without_edits_raises self x p logs :
  _load_logs self = Ok logs ->
  snd (log_feedback self (Payload.now p) x (Payload.original_report p) None
         (Payload.explanations p) (Payload.user_feedback p)
         (Payload.ontology_mapping p) (Payload.metadata p)) =
  Raise AttributeError.
Proof.
  intros Hl. unfold log_feedback. rewrite Hl. reflexivity.
Qed.

Lemma entries_for_upsert_fresh x entry logs :
  Entry.image entry = x ->
  unedited_for x logs = [] ->
  entries_for x (upsert x entry logs) = entries_for x logs ++ [entry].
Proof.
  intros Hi. induction logs as [|e rest IH]; simpl; intros Hu.
  - now rewrite Hi, String.eqb_refl.
  - destruct (String.eqb (Entry.image e) x) eqn:Ex; simpl in *.
    + destruct (Entry.has_edits e); simpl in *; [|discriminate].
      rewrite Ex. simpl. now rewrite IH.
    + rewrite Ex. auto.
Qed.

Lemma entries_for_upsert_single x entry e logs :
  Entry.image entry = x ->
  entries_for x logs = [e] ->
  Entry.has_edits e = false ->
  entries_for x (upsert x entry logs) = [entry].
Proof.
  intros Hi. induction logs as [|e0 rest IH]; simpl; intros Hf He.
  - discriminate.
  - destruct (String.eqb (Entry.image e0) x) eqn:Ex; simpl in *.
    + injection Hf as -> Hr. rewrite He. simpl.
      now rewrite Hi, String.eqb_refl, Hr.
    + rewrite Ex. auto.
Qed.

Lemma unedited_for_upsert_other y x entry logs :
  Entry.image entry = x -> y <> x ->
  unedited_for y (upsert x entry logs) = unedited_for y logs.
Proof.
  intros Hi Hy.
  assert (Hn : String.eqb (Entry.image entry) y = false).
  { apply String.eqb_neq. congruence. }
  induction logs as [|e rest IH]; simpl.
  - now rewrite Hn.
  - destruct (String.eqb (Entry.image e) x && negb (Entry.has_edits e))
      eqn:Ec; simpl.
    + rewrite Hn. simpl.
      apply andb_true_iff in Ec. destruct Ec as [Ex _].
      apply String.eqb_eq in Ex.
      assert (String.eqb (Entry.image e) y = false) as ->
        by (apply String.eqb_neq; congruence).
      reflexivity.
    + now rewrite IH.
Qed.

Lemma unedited_for_upsert_same x entry logs :
  (length (unedited_for x logs) <= 1)%nat ->
  (length (unedited_for x (upsert x entry logs)) <= 1)%nat.
Proof.
  unfold unedited_for.
  induction logs as [|e rest IH]; simpl; intros Hl.
  - destruct (andb (String.eqb (Entry.image entry) x)
                (negb (Entry.has_edits entry))); simpl; lia.
  - destruct (String.eqb (Entry.image e) x && negb (Entry.has_edits e))
      eqn:Ec; simpl in *.
    + destruct (List.filter _ rest) as [|e1 l1] eqn:Hr;
        [|simpl in Hl; lia].
      destruct (andb (String.eqb (Entry.image entry) x)
                  (negb (Entry.has_edits entry))); simpl; lia.
    + rewrite Ec. auto.
Qed.

Lemma upsert_keeps_edited x entry logs (i : nat) e :
  logs !! i = Some e -> Entry.has_edits e = true ->
  upsert x entry logs !! i = Some e.
Proof.
  revert i. induction logs as [|e0 rest IH]; intros i Hi He.
  - destruct i; discriminate.
  - simpl. destruct i as [|i]; simpl in *.
    + injection Hi as ->. rewrite He. simpl.
      now rewrite andb_false_r.
    + destruct (_ && _); simpl; auto.
Qed.

Lemma upsert_at_most_one x entry logs :
  Entry.image entry = x ->
  at_most_one_unedited logs -> at_most_one_unedited (upsert x entry logs).
Proof.
  intros Hi H y. destruct (String.eq_dec y x) as [->|Hy].
  - apply unedited_for_upsert_same, H.
  - rewrite unedited_for_upsert_other by assumption. apply H.
Qed.

Lemma record_at_most_one self x p ed :
  at_most_one_unedited (entries_of self) ->
  at_most_one_unedited (entries_of (record self x p ed)).
Proof.
  intros H. destruct (record_cases self x p ed) as [->|(e & Hi & _ & ->)].
  - exact H.
  - now apply upsert_at_most_one.
Qed.

Lemma record_all_at_most_one calls self :
  at_most_one_unedited (entries_of self) ->
  at_most_one_unedited (entries_of (record_all self calls)).
Proof.
  revert self. induction calls as [|[[x p] ed] calls IH]; intros self H.
  - exact H.
  - simpl. apply IH. now apply record_at_most_one.
Qed.

Lemma record_keeps_edited self x p ed (i : nat) e :
  entries_of self !! i = Some e -> Entry.has_edits e = true ->
  entries_of (record self x p ed) !! i = Some e.
Proof.
  intros Hi He.
  destruct (record_cases self x p ed) as [->|(e' & _ & _ & ->)].
  - exact Hi.
  - now apply upsert_keeps_edited.
Qed.

Lemma unedited_for_entries_for x logs :
  unedited_for x logs =
  List.filter (fun e => negb (Entry.has_edits e)) (entries_for x logs).
Proof.
  unfold unedited_for, entries_for.
  induction logs as [|e rest IH]; simpl; [reflexivity|].
  destruct (String.eqb (Entry.image e) x); simpl; rewrite IH; reflexivity.
Qed.

Lemma upsert_length_single x entry e logs :
  entries_for x logs = [e] ->
  Entry.has_edits e = false ->
  length (upsert x entry logs) = length logs.
Proof.
  induction logs as [|e0 rest IH]; simpl; intros Hf He.
  - discriminate.
  - destruct (String.eqb (Entry.image e0) x) eqn:Ex; simpl in *.
    + injection Hf as -> _. rewrite He. reflexivity.
    + f_equal. auto.
Qed.

(** C1 (as amended).  On a store with no entry for an image, two calls
    without an edited report leave exactly one entry for the image, the
    one of the second call.  A third call that supplies an edited report
    replaces that entry in place: the log still holds exactly one entry
    for the image, now with edits.  Only a call made when the image has no
    entry without edits appends: a fourth call gives a second entry.
    Whatever the calls, a log with at most one entry without edits per
    image stays so (the empty log is one), and an entry with edits keeps
    its content and its place. *)
Theorem feedback_store_upsert :
  forall (self : logger) (logs : list Entry.t) (x : string)
         (p1 p2 p3 p4 : Payload.t) (ed3 : dict) (ed4 : option dict),
    _load_logs self = Ok logs ->
    entries_for x logs = [] ->
    counts_edits (Payload.original_report p3) (Some ed3) = true ->
    counts_edits (Payload.original_report p4) ed4 = true ->
    let s1 := record self x p1 None in
    let s2 := record s1 x p2 None in
    let s3 := record s2 x p3 (Some ed3) in
    let s4 := record s3 x p4 ed4 in
    (exists e2,
        entries_for x (entries_of s2) = [e2] /\
        Entry.has_edits e2 = false /\
        Entry.timestamp e2 = Payload.now p2) /\
    (exists e3,
        entries_for x (entries_of s3) = [e3] /\
        Entry.has_edits e3 = true /\
        Entry.edited_report e3 = Some ed3 /\
        length (entries_of s3) = length (entries_of s2)) /\
    (exists e3 e4,
        entries_for x (entries_of s4) = [e3; e4] /\
        Entry.has_edits e3 = true /\
        Entry.edited_report e4 = ed4) /\
    (forall (s : logger) (calls : list (string * Payload.t * option dict)),
        at_most_one_unedited (entries_of s) ->
        at_most_one_unedited (entries_of (record_all s calls))) /\
    at_most_one_unedited [] /\
    (forall (s : logger) (y : string) (p : Payload.t) (ed : option dict)
            (i : nat) (e : Entry.t),
        entries_of s !! i = Some e -> Entry.has_edits e = true ->
        entries_of (record s y p ed) !! i = Some e).
Proof.
  intros self logs x p1 p2 p3 p4 ed3 ed4 Hl Hx Hc3 Hc4 s1 s2 s3 s4.
  destruct (record_saves self x p1 None logs Hl eq_refl)
    as (e1 & Hi1 & _ & _ & Hh1 & Hl1).
  fold s1 in Hl1.
  assert (Hx1 : entries_for x (upsert x e1 logs) = [e1]).
  { rewrite entries_for_upsert_fresh; [now rewrite Hx|exact Hi1|].
    rewrite unedited_for_entries_for, Hx. reflexivity. }
  destruct (record_saves s1 x p2 None _ Hl1 eq_refl)
    as (e2 & Hi2 & Ht2 & _ & Hh2 & Hl2).
  fold s2 in Hl2.
  assert (Hx2 : entries_for x (upsert x e2 (upsert x e1 logs)) = [e2])
    by (eapply entries_for_upsert_single; eassumption).
  destruct (record_saves s2 x p3 (Some ed3) _ Hl2 Hc3)
    as (e3 & Hi3 & _ & He3 & Hh3 & Hl3).
  fold s3 in Hl3.
  assert (Hx3 : entries_for x (upsert x e3 (upsert x e2 (upsert x e1 logs)))
                = [e3])
    by (eapply entries_for_upsert_single; eassumption).
  destruct (record_saves s3 x p4 ed4 _ Hl3 Hc4)
    as (e4 & Hi4 & _ & He4 & _ & Hl4).
  fold s4 in Hl4.
  rewrite (entries_of_loaded _ _ Hl2), (entries_of_loaded _ _ Hl3),
    (entries_of_loaded _ _ Hl4).
  split; [|split; [|split; [|split; [|split]]]].
  - exists e2. auto.
  - exists e3. repeat (split; [assumption|]).
    eapply upsert_length_single; eassumption.
  - exists e3, e4. split; [|auto].
    rewrite entries_for_upsert_fresh; [now rewrite Hx3|exact Hi4|].
    rewrite unedited_for_entries_for, Hx3. simpl. now rewrite Hh3.
  - intros s calls. apply record_all_at_most_one.
  - intros image. simpl. lia.
  - intros s y p ed i e. apply record_keeps_edited.
Qed.
End Upsert.

Section UpsertInstances.
Import FeedbackLogger.

(** The claim C1 as stated fails: after two calls without edits and a
    third with an edited report, the log holds one entry for the image,
    not two; the entry without edits was overwritten by the edited one. *)
Lemma third_call_overwrites :
  exists e3,
    entries_for "x.jpg" (entries_of after_three_calls) = [e3] /\
    Entry.has_edits e3 = true /\
    Entry.edited_report e3 = Some corrected_report /\
    length (entries_of after_three_calls) = 1%nat.
Proof.
  eexists. repeat split.
Qed.

Lemma feedback_store_upsert_witness :
  exists e3,
    entries_for "x.jpg" (entries_of after_three_calls) = [e3] /\
    Entry.has_edits e3 = true.
Proof.
  destruct (feedback_store_upsert empty_logger [] "x.jpg"
              (payload_at "2025-01-01T10:00:00")
              (payload_at "2025-01-01T10:05:00")
              (payload_at "2025-01-01T10:30:00")
              (payload_at "2025-01-01T11:00:00")
              corrected_report None
              eq_refl eq_refl eq_refl eq_refl)
    as (_ & (e3 & H3 & Hh & _) & _).
  exists e3. split; [exact H3|exact Hh].
Defined.
End UpsertInstances.

(** ** [sorted(..., reverse=True)]: sorted, a permutation, stable *)

Section SortedReverseProperties.
Context {A : Type} (key : A -> Q).

Lemma insert_desc_perm x l : Permutation (insert_desc key x l) (x :: l).
Proof.
  induction l as [|y l IH]; simpl; [reflexivity|].
  destruct (Qltb (key x) (key y)); [|reflexivity].
  rewrite IH. apply perm_swap.
Qed.

Lemma sorted_reverse_perm l : Permutation (sorted_reverse key l) l.
Proof.
  induction l as [|x l IH]; simpl; [reflexivity|].
  rewrite insert_desc_perm. now constructor.
Qed.





End SortedReverseProperties.

(** ** Rule mining: determinism and order *)

Section Mining.
Import ContinuousLearningEngine.
Variable py_str : value -> string.
Variable list_of_set : list value -> list value.




(** *** The order of the keys of the three dictionaries *)















(** *** The rules of each kind follow the keys of their dictionary *)





(** *** Another order of the members of the sets *)









End Mining.

Section MiningInstances.
Import ContinuousLearningEngine.

(** The claim C5 as stated fails where the two minings run in processes
    whose sets list their members in different orders (for text, under
    different hash seeds): over the same log the associations of a rule
    come out in another order. *)
Lemma association_order_follows_listing :
  let first :=
    [FindingAssociation (VStr "Cardiomegaly")
       [VStr "Edema"; VStr "Effusion"] 2;
     FindingAssociation (VStr "Edema")
       [VStr "Cardiomegaly"; VStr "Effusion"] 2;
     FindingAssociation (VStr "Effusion")
       [VStr "Cardiomegaly"; VStr "Edema"] 2] in
  let second :=
    [FindingAssociation (VStr "Cardiomegaly")
       [VStr "Effusion"; VStr "Edema"] 2;
     FindingAssociation (VStr "Edema")
       [VStr "Effusion"; VStr "Cardiomegaly"] 2;
     FindingAssociation (VStr "Effusion")
       [VStr "Edema"; VStr "Cardiomegaly"] 2] in
  mine_rules (fun _ => "") (fun s => s) (Stored association_log) init 2 =
    Ok (first, {| rules := first |}) /\
  mine_rules (fun _ => "") (@rev value) (Stored association_log) init 2 =
    Ok (second, {| rules := second |}) /\
  first <> second.
Proof.
  split; [reflexivity|]. split; [reflexivity|]. discriminate.
Qed.

End MiningInstances.

(** ** Ontology mapping confidence *)

Section MappingConfidence.
Import OntologyProcessor.




Lemma bonus_mono (h1 h2 : nat) : (h1 <= h2)%nat -> (bonus h1 <= bonus h2)%Q.
Proof.
  destruct h1 as [|[|h1]], h2 as [|[|h2]]; simpl; intros H;
    try discriminate; try apply Qle_refl; lia.
Qed.











End MappingConfidence.

(** ** The report normalizer *)

Section Normalizer.
Import JsonReportGenerator.
Variable float_of_text : string -> option Q.

(** [float(v)] returns exactly on the values it accepts, and raises the
    exception of the kind of [v] on the others. *)
Lemma py_float_accepts (v : value) :
  if float_accepts float_of_text v
  then exists c, py_float float_of_text v = Ok c
  else py_float float_of_text v = Raise (float_error v).
Proof.
  destruct v as [| b | n | q | s | l | d]; simpl; eauto.
  - destruct (Z.abs n <? float_limit); eauto.
  - destruct (float_of_text s); eauto.
Qed.

Lemma float_error_kinds (v : value) :
  float_error v = TypeError \/ float_error v = ValueError \/
  float_error v = OverflowError.
Proof. destruct v; simpl; auto. Qed.

Lemma normalize_finding_canonical (d : dict) :
  float_accepts float_of_text (get d "confidence" (VFloat (1 # 2))) = true ->
  exists out,
    normalize_finding float_of_text d = Ok out /\
    canonical_finding float_of_text d out.
Proof.
  unfold normalize_finding. intros H.
  pose proof (py_float_accepts (get d "confidence" (VFloat (1 # 2)))) as Ha.
  rewrite H in Ha. destruct Ha as [c Ec]. rewrite Ec.
  simpl. eexists. split; [reflexivity|].
  exists c. split; [exact Ec|]. split; [|reflexivity].
  intros Hn. unfold get in Ec. rewrite Hn in Ec. simpl in Ec. congruence.
Qed.

Lemma normalize_finding_rejected (d : dict) :
  float_accepts float_of_text (get d "confidence" (VFloat (1 # 2))) = false ->
  normalize_finding float_of_text d =
  Raise (float_error (get d "confidence" (VFloat (1 # 2)))).
Proof.
  unfold normalize_finding. intros H.
  pose proof (py_float_accepts (get d "confidence" (VFloat (1 # 2)))) as Ha.
  rewrite H in Ha. now rewrite Ha.
Qed.

Lemma normalize_findings_canonical (items : list value) :
  first_rejected float_of_text items = None ->
  exists outs,
    normalize_findings float_of_text items = Ok outs /\
    Forall2 (canonical_finding float_of_text) (dicts_of items) outs.
Proof.
  induction items as [|f items IH]; simpl; intros H.
  - exists []. split; [reflexivity|constructor].
  - destruct f as [| | | | | |d]; simpl; auto.
    destruct (float_accepts float_of_text
                (get d "confidence" (VFloat (1 # 2)))) eqn:Hf;
      [|discriminate].
    destruct (IH H) as (outs & Ho & Hc).
    destruct (normalize_finding_canonical d Hf) as (out & Hout & Hcan).
    rewrite Hout, Ho. simpl.
    exists (out :: outs). split; [reflexivity|]. now constructor.
Qed.

Lemma normalize_findings_rejected (items : list value) (v : value) :
  first_rejected float_of_text items = Some v ->
  normalize_findings float_of_text items = Raise (float_error v).
Proof.
  induction items as [|f items IH]; simpl; intros H; [discriminate|].
  destruct f as [| | | | | |d]; simpl; auto.
  destruct (float_accepts float_of_text
              (get d "confidence" (VFloat (1 # 2)))) eqn:Hf.
  - destruct (normalize_finding_canonical d Hf) as (out & Hout & _).
    rewrite Hout. simpl. now rewrite (IH H).
  - injection H as <-. now rewrite (normalize_finding_rejected d Hf).
Qed.

(** C6 (as amended).  Take any payload mapping, whichever of the keys
    findings, impression, recommendations, metadata it lacks.  When the
    confidence of each dict among its findings is absent or is a value
    [float] accepts (a float, a boolean, an integer within the float range,
    numeric text), the normalizer returns a report with exactly these four
    keys: findings a list (empty when missing), impression the empty text
    when missing, recommendations a list (empty when missing, a one-item
    list for a single text), metadata a mapping (empty when missing); each
    retained finding carries its confidence as a float, 0.5 when it had
    none.  On every other payload the normalizer raises, with the exception
    of [float] on the first confidence that is not accepted: [TypeError]
    for [None], a list or a mapping, [ValueError] for text that is no
    number, [OverflowError] for an integer beyond the float range. *)
Theorem normalizer_defaults :
  forall (report : dict),
    match rejected_confidence float_of_text report with
    | None =>
        coercible float_of_text report = true /\
        exists (findings : list value) (impression : value)
               (recommendations : list value) (metadata : dict),
          _normalize_report_structure float_of_text report =
            Ok [("findings", VList findings);
                ("impression", impression);
                ("recommendations", VList recommendations);
                ("metadata", VDict metadata)] /\
          (dict_get "findings" report = None -> findings = []) /\
          (forall items, dict_get "findings" report = Some (VList items) ->
                         Forall2 (canonical_finding float_of_text)
                           (dicts_of items) findings) /\
          impression = get report "impression" (VStr "") /\
          (dict_get "recommendations" report = None ->
           recommendations = []) /\
          (forall s, dict_get "recommendations" report = Some (VStr s) ->
                     recommendations = [VStr s]) /\
          (forall l, dict_get "recommendations" report = Some (VList l) ->
                     recommendations = l) /\
          (dict_get "metadata" report = None -> metadata = []) /\
          (forall m, dict_get "metadata" report = Some (VDict m) ->
                     metadata = m)
    | Some v =>
        coercible float_of_text report = false /\
        float_accepts float_of_text v = false /\
        _normalize_report_structure float_of_text report =
          Raise (float_error v) /\
        (float_error v = TypeError \/ float_error v = ValueError \/
         float_error v = OverflowError)
    end.
Proof.
  intros report. unfold coercible.
  destruct (rejected_confidence float_of_text report) as [v|] eqn:Hr.
  - split; [reflexivity|].
    unfold rejected_confidence in Hr.
    destruct (dict_get "findings" report) as [[| | | | |items|]|] eqn:Ef;
      try discriminate.
    split.
    { clear Ef. induction items as [|f items IH]; [discriminate|].
      simpl in Hr. destruct f as [| | | | | |d]; auto.
      destruct (float_accepts float_of_text
                  (get d "confidence" (VFloat (1 # 2)))) eqn:Hf; auto.
      injection Hr as <-. exact Hf. }
    split; [|apply float_error_kinds].
    unfold _normalize_report_structure. rewrite Ef.
    now rewrite (normalize_findings_rejected _ _ Hr).
  - split; [reflexivity|].
    unfold _normalize_report_structure.
    assert (Hf : exists findings,
               match dict_get "findings" report with
               | Some (VList items) => normalize_findings float_of_text items
               | _ => Ok []
               end = Ok findings /\
               (dict_get "findings" report = None -> findings = []) /\
               (forall items,
                   dict_get "findings" report = Some (VList items) ->
                   Forall2 (canonical_finding float_of_text)
                     (dicts_of items) findings)).
    { unfold rejected_confidence in Hr.
      destruct (dict_get "findings" report) as [[| | | | |items|]|];
        try (exists []; repeat split; intros; discriminate).
      destruct (normalize_findings_canonical items Hr) as (outs & Ho & Hcan).
      exists outs. split; [exact Ho|]. split; [discriminate|].
      intros items' H. injection H as <-. exact Hcan. }
    destruct Hf as (findings & Hn & Hmissing & Hcan).
    rewrite Hn. simpl.
    eexists findings, _,
      (match dict_get "recommendations" report with
       | Some (VList l) => l
       | Some (VStr s) => [VStr s]
       | _ => []
       end),
      (match dict_get "metadata" report with
       | Some (VDict m) => m
       | _ => []
       end).
    split.
    + destruct (dict_get "recommendations" report) as [[| | | | | |]|];
        destruct (dict_get "metadata" report) as [[| | | | | |]|];
        reflexivity.
    + split; [exact Hmissing|]. split; [exact Hcan|].
      split; [reflexivity|].
      repeat split; intros; rewrite H; reflexivity.
Qed.
End Normalizer.

Section NormalizerInstances.
Import JsonReportGenerator.

(** The claim C6 as stated fails: a payload that lacks impression,
    recommendations and metadata, and whose one finding has a null
    confidence, makes the normalizer raise. *)
Lemma normalizer_raises_on_null_confidence :
  _normalize_report_structure (fun _ => None)
    [("findings",
      VList [VDict [("finding", VStr "Cardiomegaly");
                    ("confidence", VNone)]])] = Raise TypeError.
Proof. reflexivity. Qed.

Lemma normalizer_defaults_witness :
  (exists findings,
     _normalize_report_structure (fun _ => None)
       [("findings", VList [VDict [("finding", VStr "Cardiomegaly")]]);
        ("recommendations", VStr "Follow-up radiograph")] =
     Ok [("findings", VList findings);
         ("impression", VStr "");
         ("recommendations", VList [VStr "Follow-up radiograph"]);
         ("metadata", VDict [])]) /\
  _normalize_report_structure (fun _ => None)
    [("findings", VList [VDict [("confidence", VStr "high")]])] =
  Raise ValueError.
Proof.
  split.
  - pose proof (normalizer_defaults (fun _ => None)
                  [("findings",
                    VList [VDict [("finding", VStr "Cardiomegaly")]]);
                   ("recommendations", VStr "Follow-up radiograph")]) as H.
    simpl in H.
    destruct H as (_ & findings & impression & recommendations & metadata
                   & Hn & _ & _ & Hi & _ & Hr & _ & Hm & _).
    exists findings. rewrite Hn, Hi.
    rewrite (Hr "Follow-up radiograph" eq_refl), (Hm eq_refl).
    reflexivity.
  - pose proof (normalizer_defaults (fun _ => None)
                  [("findings", VList [VDict [("confidence", VStr "high")]])])
      as H.
    simpl in H. destruct H as (_ & _ & H & _). exact H.
Defined.
End NormalizerInstances.

(** * Further properties of the code *)

(** ** The feedback logger: what a call stores *)

Section LoggerCalls.
Import FeedbackLogger.

Lemma upsert_contains x entry logs : In entry (upsert x entry logs).
Proof.
  induction logs as [|e rest IH]; simpl; [auto|].
  destruct (String.eqb (Entry.image e) x && negb (Entry.has_edits e));
    simpl; auto.
Qed.

Lemma upsert_length x entry logs :
  length (upsert x entry logs) = length logs \/
  length (upsert x entry logs) = S (length logs).
Proof.
  induction logs as [|e rest IH]; simpl; [auto|].
  destruct (String.eqb (Entry.image e) x && negb (Entry.has_edits e));
    simpl; [auto|]. destruct IH as [->| ->]; auto.
Qed.

Lemma entries_for_upsert_other y x entry logs :
  Entry.image entry = x -> y <> x ->
  entries_for y (upsert x entry logs) = entries_for y logs.
Proof.
  intros Hi Hy.
  assert (Hn : String.eqb (Entry.image entry) y = false).
  { apply String.eqb_neq. congruence. }
  unfold entries_for. induction logs as [|e rest IH]; simpl.
  - now rewrite Hn.
  - destruct (String.eqb (Entry.image e) x && negb (Entry.has_edits e))
      eqn:Ec; simpl.
    + rewrite Hn.
      apply andb_true_iff in Ec. destruct Ec as [Ex _].
      apply String.eqb_eq in Ex.
      assert (String.eqb (Entry.image e) y = false) as ->
        by (apply String.eqb_neq; congruence).
      reflexivity.
    + now rewrite IH.
Qed.

(** X1.  [log_feedback] returns an entry only when an edited report was
    supplied; the entry returned then carries the image name, the time stamp
    and the edit mark, it is in the saved feedback log, and the learning log
    has grown by exactly one record, taken from the two reports. *)
Theorem log_feedback_returns_stored_entry :
  forall (self self' : logger) (now image_name : string)
         (original_report : dict) (edited_report : option dict)
         (explanations user_feedback ontology_mapping metadata : value)
         (entry : Entry.t),
    log_feedback self now image_name original_report edited_report
      explanations user_feedback ontology_mapping metadata
      = (self', Ok entry) ->
    exists (edited : dict) (logs : list Entry.t)
           (data : list LearningEntry.t) (learned : LearningEntry.t),
      edited_report = Some edited /\
      _load_logs self = Ok logs /\
      _load_learning_data self = Ok data /\
      Entry.image entry = image_name /\
      Entry.timestamp entry = now /\
      Entry.has_edits entry = true /\
      Entry.edited_report entry = Some edited /\
      feedback_log self' = Stored (upsert image_name entry logs) /\
      In entry (upsert image_name entry logs) /\
      learning_data self' = Stored (data ++ [learned]) /\
      LearningEntry.image learned = image_name /\
      LearningEntry.has_edits learned = true /\
      LearningEntry.edit_count learned = Entry.edit_count entry /\
      LearningEntry.original_findings learned =
        get original_report "findings" (VList []) /\
      LearningEntry.edited_findings learned =
        get edited "findings" (VList []).
Proof.
  intros self self' now x orig ed ex uf om md entry H.
  unfold log_feedback in H.
  destruct ed as [edited|].
  - destruct (if truthy (VDict edited) then _count_edits orig edited
              else Ok 0) as [n|e] eqn:En; [|discriminate].
    destruct (_load_logs self) as [logs|e] eqn:Hl; [|discriminate].
    rewrite existing_entry_index_upsert in H.
    unfold _save_learning_data in H. simpl in H.
    unfold _load_learning_data in H at 1. simpl in H.
    fold (_load_learning_data self) in H.
    destruct (_load_learning_data self) as [data|e] eqn:Hd; [|discriminate].
    injection H as <- <-.
    eexists edited, logs, data, _.
    repeat (split; [reflexivity|]).
    split; [apply upsert_contains|].
    repeat split.
  - destruct (_load_logs self) as [logs|e]; discriminate.
Qed.

(** One call and the learning log: it is left as read, or it gets one more
    record, which has edits. *)
Lemma record_learning_data self x p ed data :
  _load_learning_data self = Ok data ->
  _load_learning_data (record self x p ed) = Ok data \/
  exists learned,
    LearningEntry.has_edits learned = true /\
    LearningEntry.image learned = x /\
    _load_learning_data (record self x p ed) = Ok (data ++ [learned]).
Proof.
  intros Hd. unfold record, log_feedback.
  destruct (match ed with
            | Some edited =>
                if truthy (VDict edited)
                then _count_edits (Payload.original_report p) edited
                else Ok 0
            | None => Ok 0
            end) as [n|e]; [|now left].
  destruct (_load_logs self) as [logs|e]; [|now left].
  rewrite existing_entry_index_upsert.
  match goal with
  | |- context [_save_learning_data ?s ?e] =>
      assert (Hs : _load_learning_data s = Ok data) by exact Hd;
      revert Hs; generalize s
  end.
  intros saved Hs.
  unfold _save_learning_data.
  destruct ed as [edited|]; simpl.
  - rewrite Hs. simpl. right. eexists. split; [|split].
    3: reflexivity. all: reflexivity.
  - left. exact Hs.
Qed.

(** X2.  The learning log is append-only: after any sequence of calls the
    records read before are still there, in place, followed by at most one
    new record per call, each of them with edits. *)
Theorem learning_log_append_only :
  forall (calls : list (string * Payload.t * option dict))
         (self : logger) (data : list LearningEntry.t),
    _load_learning_data self = Ok data ->
    exists more,
      _load_learning_data (record_all self calls) = Ok (data ++ more) /\
      (length more <= length calls)%nat /\
      Forall (fun learned => LearningEntry.has_edits learned = true) more.
Proof.
  induction calls as [|[[x p] ed] calls IH]; intros self data Hd.
  - exists []. rewrite app_nil_r. simpl. auto.
  - simpl.
    destruct (record_learning_data self x p ed data Hd)
      as [H|(learned & Hh & _ & H)].
    + destruct (IH _ _ H) as (more & Hm & Hl & Hf).
      exists more. repeat split; auto.
    + destruct (IH _ _ H) as (more & Hm & Hl & Hf).
      exists (learned :: more). rewrite <- app_assoc in Hm.
      split; [exact Hm|]. split; [simpl; lia|]. now constructor.
Qed.

(** X3.  A call never removes an entry of the feedback log and adds at
    most one; the entries of every other image stay exactly as they were. *)
Theorem record_touches_one_image :
  forall (self : logger) (x y : string) (p : Payload.t) (ed : option dict),
    y <> x ->
    (length (entries_of self) <= length (entries_of (record self x p ed))
     <= S (length (entries_of self)))%nat /\
    entries_for y (entries_of (record self x p ed)) =
    entries_for y (entries_of self).
Proof.
  intros self x y p ed Hy.
  destruct (record_cases self x p ed) as [->|(entry & Hi & _ & ->)].
  - split; [lia|reflexivity].
  - split.
    + destruct (upsert_length x entry (entries_of self)) as [->| ->]; lia.
    + now apply entries_for_upsert_other.
Qed.

Lemma ratio_unit (a b : Z) :
  0 <= a <= b -> 0 < b ->
  (0 <= inject_Z a / inject_Z b)%Q /\ (inject_Z a / inject_Z b <= 1)%Q.
Proof.
  intros Ha Hb.
  assert (Hb' : (0 < inject_Z b)%Q)
    by (change 0%Q with (inject_Z 0); rewrite <- Zlt_Qlt; exact Hb).
  split.
  - apply Qle_shift_div_l; [exact Hb'|]. rewrite Qmult_0_l.
    change 0%Q with (inject_Z 0). rewrite <- Zle_Qle. lia.
  - apply Qle_shift_div_r; [exact Hb'|]. rewrite Qmult_1_l.
    rewrite <- Zle_Qle. lia.
Qed.

Lemma round2_unit (q : Q) :
  (0 <= q)%Q -> (q <= 1)%Q -> (0 <= round2 q)%Q /\ (round2 q <= 1)%Q.
Proof.
  intros H0 H1. split.
  - change 0%Q with (round2 0). now apply round2_mono.
  - change 1%Q with (round2 1). now apply round2_mono.
Qed.

Lemma filter_length_le {A} (f : A -> bool) (l : list A) :
  (length (List.filter f l) <= length l)%nat.
Proof.
  induction l as [|x l IH]; simpl; [lia|]. destruct (f x); simpl; lia.
Qed.

(** X4.  The statistics of an empty (or missing) feedback log are four
    zeros, without an ["edit_rate"]; for a non-empty log the number of
    entries with edits lies between 0 and the number of entries, and the edit
    rate between 0 and 1. *)
Theorem feedback_statistics_bounds :
  forall (self : logger) (logs : list Entry.t),
    _load_logs self = Ok logs ->
    exists stats,
      get_feedback_statistics self = Ok stats /\
      dict_get "total_entries" stats =
        Some (VInt (Z.of_nat (length logs))) /\
      match logs with
      | [] =>
          dict_get "edit_rate" stats = None /\
          dict_get "entries_with_edits" stats = Some (VInt 0) /\
          dict_get "total_edits" stats = Some (VInt 0) /\
          dict_get "average_edits_per_entry" stats = Some (VInt 0)
      | _ :: _ =>
          exists (with_edits : Z) (rate : Q),
            dict_get "entries_with_edits" stats = Some (VInt with_edits) /\
            0 <= with_edits <= Z.of_nat (length logs) /\
            dict_get "edit_rate" stats = Some (VFloat rate) /\
            (0 <= rate)%Q /\ (rate <= 1)%Q
      end.
Proof.
  intros self logs Hl. unfold get_feedback_statistics. rewrite Hl. simpl.
  destruct logs as [|e logs].
  - eexists. split; [reflexivity|]. repeat split.
  - eexists. split; [reflexivity|]. split; [reflexivity|].
    set (all := e :: logs).
    set (n := Z.of_nat (length (List.filter Entry.has_edits all))).
    assert (Hn : 0 <= n <= Z.of_nat (length all)).
    { unfold n. pose proof (filter_length_le Entry.has_edits all). lia. }
    assert (Hp : 0 < Z.of_nat (length all)) by (simpl; lia).
    destruct (ratio_unit _ _ Hn Hp) as [H0 H1].
    destruct (round2_unit _ H0 H1) as [R0 R1].
    exists n, (round2 (inject_Z n / inject_Z (Z.of_nat (length all)))).
    split; [reflexivity|]. split; [exact Hn|].
    split; [reflexivity|]. split; assumption.
Qed.
End LoggerCalls.

Section LoggerCallsInstances.
Import FeedbackLogger.

Lemma log_feedback_returns_stored_entry_witness :
  exists self' entry,
    log_feedback empty_logger "2025-01-01T10:30:00" "x.jpg" generated_report
      (Some corrected_report) VNone VNone VNone VNone = (self', Ok entry) /\
    Entry.has_edits entry = true /\
    In entry (entries_of self').
Proof.
  eexists _, _. split; [reflexivity|].
  destruct (log_feedback_returns_stored_entry empty_logger _
              "2025-01-01T10:30:00" "x.jpg" generated_report
              (Some corrected_report) VNone VNone VNone VNone _ eq_refl)
    as (edited & logs & data & learned & _ & Hl & _ & _ & _ & Hh & _ & Hf
        & Hin & _).
  split; [exact Hh|].
  injection Hl as <-. exact Hin.
Defined.

Lemma learning_log_append_only_witness :
  exists more,
    _load_learning_data (record_all empty_logger edit_calls) = Ok ([] ++ more)
    /\ (length more <= 2)%nat.
Proof.
  destruct (learning_log_append_only edit_calls empty_logger [] eq_refl)
    as (more & Hm & Hl & _).
  exists more. split; [exact Hm|exact Hl].
Defined.

Lemma record_touches_one_image_witness :
  entries_for "y.jpg"
    (entries_of (record empty_logger "x.jpg"
                   (payload_at "2025-01-01T10:00:00") None)) =
  entries_for "y.jpg" (entries_of empty_logger).
Proof.
  exact (proj2 (record_touches_one_image empty_logger "x.jpg" "y.jpg"
                  (payload_at "2025-01-01T10:00:00") None
                  ltac:(discriminate))).
Defined.

Lemma feedback_statistics_bounds_witness :
  exists stats,
    get_feedback_statistics after_three_calls = Ok stats /\
    dict_get "total_entries" stats = Some (VInt 1).
Proof.
  destruct (feedback_statistics_bounds after_three_calls _ eq_refl)
    as (stats & Hs & Ht & _).
  exists stats. split; [exact Hs|exact Ht].
Defined.
End LoggerCallsInstances.

(** ** Equality of values and the count of edits *)

Section CountEdits.
Import FeedbackLogger.

Lemma dict_get_unique (d : dict) k v :
  no_dup (map fst d) = true -> In (k, v) d -> dict_get k d = Some v.
Proof.
  induction d as [|[k0 v0] d IH]; simpl; intros Hn Hin; [contradiction|].
  apply andb_true_iff in Hn. destruct Hn as [Hk Hn].
  destruct Hin as [Hin|Hin].
  - injection Hin as -> ->. now rewrite String.eqb_refl.
  - destruct (String.eqb k k0) eqn:E.
    + apply String.eqb_eq in E. subst k0. exfalso.
      apply negb_true_iff in Hk.
      assert (existsb (String.eqb k) (map fst d) = true).
      { apply existsb_exists. exists k. split.
        - apply in_map_iff. exists (k, v). auto.
        - apply String.eqb_refl. }
      congruence.
    + auto.
Qed.

Lemma Qeq_bool_refl q : Qeq_bool q q = true.
Proof. apply Qeq_bool_iff. reflexivity. Qed.

Lemma py_eq_refl_bounded (n : nat) :
  forall v, (value_size v <= n)%nat -> unique_keys v = true ->
            py_eq v v = true.
Proof.
  induction n as [|n IH]; intros v Hs Hu.
  - destruct v; simpl in Hs; lia.
  - destruct v as [| b | z | q | s | l | d]; simpl; try reflexivity.
    + apply Qeq_bool_refl.
    + apply Qeq_bool_refl.
    + apply Qeq_bool_refl.
    + apply String.eqb_refl.
    + simpl in Hs, Hu. apply le_S_n in Hs.
      induction l as [|x l IHl]; [reflexivity|].
      apply andb_true_iff in Hu. destruct Hu as [Hx Hl].
      apply andb_true_iff. split.
      * apply IH; [lia|exact Hx].
      * apply IHl; [lia|exact Hl].
    + simpl in Hs, Hu. apply le_S_n in Hs.
      apply andb_true_iff in Hu. destruct Hu as [Hk Hall].
      apply andb_true_iff. split; [apply Nat.eqb_refl|].
      assert (Hget : forall k v, In (k, v) d -> dict_get k d = Some v)
        by (intros k v; now apply dict_get_unique).
      assert (Hsmall : List.Forall (fun kv : string * value =>
                                 (value_size (snd kv) <= n)%nat /\
                                 unique_keys (snd kv) = true) d).
      { clear Hget Hk. induction d as [|[k x] d IHd]; constructor.
        - apply andb_true_iff in Hall. destruct Hall as [Hx _].
          simpl. split; [lia|exact Hx].
        - apply andb_true_iff in Hall. destruct Hall as [_ Hr].
          apply IHd; [lia|exact Hr]. }
      clear Hs Hall.
      match goal with
      | |- ?go d = true =>
          enough (Hgen : forall d1,
                     List.Forall (fun kv : string * value =>
                               (value_size (snd kv) <= n)%nat /\
                               unique_keys (snd kv) = true) d1 ->
                     (forall k v, In (k, v) d1 -> dict_get k d = Some v) ->
                     go d1 = true)
            by (apply Hgen; assumption)
      end.
      intros d1. induction d1 as [|[k x] d1 IHd]; intros Hf Hin;
        [reflexivity|].
      inversion Hf as [|? ? [Hx1 Hx2] Hf']; subst.
      rewrite (Hin k x) by (left; reflexivity).
      apply andb_true_iff. split.
      * apply IH; assumption.
      * apply IHd; [exact Hf'|].
        intros k' v' Hin'. apply Hin. now right.
Qed.

(** A value in which no dict repeats a key is equal to itself. *)
Lemma py_eq_refl v : unique_keys v = true -> py_eq v v = true.
Proof. apply (py_eq_refl_bounded (value_size v)). lia. Qed.

Lemma dict_get_In (d : dict) k v : dict_get k d = Some v -> In (k, v) d.
Proof.
  induction d as [|[k0 v0] d IH]; simpl; [discriminate|].
  destruct (String.eqb k k0) eqn:E.
  - apply String.eqb_eq in E. intros H. injection H as ->. subst. auto.
  - auto.
Qed.

Lemma unique_keys_member (d : dict) k v :
  unique_keys (VDict d) = true -> In (k, v) d -> unique_keys v = true.
Proof.
  simpl. intros H. apply andb_true_iff in H. destruct H as [_ H].
  induction d as [|[k0 v0] d IH]; intros Hin; [contradiction|].
  apply andb_true_iff in H. destruct H as [H0 Hr].
  destruct Hin as [Hin|Hin]; [injection Hin as -> ->; exact H0|auto].
Qed.

Lemma unique_keys_get (d : dict) k default :
  unique_keys (VDict d) = true -> unique_keys default = true ->
  unique_keys (get d k default) = true.
Proof.
  intros Hd Hdef. unfold get.
  destruct (dict_get k d) as [v|] eqn:E; [|exact Hdef].
  eapply unique_keys_member; [exact Hd|]. eapply dict_get_In. exact E.
Qed.

Lemma py_iter_unique_keys v items :
  unique_keys v = true -> py_iter v = Ok items ->
  List.Forall (fun x => unique_keys x = true) items.
Proof.
  destruct v as [| | | | s | l | d]; simpl; intros Hu H; try discriminate;
    injection H as <-.
  - induction s; simpl; constructor; auto.
  - induction l as [|x l IH]; constructor.
    + apply andb_true_iff in Hu. tauto.
    + apply andb_true_iff in Hu. destruct Hu. auto.
  - clear Hu. induction d; simpl; constructor; auto.
Qed.

Lemma py_len_iter v n :
  py_len v = Ok n ->
  exists items, py_iter v = Ok items /\ n = Z.of_nat (length items).
Proof.
  destruct v as [| | | | s | l | d]; simpl; intros H; try discriminate;
    injection H as <-; eexists; (split; [reflexivity|]).
  - f_equal. induction s; simpl; auto.
  - reflexivity.
  - now rewrite length_map.
Qed.

Lemma differing_pairs_same items :
  List.Forall (fun x => unique_keys x = true) items ->
  differing_pairs items items = 0.
Proof.
  unfold differing_pairs. induction 1 as [|x l Hx Hl IH]; [reflexivity|].
  simpl. rewrite (py_eq_refl x Hx). simpl. exact IH.
Qed.

Lemma zip_length {A B} (xs : list A) (ys : list B) :
  length (zip xs ys) = Nat.min (length xs) (length ys).
Proof.
  revert ys. induction xs as [|x xs IH]; intros [|y ys]; simpl; auto.
Qed.

Lemma differing_pairs_bounds xs ys :
  0 <= differing_pairs xs ys <=
  Z.min (Z.of_nat (length xs)) (Z.of_nat (length ys)).
Proof.
  unfold differing_pairs.
  pose proof (filter_length_le
                (fun p : value * value => negb (py_eq (fst p) (snd p)))
                (zip xs ys)) as H.
  rewrite zip_length in H. lia.
Qed.

(** X5.  A report compared with itself counts no edit: [_count_edits] gives
    0 whenever the findings have a length (no dict of the report holding a
    key twice, as in any Python value). *)
Theorem count_edits_identical :
  forall (report : dict),
    unique_keys (VDict report) = true ->
    is_ok (py_len (get report "findings" (VList []))) = true ->
    _count_edits report report = Ok 0.
Proof.
  intros report Hu Hlen. unfold _count_edits.
  destruct (py_len (get report "findings" (VList []))) as [n|e] eqn:En;
    [|discriminate].
  destruct (py_len_iter _ _ En) as (items & Hit & _).
  simpl. rewrite Z.eqb_refl. simpl. rewrite Hit. simpl.
  assert (Hf : unique_keys (get report "findings" (VList [])) = true)
    by (apply unique_keys_get; [exact Hu|reflexivity]).
  rewrite (differing_pairs_same items (py_iter_unique_keys _ _ Hf Hit)).
  rewrite !py_eq_refl by (apply unique_keys_get; [exact Hu|reflexivity]).
  reflexivity.
Qed.

(** X6.  The count of edits lies between the difference of the two
    numbers of findings and the larger of them plus 2 (one for the
    impression, one for the recommendations). *)
Theorem count_edits_bounds :
  forall (original edited : dict) (n : Z),
    _count_edits original edited = Ok n ->
    exists n_original n_edited,
      py_len (get original "findings" (VList [])) = Ok n_original /\
      py_len (get edited "findings" (VList [])) = Ok n_edited /\
      Z.abs (n_original - n_edited) <= n <= Z.max n_original n_edited + 2.
Proof.
  intros original edited n H. unfold _count_edits in H.
  bind_inv H. bind_inv H. bind_inv H. bind_inv H.
  exists a, a0. split; [exact Ha|]. split; [exact Ha0|].
  destruct (py_len_iter _ _ Ha) as (i1 & Hi1 & ->).
  destruct (py_len_iter _ _ Ha0) as (i2 & Hi2 & ->).
  rewrite Hi1 in Ha1. injection Ha1 as <-.
  rewrite Hi2 in Ha2. injection Ha2 as <-.
  pose proof (differing_pairs_bounds i1 i2) as Hd.
  injection H as <-.
  destruct (negb (Z.of_nat (length i1) =? Z.of_nat (length i2))) eqn:E;
    [|apply negb_false_iff, Z.eqb_eq in E];
    destruct (negb (py_eq (get original "impression" VNone)
                      (get edited "impression" VNone)));
    destruct (negb (py_eq (get original "recommendations" VNone)
                      (get edited "recommendations" VNone)));
    lia.
Qed.
End CountEdits.

Section CountEditsInstances.
Import FeedbackLogger.

Lemma count_edits_identical_witness :
  _count_edits generated_report generated_report = Ok 0.
Proof.
  exact (count_edits_identical generated_report eq_refl eq_refl).
Defined.

Lemma count_edits_bounds_witness :
  exists n_original n_edited,
    py_len (get generated_report "findings" (VList [])) = Ok n_original /\
    py_len (get corrected_report "findings" (VList [])) = Ok n_edited /\
    Z.abs (n_original - n_edited) <= 1 <= Z.max n_original n_edited + 2.
Proof.
  exact (count_edits_bounds generated_report corrected_report 1 eq_refl).
Defined.
End CountEditsInstances.

(** ** The rule applier: what an adjustment leaves *)

Section Adjustments.
Import ContinuousLearningEngine.
Variable py_str : value -> string.
Variable list_of_set : list value -> list value.

Lemma mapM_Forall2 {A B} (f : A -> result B) xs ys :
  mapM f xs = Ok ys -> Forall2 (fun x y => f x = Ok y) xs ys.
Proof.
  revert ys. induction xs as [|x xs IH]; simpl; intros ys H.
  - injection H as <-. constructor.
  - bind_inv H. bind_inv H. injection H as <-. constructor; auto.
Qed.

Lemma round2_hundredths (q : Q) : exists z, (round2 q * 100 == inject_Z z)%Q.
Proof.
  exists (round_half_even (q * 100)).
  rewrite round2_eq, Qmake_100. field.
Qed.

Lemma clamp_unit (x : Q) : (0 <= max0 (min1 x))%Q /\ (max0 (min1 x) <= 1)%Q.
Proof.
  unfold max0. destruct (Qltb 0 (min1 x)) eqn:E.
  - apply Qltb_lt in E. split; [now apply Qlt_le_weak|].
    destruct (min1_spec x) as [[H ->]|[_ ->]];
      [now apply Qlt_le_weak|apply Qle_refl].
  - split; [apply Qle_refl|discriminate].
Qed.

Lemma apply_rule_adjusts (all : list rule) (name : value) (r : rule)
  (d0 d d' : dict) :
  In r all ->
  apply_rule name d r = Ok d' ->
  adjusted_or_same all (VDict d0) (VDict d) ->
  adjusted_or_same all (VDict d0) (VDict d').
Proof.
  intros Hin H Hprev.
  destruct r as [p s q|p a s|p l s]; simpl in H;
    try (injection H as <-; exact Hprev).
  bind_inv H.
  destruct (contains (lower p) a0); [|injection H as <-; exact Hprev].
  bind_inv H. injection H as <-.
  destruct (clamp_unit (a1 + a)) as [H0 H1].
  destruct (round2_unit _ H0 H1) as [R0 R1].
  destruct (round2_hundredths (max0 (min1 (a1 + a)))) as [z Hz].
  right. eexists _, _, z, p, a, s.
  split; [reflexivity|]. split; [exact Hin|].
  split.
  { rewrite dict_get_set_ne by discriminate.
    rewrite dict_get_set_ne by discriminate. apply dict_get_set_eq. }
  split; [exact R0|]. split; [exact R1|]. split; [exact Hz|].
  split.
  { rewrite dict_get_set_ne by discriminate. apply dict_get_set_eq. }
  apply dict_get_set_eq.
Qed.

Lemma apply_rules_adjust (all : list rule) (name : value) (rs : list rule)
  (d0 d d' : dict) :
  (forall r, In r rs -> In r all) ->
  foldM (apply_rule name) rs d = Ok d' ->
  adjusted_or_same all (VDict d0) (VDict d) ->
  adjusted_or_same all (VDict d0) (VDict d').
Proof.
  revert d. induction rs as [|r rs IH]; simpl; intros d Hincl H Hprev.
  - injection H as <-. exact Hprev.
  - bind_inv H. apply (IH a); [auto|exact H|].
    eapply apply_rule_adjusts; [apply Hincl; now left|exact Ha|exact Hprev].
Qed.

Lemma improve_finding_adjusts (rs : list rule) (finding improved : value) :
  improve_finding rs finding = Ok improved ->
  adjusted_or_same rs finding improved.
Proof.
  unfold improve_finding. intros H. bind_inv H. bind_inv H.
  injection H as <-.
  destruct finding as [| | | | | |d]; try discriminate.
  injection Ha as <-.
  eapply apply_rules_adjust; [|exact Ha0|now left]. auto.
Qed.

(** X7.  Whatever the rules and the report, when the rule applier returns,
    each finding of its result either is the finding it was given or has
    been adjusted by a confidence rule in force: its confidence then lies in
    [0, 1] and is a whole number of hundredths, [confidence_adjusted] is
    true and the reason names the pattern of that rule. *)
Theorem adjusted_confidence_clamped :
  forall (f : file (list LearningEntry.t)) (self self' : engine)
         (report out : dict),
    apply_rules_to_report py_str list_of_set f self report = Ok (out, self') ->
    exists findings improved,
      py_iter (get report "findings" (VList [])) = Ok findings /\
      dict_get "findings" out = Some (VList improved) /\
      Forall2 (adjusted_or_same (rules self')) findings improved.
Proof.
  intros f self self' report out H. unfold apply_rules_to_report in H.
  bind_inv H. bind_inv H. bind_inv H. bind_inv H.
  injection H as <- <-.
  exists a0, a1. split; [exact Ha0|]. split.
  - rewrite dict_get_set_ne by discriminate. apply dict_get_set_eq.
  - apply mapM_Forall2 in Ha1.
    eapply Forall2_impl; [exact Ha1|].
    intros x y Hxy. now apply improve_finding_adjusts.
Qed.

Lemma apply_no_confidence_rule (name : value) (rs : list rule) (d : dict) :
  forallb (fun r => negb (is_confidence_adjustment r)) rs = true ->
  foldM (apply_rule name) rs d = Ok d.
Proof.
  induction rs as [|r rs IH]; simpl; intros H; [reflexivity|].
  apply andb_true_iff in H. destruct H as [Hr Hrs].
  destruct r; try discriminate; simpl; auto.
Qed.

Lemma count_no_confidence_rule (report : dict) (rs : list rule) (n : Z) :
  forallb (fun r => negb (is_confidence_adjustment r)) rs = true ->
  foldM (fun n r => b <- _rule_applies report r ;;
                    Ok (if b : bool then n + 1 else n)) rs n = Ok n.
Proof.
  induction rs as [|r rs IH]; simpl; intros H; [reflexivity|].
  apply andb_true_iff in H. destruct H as [Hr Hrs].
  destruct r; try discriminate; simpl; auto.
Qed.

(** X8.  With no confidence-adjustment rule in force (in particular with
    nothing mined yet), the rule applier gives back the findings of a report
    as they are, for any list of dicts, and [rules_applied] is 0: names and
    confidences are not even looked at. *)
Theorem apply_without_confidence_rules :
  forall (f : file (list LearningEntry.t)) (self self' : engine)
         (report : dict) (findings : list value),
    ensure_rules py_str list_of_set f self = Ok self' ->
    forallb (fun r => negb (is_confidence_adjustment r)) (rules self')
      = true ->
    py_iter (get report "findings" (VList [])) = Ok findings ->
    forallb is_dict findings = true ->
    apply_rules_to_report py_str list_of_set f self report =
    Ok (dict_set "rules_applied" (VInt 0)
          (dict_set "findings" (VList findings) report), self').
Proof.
  intros f self self' report findings He Hr Hi Hd.
  unfold apply_rules_to_report. rewrite He. simpl. rewrite Hi. simpl.
  assert (Hm : mapM (improve_finding (rules self')) findings = Ok findings).
  { clear Hi. induction findings as [|x xs IH]; [reflexivity|].
    simpl in Hd. apply andb_true_iff in Hd. destruct Hd as [Hx Hxs].
    destruct x as [| | | | | |d]; try discriminate.
    simpl. unfold improve_finding at 1. simpl.
    rewrite apply_no_confidence_rule by exact Hr. simpl.
    rewrite (IH Hxs). reflexivity. }
  rewrite Hm. simpl. unfold count_applicable.
  rewrite count_no_confidence_rule by exact Hr. reflexivity.
Qed.
End Adjustments.

Section AdjustmentsInstances.
Import ContinuousLearningEngine.

Lemma adjusted_confidence_clamped_witness :
  exists findings improved,
    py_iter (get (report_of [finding_of "Card" (1 # 2)]) "findings"
               (VList [])) = Ok findings /\
    Forall2 (adjusted_or_same [cardiomegaly_rule]) findings improved.
Proof.
  destruct (adjusted_confidence_clamped (fun _ => "") (fun s => s) Missing
              {| rules := [cardiomegaly_rule] |} _
              (report_of [finding_of "Card" (1 # 2)]) _ eq_refl)
    as (findings & improved & Hi & _ & Hf).
  exists findings, improved. split; [exact Hi|exact Hf].
Defined.

Lemma apply_without_confidence_rules_witness :
  apply_rules_to_report (fun _ => "") (fun s => s) Missing init generated_report =
  Ok (dict_set "rules_applied" (VInt 0)
        (dict_set "findings"
           (VList [VDict (finding_of "Cardiomegaly" (1 # 2))])
           generated_report), init).
Proof.
  exact (apply_without_confidence_rules (fun _ => "") (fun s => s) Missing init init
           generated_report [VDict (finding_of "Cardiomegaly" (1 # 2))]
           eq_refl eq_refl eq_refl eq_refl).
Defined.
End AdjustmentsInstances.

(** ** Rule mining: what a mined rule has passed *)

Section MinedRules.
Import ContinuousLearningEngine.
Variable py_str : value -> string.
Variable list_of_set : list value -> list value.

Lemma count_pattern_occurrences_from pattern data n :
  n <= fold_left (fun count entry =>
                    if contains (py_str (LearningEntry.to_value entry)) pattern
                    then count + 1 else count) data n
    <= n + Z.of_nat (length data).
Proof.
  revert n. induction data as [|entry data IH]; intros n.
  - simpl. lia.
  - cbn [fold_left length].
    destruct (contains (py_str (LearningEntry.to_value entry)) pattern).
    + specialize (IH (n + 1)). lia.
    + specialize (IH n). lia.
Qed.

Lemma count_pattern_occurrences_bounds pattern data :
  0 <= _count_pattern_occurrences py_str pattern data
    <= Z.of_nat (length data).
Proof. apply (count_pattern_occurrences_from pattern data 0). Qed.

Lemma rule_confidence_nonneg pattern data :
  (0 <= _calculate_rule_confidence py_str pattern data)%Q.
Proof.
  unfold _calculate_rule_confidence.
  set (total := Z.of_nat (length (List.filter LearningEntry.has_edits data))).
  destruct (total =? 0) eqn:E; [apply Qle_refl|].
  apply Z.eqb_neq in E.
  change 0%Q with (round2 0). apply round2_mono.
  apply Qle_shift_div_l.
  - change 0%Q with (inject_Z 0). rewrite <- Zlt_Qlt. unfold total in *. lia.
  - rewrite Qmult_0_l. change 0%Q with (inject_Z 0). rewrite <- Zle_Qle.
    apply count_pattern_occurrences_bounds.
Qed.

(** Rounding keeps an adjustment that is beyond 0.1 at 0.1 or beyond. *)
Lemma round2_significant (q : Q) :
  (1 # 10 < Qabs q)%Q -> (1 # 10 <= Qabs (round2 q))%Q.
Proof.
  intros H. destruct (Qlt_le_dec q 0) as [Hneg|Hpos].
  - rewrite Qabs_neg in H by (now apply Qlt_le_weak).
    assert (Hq : (q <= - (1 # 10))%Q) by lra.
    apply round2_mono in Hq. change (round2 (- (1 # 10))) with (- (1 # 10))%Q in Hq.
    rewrite Qabs_neg by lra. lra.
  - rewrite Qabs_pos in H by exact Hpos.
    assert (Hq : (1 # 10 <= q)%Q) by lra.
    apply round2_mono in Hq. change (round2 (1 # 10)) with (1 # 10)%Q in Hq.
    rewrite Qabs_pos by lra. exact Hq.
Qed.

Lemma edit_rules_thresholds k data patterns :
  Forall (within_thresholds k) (edit_rules py_str k data patterns).
Proof.
  unfold edit_rules. induction patterns as [|[p n] ps IH]; simpl.
  - constructor.
  - destruct (k <=? n) eqn:E; simpl; [|exact IH].
    constructor; [|exact IH]. simpl. split.
    + now apply Z.leb_le.
    + apply rule_confidence_nonneg.
Qed.

Lemma association_rules_thresholds k patterns :
  Forall (within_thresholds k) (association_rules k patterns).
Proof.
  unfold association_rules. induction patterns as [|[p a] ps IH]; simpl.
  - constructor.
  - destruct (k <=? Z.of_nat (length a)) eqn:E; simpl; [|exact IH].
    constructor; [|exact IH]. simpl. split; [reflexivity|].
    now apply Z.leb_le.
Qed.

Lemma confidence_rules_thresholds k data patterns out :
  confidence_rules py_str data patterns = Ok out ->
  Forall (within_thresholds k) out.
Proof.
  unfold confidence_rules.
  match goal with |- foldM ?b _ _ = _ -> _ => set (body := b) end.
  assert (Hnil : Forall (within_thresholds k) (@nil rule)) by constructor.
  revert Hnil. generalize (@nil rule) as acc. revert out.
  induction patterns as [|[p adj] ps IH]; simpl; intros out acc Hacc H.
  - injection H as <-. exact Hacc.
  - bind_inv H. apply (IH _ a); [|exact H].
    unfold body in Ha.
    destruct (Qltb (1 # 10) (Qabs adj)) eqn:E.
    + destruct p; try discriminate. injection Ha as <-.
      apply Forall_app. split; [exact Hacc|].
      constructor; [|constructor]. simpl. split.
      * apply round2_significant. now apply Qltb_lt.
      * apply count_pattern_occurrences_bounds.
    + injection Ha as <-. exact Hacc.
Qed.

(** X9.  Every rule that [mine_rules] returns has passed the threshold of
    its kind: an edit pattern occurs at least [min_support] times and its
    confidence is not negative; a finding association has as support the
    number of its associated names, at least [min_support]; a confidence
    adjustment is, after rounding, 0.1 or more in absolute value, and its
    support is not negative (it is not compared with [min_support]). *)
Theorem mined_rules_thresholds :
  forall (f : file (list LearningEntry.t)) (self self' : engine)
         (min_support : Z) (mined : list rule),
    mine_rules py_str list_of_set f self min_support = Ok (mined, self') ->
    Forall (within_thresholds min_support) mined.
Proof.
  intros f self self' k mined H. unfold mine_rules in H. bind_inv H.
  destruct a as [|entry data].
  - injection H as <- _. constructor.
  - bind_inv H. injection H as <- _.
    eapply Permutation_Forall;
      [symmetry; apply sorted_reverse_perm|].
    unfold discovered_rules in Ha0.
    bind_inv Ha0. bind_inv Ha0. bind_inv Ha0. bind_inv Ha0.
    injection Ha0 as <-.
    apply Forall_app. split; [apply edit_rules_thresholds|].
    apply Forall_app. split; [|apply association_rules_thresholds].
    eapply confidence_rules_thresholds. eassumption.
Qed.

(** X10.  The edit patterns are those of the records with edits alone: a
    record whose [has_edits] is false adds nothing, and nothing in it (a
    findings value that is no list, a finding that is no dict) can make the
    extraction raise. *)
Theorem edit_patterns_ignore_unedited :
  forall (learning_data : list LearningEntry.t),
    _extract_edit_patterns py_str learning_data =
    _extract_edit_patterns py_str
      (List.filter LearningEntry.has_edits learning_data).
Proof.
  intros data. unfold _extract_edit_patterns.
  match goal with |- foldM ?b _ _ = _ => set (body := b) end.
  generalize (@nil (string * Z)) as acc.
  induction data as [|entry data IH]; intros acc; [reflexivity|].
  cbn [List.filter foldM].
  destruct (LearningEntry.has_edits entry) eqn:E.
  - cbn [foldM]. destruct (body acc entry) as [acc'|e]; simpl; auto.
  - assert (Hb : body acc entry = Ok acc) by (unfold body; now rewrite E).
    rewrite Hb. simpl. apply IH.
Qed.
End MinedRules.

Section MinedRulesInstances.
Import ContinuousLearningEngine.

Lemma mined_rules_thresholds_witness :
  exists mined self',
    mine_rules (fun _ => "") (fun s => s)
      (Stored [cardiomegaly_record "2025-01-01T10:30:00" "x.jpg"
                 (VList []) (VDict []) (VDict []) 1])
      init 1 = Ok (mined, self') /\
    Forall (within_thresholds 1) mined.
Proof.
  eexists _, _. split; [reflexivity|].
  exact (mined_rules_thresholds (fun _ => "") (fun s => s)
           (Stored [cardiomegaly_record "2025-01-01T10:30:00" "x.jpg"
                      (VList []) (VDict []) (VDict []) 1])
           init _ 1 _ eq_refl).
Defined.
End MinedRulesInstances.

(** ** The ontology mapper: what is matched, and when it raises *)

Section Ontology.
Import OntologyProcessor.

Lemma existsb_eqb_In (t : string) (l : list string) :
  existsb (String.eqb t) l = true <-> In t l.
Proof.
  rewrite existsb_exists. split.
  - intros (x & Hx & E). apply String.eqb_eq in E. now subst.
  - intros H. exists t. split; [exact H|apply String.eqb_refl].
Qed.

Lemma add_once_In terms term t :
  In t (add_once terms term) <-> In t terms \/ t = term.
Proof.
  unfold add_once. destruct (existsb (String.eqb term) terms) eqn:E.
  - apply existsb_eqb_In in E. split; [auto|]. intros [H| ->]; assumption.
  - rewrite in_app_iff. simpl. split.
    + intros [H|[<-|[]]]; auto.
    + intros [H| ->]; auto.
Qed.

Lemma add_once_NoDup terms term : NoDup terms -> NoDup (add_once terms term).
Proof.
  intros H. unfold add_once.
  destruct (existsb (String.eqb term) terms) eqn:E; [exact H|].
  apply NoDup_app. split; [exact H|]. split; [|apply NoDup_singleton].
  intros x Hx Hk. apply list_elem_of_In in Hx.
  inversion Hk as [|? ? ? Hk']; [subst|inversion Hk'].
  apply existsb_eqb_In in Hx. congruence.
Qed.

Lemma add_once_twice terms term :
  add_once (add_once terms term) term = add_once terms term.
Proof.
  unfold add_once at 2 3. destruct (existsb (String.eqb term) terms) eqn:E.
  - unfold add_once. now rewrite E.
  - unfold add_once. rewrite existsb_app. simpl.
    now rewrite String.eqb_refl, orb_true_r.
Qed.

Lemma fold_add_once_In l : forall acc t,
  In t (fold_left add_once l acc) <-> In t acc \/ In t l.
Proof.
  induction l as [|x l IH]; intros acc t; simpl.
  - tauto.
  - rewrite IH, add_once_In. intuition.
Qed.

Lemma fold_add_once_NoDup l : forall acc,
  NoDup acc -> NoDup (fold_left add_once l acc).
Proof.
  induction l as [|x l IH]; intros acc H; simpl; [exact H|].
  apply IH. now apply add_once_NoDup.
Qed.

(** The inner loop of the scan, over the keywords of one condition. *)
Lemma match_keywords_spec text c kws : forall mc mk,
  fold_left (fun (acc : list string * list string) keyword =>
      let (matched_conditions, matched_keywords) := acc in
      if contains text (lower keyword) then
        (if existsb (String.eqb c) matched_conditions
         then matched_conditions
         else matched_conditions ++ [c],
         matched_keywords ++ [keyword])
      else acc) kws (mc, mk) =
  (if existsb (keyword_in text) kws then add_once mc c else mc,
   mk ++ List.filter (keyword_in text) kws).
Proof.
  induction kws as [|kw kws IH]; intros mc mk.
  - simpl. now rewrite app_nil_r.
  - cbn [fold_left existsb List.filter]. unfold keyword_in at 1 3.
    destruct (contains text (lower kw)) eqn:E.
    + change (if existsb (String.eqb c) mc then mc else mc ++ [c])
        with (add_once mc c).
      rewrite IH, add_once_twice, <- app_assoc. simpl.
      now destruct (existsb (keyword_in text) kws).
    + rewrite IH. reflexivity.
Qed.

(** The scan of the whole table. *)
Lemma match_radlex_from text table : forall mc mk,
  fold_left (fun (acc : list string * list string)
                 (entry : string * list string) =>
    let (condition, keywords) := entry in
    fold_left (fun (acc : list string * list string) keyword =>
      let (matched_conditions, matched_keywords) := acc in
      if contains text (lower keyword) then
        (if existsb (String.eqb condition) matched_conditions
         then matched_conditions
         else matched_conditions ++ [condition],
         matched_keywords ++ [keyword])
      else acc)
      keywords acc)
    table (mc, mk) =
  (fold_left add_once (map fst (List.filter (condition_hit text) table)) mc,
   mk ++ flat_map (fun e => List.filter (keyword_in text) (snd e)) table).
Proof.
  induction table as [|[c kws] table IH]; intros mc mk.
  - simpl. now rewrite app_nil_r.
  - cbn [fold_left List.filter flat_map]. rewrite match_keywords_spec, IH.
    unfold condition_hit at 2. cbn [snd]. rewrite <- app_assoc.
    now destruct (existsb (keyword_in text) kws).
Qed.

Lemma match_radlex_spec (self : processor) text :
  match_radlex self text =
  (fold_left add_once
     (map fst (List.filter (condition_hit text) (radlex_terms self))) [],
   flat_map (fun e => List.filter (keyword_in text) (snd e))
     (radlex_terms self)).
Proof. unfold match_radlex. now rewrite match_radlex_from. Qed.

Lemma matched_conditions_spec self text c :
  In c (fst (match_radlex self text)) <-> condition_matches self text c.
Proof.
  rewrite match_radlex_spec. cbn [fst]. rewrite fold_add_once_In, in_map_iff.
  unfold condition_matches. split.
  - intros [[]|([c' kws] & Hc & Hin)]. simpl in Hc. subst c'.
    apply List.filter_In in Hin. destruct Hin as [Hin Hhit].
    apply existsb_exists in Hhit. destruct Hhit as (kw & Hkw & Hm).
    exists kws, kw. auto.
  - intros (kws & kw & Hin & Hkw & Hm). right. exists (c, kws).
    split; [reflexivity|]. apply List.filter_In. split; [exact Hin|].
    apply existsb_exists. eauto.
Qed.

Lemma matched_keywords_spec self text k :
  In k (remove_dups (snd (match_radlex self text))) <->
  keyword_matches self text k.
Proof.
  rewrite <- list_elem_of_In, elem_of_remove_dups, list_elem_of_In.
  rewrite match_radlex_spec. cbn [snd]. rewrite in_flat_map.
  unfold keyword_matches. split.
  - intros ([c kws] & Hin & Hk). apply List.filter_In in Hk.
    destruct Hk as [Hk Hm]. exists c, kws. auto.
  - intros (c & kws & Hin & Hk & Hm). exists (c, kws).
    split; [exact Hin|]. apply List.filter_In. auto.
Qed.

Lemma matched_conditions_NoDup self text :
  NoDup (fst (match_radlex self text)).
Proof.
  rewrite match_radlex_spec. apply fold_add_once_NoDup. constructor.
Qed.

(** X11.  When the ontology mapper returns, each finding has come back as
    itself with one key more, ["ontology_mapping"]: under it, the conditions
    listed are exactly the conditions of the table with a keyword occurring
    (in lower case) in the finding's lower-cased name and evidence, each
    once; the keywords listed are exactly the keywords that occur, each
    once; the labels are those of the label list that occur, in the order of
    that list; the mapping confidence is the one computed from these. *)
Theorem ontology_mapping_characterised :
  forall (self : processor) (findings mapped : list value),
    map_findings_to_ontology self findings = Ok mapped ->
    Forall2 (mapped_by self) findings mapped.
Proof.
  intros self findings mapped H. unfold map_findings_to_ontology in H.
  apply mapM_Forall2 in H. eapply Forall2_impl; [exact H|].
  clear. intros finding enhanced H. cbv beta in H.
  bind_inv H. bind_inv H. bind_inv H.
  destruct finding as [| | | | | |d]; try discriminate. injection Ha as <-.
  destruct (get d "finding" (VStr "")) as [| | | |name| |] eqn:En;
    try discriminate.
  destruct (get d "evidence" (VStr "")) as [| | | |evidence| |] eqn:Ee;
    try discriminate.
  injection Ha0 as <-. injection Ha1 as <-.
  set (text := lower name +:+ " " +:+ lower evidence) in *.
  destruct (match_radlex self text) as [mc mk] eqn:Em.
  bind_inv H. injection H as <-.
  assert (Hmc : mc = fst (match_radlex self text)) by (now rewrite Em).
  assert (Hmk : mk = snd (match_radlex self text)) by (now rewrite Em).
  exists d, name, evidence, mc, (remove_dups mk),
    (List.filter (keyword_in text) (chexpert_labels self)), a.
  split; [reflexivity|]. split; [exact En|]. split; [exact Ee|].
  split; [reflexivity|].
  split; [rewrite Hmc; apply matched_conditions_NoDup|].
  split; [apply NoDup_remove_dups|].
  split; [intros c; rewrite Hmc; apply matched_conditions_spec|].
  split; [intros k; rewrite Hmk; apply matched_keywords_spec|].
  split; [reflexivity|exact Ha].
Qed.










(** The loops of [suggest_standard_terms]. *)
Lemma suggest_keywords_spec text c kws : forall s,
  fold_left (fun suggestions keyword =>
               if keyword_in text keyword then add_once suggestions c
               else suggestions) kws s =
  if existsb (keyword_in text) kws then add_once s c else s.
Proof.
  induction kws as [|kw kws IH]; intros s; [reflexivity|].
  cbn [fold_left existsb]. destruct (keyword_in text kw); simpl.
  - rewrite IH, add_once_twice. now destruct (existsb (keyword_in text) kws).
  - apply IH.
Qed.

Lemma suggest_conditions_spec text table : forall s,
  fold_left (fun suggestions (entry : string * list string) =>
               let (condition, keywords) := entry in
               fold_left (fun suggestions keyword =>
                            if keyword_in text keyword
                            then add_once suggestions condition
                            else suggestions) keywords suggestions)
    table s =
  fold_left add_once (map fst (List.filter (condition_hit text) table)) s.
Proof.
  induction table as [|[c kws] table IH]; intros s; [reflexivity|].
  cbn [fold_left List.filter]. rewrite suggest_keywords_spec, IH.
  unfold condition_hit at 2. cbn [snd].
  now destruct (existsb (keyword_in text) kws).
Qed.

Lemma suggest_labels_spec text labels : forall s,
  fold_left (fun suggestions label =>
               if keyword_in text label then add_once suggestions label
               else suggestions) labels s =
  fold_left add_once (List.filter (keyword_in text) labels) s.
Proof.
  induction labels as [|l labels IH]; intros s; [reflexivity|].
  cbn [fold_left List.filter]. destruct (keyword_in text l); simpl; apply IH.
Qed.

Lemma suggest_standard_terms_spec (self : processor) text :
  suggest_standard_terms self text =
  fold_left add_once
    (List.filter (keyword_in (lower text)) (chexpert_labels self))
    (fold_left add_once
       (map fst (List.filter (condition_hit (lower text))
                   (radlex_terms self))) []).
Proof.
  rewrite <- suggest_labels_spec, <- suggest_conditions_spec. reflexivity.
Qed.

(** X13.  The terms suggested for a text are exactly the conditions of the
    table with a keyword occurring in the lower-cased text and the labels of
    the label list that occur in it, and none is suggested twice (also when
    a label and a condition have the same name). *)
Theorem suggested_terms_characterised :
  forall (self : processor) (finding_text : string),
    NoDup (suggest_standard_terms self finding_text) /\
    forall term,
      In term (suggest_standard_terms self finding_text) <->
      condition_matches self (lower finding_text) term \/
      (In term (chexpert_labels self) /\
       keyword_in (lower finding_text) term = true).
Proof.
  intros self text. rewrite suggest_standard_terms_spec. split.
  - apply fold_add_once_NoDup, fold_add_once_NoDup. constructor.
  - intros term. rewrite !fold_add_once_In, in_map_iff, List.filter_In.
    unfold condition_matches. split.
    + intros [[[]|([c kws] & Hc & Hin)]|H]; [|now right].
      simpl in Hc. subst c. apply List.filter_In in Hin.
      destruct Hin as [Hin Hhit]. apply existsb_exists in Hhit.
      destruct Hhit as (kw & Hkw & Hm). left. exists kws, kw. auto.
    + intros [(kws & kw & Hin & Hkw & Hm)|H]; [|now right].
      left. right. exists (term, kws). split; [reflexivity|].
      apply List.filter_In. split; [exact Hin|].
      apply existsb_exists. eauto.
Qed.

(** *** Statistics of the mapping *)

Lemma count_mapped_spec key findings n :
  count_mapped key findings = Ok n ->
  n = Z.of_nat (length (List.filter (has_entry key) findings)).
Proof.
  unfold count_mapped. intros H. bind_inv H. injection H as <-.
  f_equal. revert a Ha.
  induction findings as [|f findings IH]; intros flags H.
  - injection H as <-. reflexivity.
  - cbn [mapM] in H. bind_inv H. bind_inv H. injection H as <-.
    specialize (IH _ Ha0).
    assert (E : a = has_entry key f).
    { unfold mapped_to in Ha. bind_inv Ha. bind_inv Ha. injection Ha as <-.
      destruct f as [| | | | | |d]; try discriminate. injection Ha1 as <-.
      unfold has_entry.
      destruct (get d "ontology_mapping" (VDict [])); try discriminate.
      now injection Ha2 as <-. }
    cbn [List.filter]. rewrite <- E. destruct a; cbn [length]; now rewrite IH.
Qed.

Lemma confidence_values_read (findings : list value) : forall values,
  mapM (fun f => d <- as_dict f ;; Ok (get d "confidence" (VInt 0)))
    findings = Ok values ->
  values = confidence_values findings.
Proof.
  induction findings as [|f findings IH]; intros values H.
  - now injection H as <-.
  - cbn [mapM] in H. bind_inv H. bind_inv H. injection H as <-.
    bind_inv Ha. injection Ha as <-.
    destruct f as [| | | | | |d]; try discriminate. injection Ha1 as <-.
    cbn [confidence_values map]. f_equal. now apply IH.
Qed.

Lemma nearest_unit (q : Q) :
  (0 <= q)%Q -> (q <= 1)%Q ->
  (0 <= Binary64.nearest q)%Q /\ (Binary64.nearest q <= 1)%Q.
Proof.
  intros H0 H1. split; [now apply nearest_nonneg|].
  rewrite <- nearest_1. now apply nearest_mono.
Qed.

(** X14.  When the ontology statistics are computed, the total is the number
    of findings, and ["mapped_findings"] is the number of findings with a
    truthy entry of conditions plus the number of findings with a truthy
    entry of labels (a finding with both counts twice), each of the two
    between 0 and the total.  For no findings every other figure is the
    integer 0; for some findings each coverage is the float nearest to the
    share of findings with such an entry, between 0 and 1, and the average
    is the mean of the confidences as computed in floating point, rounded
    to 2 decimals. *)
Theorem ontology_statistics_bounds :
  forall (compensated : bool) (findings : list value) (stats : dict),
    get_ontology_statistics compensated findings = Ok stats ->
    let total := Z.of_nat (length findings) in
    let radlex :=
      Z.of_nat (length (List.filter (has_entry "radlex_conditions")
                          findings)) in
    let chexpert :=
      Z.of_nat (length (List.filter (has_entry "chexpert_labels")
                          findings)) in
    dict_get "total_findings" stats = Some (VInt total) /\
    dict_get "mapped_findings" stats = Some (VInt (radlex + chexpert)) /\
    0 <= radlex <= total /\ 0 <= chexpert <= total /\
    match findings with
    | [] =>
        dict_get "radlex_coverage" stats = Some (VInt 0) /\
        dict_get "chexpert_coverage" stats = Some (VInt 0) /\
        dict_get "average_confidence" stats = Some (VInt 0)
    | _ :: _ =>
        exists (rc cc avg : Q),
          dict_get "radlex_coverage" stats = Some (VFloat rc) /\
          dict_get "chexpert_coverage" stats = Some (VFloat cc) /\
          rc = Binary64.nearest (inject_Z radlex / inject_Z total) /\
          cc = Binary64.nearest (inject_Z chexpert / inject_Z total) /\
          (0 <= rc)%Q /\ (rc <= 1)%Q /\ (0 <= cc)%Q /\ (cc <= 1)%Q /\
          mean compensated (confidence_values findings) total = Ok avg /\
          dict_get "average_confidence" stats =
            Some (VFloat (Binary64.round2d avg))
    end.
Proof.
  intros compensated findings stats H total radlex chexpert.
  unfold get_ontology_statistics in H. fold total in H.
  bind_inv H. bind_inv H. bind_inv H. injection H as <-.
  apply count_mapped_spec in Ha, Ha0. fold radlex in Ha. fold chexpert in Ha0.
  subst a a0.
  assert (Hr : 0 <= radlex <= total).
  { unfold radlex, total.
    pose proof (filter_length_le (has_entry "radlex_conditions") findings).
    lia. }
  assert (Hc : 0 <= chexpert <= total).
  { unfold chexpert, total.
    pose proof (filter_length_le (has_entry "chexpert_labels") findings).
    lia. }
  split; [reflexivity|]. split; [reflexivity|].
  split; [exact Hr|]. split; [exact Hc|].
  destruct findings as [|f findings].
  - repeat split.
  - assert (Hp : 0 < total) by (unfold total; simpl; lia).
    assert (Hlt : (0 <? total) = true) by now apply Z.ltb_lt.
    rewrite Hlt in Ha1. bind_inv Ha1.
    apply confidence_values_read in Ha. subst a.
    destruct (ratio_unit _ _ Hr Hp) as [R0 R1].
    destruct (ratio_unit _ _ Hc Hp) as [C0 C1].
    destruct (nearest_unit _ R0 R1) as [NR0 NR1].
    destruct (nearest_unit _ C0 C1) as [NC0 NC1].
    eexists _, _, a1.
    cbn [dict_get String.eqb Ascii.eqb Bool.eqb]. rewrite Hlt.
    split; [reflexivity|]. split; [reflexivity|].
    split; [reflexivity|]. split; [reflexivity|].
    split; [exact NR0|]. split; [exact NR1|].
    split; [exact NC0|]. split; [exact NC1|].
    split; [exact Ha1|reflexivity].
Qed.

(** *** Validation *)

Section Validation.
Variable py_str : value -> string.
Variable percent : Q -> string.

Lemma is_empty_snoc {A} (l : list A) (x : A) : is_empty (l ++ [x]) = false.
Proof. now destruct l. Qed.

Lemma validate_finding_step w s f w' s' :
  validate_finding py_str percent (w, s) f = Ok (w', s') ->
  is_empty w' = is_empty w && acceptable f /\
  (length w' + length s' <= length w + length s + 2)%nat /\
  (length s <= length s' <= length s + 1)%nat.
Proof.
  unfold validate_finding. intros H. bind_inv H. bind_inv H. bind_inv H.
  destruct f as [| | | | | |d]; try discriminate. injection Ha as <-.
  unfold acceptable.
  destruct (get d "ontology_mapping" (VDict [])) as [| | | | | |o];
    try discriminate.
  injection Ha0 as <-. rewrite Ha1.
  unfold Qltb in H.
  destruct (truthy (get o "radlex_conditions" VNone)),
           (truthy (get o "chexpert_labels" VNone)),
           (Qle_bool (3 # 10) a1),
           (Qle_bool a1 (9 # 10));
    simpl in H; injection H as <- <-;
    rewrite ?is_empty_snoc, ?length_app, ?andb_true_r, ?andb_false_r;
    simpl; repeat split; lia.
Qed.

Lemma validate_findings_from findings : forall w s w' s',
  foldM (validate_finding py_str percent) findings (w, s) = Ok (w', s') ->
  is_empty w' = is_empty w && forallb acceptable findings /\
  (length w' + length s' <=
   length w + length s + 2 * length findings)%nat /\
  (length s' <= length s + length findings)%nat.
Proof.
  induction findings as [|f findings IH]; intros w s w' s' H.
  - simpl in H. injection H as <- <-. rewrite andb_true_r.
    simpl. repeat split; lia.
  - cbn [foldM] in H. bind_inv H. destruct a as [w1 s1].
    apply validate_finding_step in Ha. destruct Ha as (E1 & L1 & L2).
    apply IH in H. destruct H as (E & L & L').
    rewrite E, E1. cbn [forallb length]. rewrite andb_assoc.
    repeat split; lia.
Qed.

(** X15.  When validation returns, ["valid"] is true exactly when every
    finding maps to a condition or to a label and has a confidence of 0.3 or
    more; there are at most as many suggestions as findings, and warnings
    and suggestions together are at most twice as many. *)
Theorem validation_valid_iff_acceptable :
  forall (findings : list value) (out : dict),
    validate_findings py_str percent findings = Ok out ->
    exists warnings suggestions : list string,
      out = [("valid", VBool (forallb acceptable findings));
             ("warnings", VList (map VStr warnings));
             ("suggestions", VList (map VStr suggestions))] /\
      (is_empty warnings = forallb acceptable findings) /\
      (length suggestions <= length findings)%nat /\
      (length warnings + length suggestions <= 2 * length findings)%nat.
Proof.
  intros findings out H. unfold validate_findings in H. bind_inv H.
  destruct a as [warnings suggestions]. injection H as <-.
  apply validate_findings_from in Ha. destruct Ha as (E & L & L').
  simpl in E, L, L'.
  exists warnings, suggestions.
  split; [|split; [exact E|split; [exact L'|lia]]].
  change (match warnings with [] => true | _ :: _ => false end)
    with (is_empty warnings).
  now rewrite E.
Qed.
End Validation.
End Ontology.

Section OntologyInstances.
Import OntologyProcessor.

Lemma ontology_mapping_characterised_witness :
  exists mapped,
    map_findings_to_ontology sample_processor [VDict sample_finding]
      = Ok mapped /\
    Forall2 (mapped_by sample_processor) [VDict sample_finding] mapped.
Proof.
  eexists. split; [reflexivity|].
  exact (ontology_mapping_characterised sample_processor
           [VDict sample_finding] _ eq_refl).
Defined.


Lemma ontology_statistics_bounds_witness :
  exists stats,
    get_ontology_statistics false [VDict sample_finding] = Ok stats /\
    dict_get "total_findings" stats = Some (VInt 1).
Proof.
  eexists. split; [reflexivity|].
  exact (proj1 (ontology_statistics_bounds false [VDict sample_finding] _
                  eq_refl)).
Defined.

Lemma validation_valid_iff_acceptable_witness :
  exists out warnings suggestions,
    validate_findings (fun _ => "") (fun _ => "") [VDict sample_finding]
      = Ok out /\
    out = [("valid", VBool (forallb acceptable [VDict sample_finding]));
           ("warnings", VList (map VStr warnings));
           ("suggestions", VList (map VStr suggestions))].
Proof.
  destruct (validation_valid_iff_acceptable (fun _ => "") (fun _ => "")
              [VDict sample_finding] _ eq_refl)
    as (warnings & suggestions & Hout & _).
  eexists _, warnings, suggestions. split; [reflexivity|exact Hout].
Defined.
End OntologyInstances.

(** ** The normalizer: a normalized report is a fixed point *)

Section NormalizerFixedPoint.
Import JsonReportGenerator.
Variable float_of_text : string -> option Q.

Lemma normalize_finding_fixed (d : dict) (out : value) :
  normalize_finding float_of_text d = Ok out ->
  exists d', out = VDict d' /\ normalize_finding float_of_text d' = Ok out.
Proof.
  unfold normalize_finding at 1. intros H. bind_inv H. injection H as <-.
  eexists. split; [reflexivity|]. reflexivity.
Qed.

Lemma normalize_findings_fixed (items : list value) : forall outs,
  normalize_findings float_of_text items = Ok outs ->
  normalize_findings float_of_text outs = Ok outs.
Proof.
  induction items as [|f items IH]; intros outs H.
  - injection H as <-. reflexivity.
  - destruct f as [| | | | | |d]; simpl in H; auto.
    bind_inv H. bind_inv H. injection H as <-.
    destruct (normalize_finding_fixed _ _ Ha) as (d' & -> & Hd').
    simpl. rewrite Hd'. simpl. rewrite (IH _ Ha0). reflexivity.
Qed.

(** X16.  Normalizing is idempotent: a report that the normalizer has
    returned is returned as it is, and without raising, when it is
    normalized again. *)
Theorem normalizer_idempotent :
  forall (report normalized : dict),
    _normalize_report_structure float_of_text report = Ok normalized ->
    _normalize_report_structure float_of_text normalized = Ok normalized.
Proof.
  intros report normalized H. unfold _normalize_report_structure in H.
  bind_inv H. injection H as <-.
  assert (Hf : normalize_findings float_of_text a = Ok a).
  { destruct (dict_get "findings" report) as [[| | | | |items|]|];
      try (injection Ha as <-; reflexivity).
    eapply normalize_findings_fixed. exact Ha. }
  unfold _normalize_report_structure. cbn [dict_get String.eqb Ascii.eqb Bool.eqb].
  rewrite Hf. cbn [bind get dict_get String.eqb Ascii.eqb Bool.eqb].
  destruct (dict_get "recommendations" report) as [[| | | | | |]|];
    destruct (dict_get "metadata" report) as [[| | | | | |]|];
    reflexivity.
Qed.
End NormalizerFixedPoint.

Section NormalizerFixedPointInstances.
Import JsonReportGenerator.

Lemma normalizer_idempotent_witness :
  exists normalized,
    _normalize_report_structure (fun _ => None)
      [("findings", VList [VDict [("finding", VStr "Cardiomegaly")]]);
       ("recommendations", VStr "Follow-up radiograph")] = Ok normalized /\
    _normalize_report_structure (fun _ => None) normalized = Ok normalized.
Proof.
  eexists. split; [reflexivity|].
  exact (normalizer_idempotent (fun _ => None)
           [("findings", VList [VDict [("finding", VStr "Cardiomegaly")]]);
            ("recommendations", VStr "Follow-up radiograph")] _ eq_refl).
Defined.
End NormalizerFixedPointInstances.

(** ** Explanations: key evidence, the evidence chain, the summary *)

Section Explanations.
Import ExplainabilityEngine.



Lemma confidence_level_high (c : Q) :
  confidence_level c = "high" <-> Qle_bool (7 # 10) c = true.
Proof.
  unfold confidence_level. destruct (Qle_bool (7 # 10) c).
  - tauto.
  - destruct (Qle_bool (4 # 10) c); split; discriminate.
Qed.

Variable py_str : value -> string.
Variable percent : Q -> string.

Lemma evidence_chain_closes (finding : dict) (chain : list value) :
  _build_evidence_chain py_str finding = Ok chain ->
  exists c,
    as_number (get finding "confidence" (VFloat (1 # 2))) = Ok c /\
    (length chain <= 3)%nat /\
    (In high_confidence_entry chain <-> Qle_bool (7 # 10) c = true).
Proof.
  unfold _build_evidence_chain. intros H. bind_inv H. injection H as <-.
  exists a. split; [exact Ha|].
  unfold high_confidence_entry, evidence_entry.
  destruct (truthy (get finding "location" (VStr "")));
    destruct (truthy (get finding "evidence" (VStr "")));
    destruct (Qle_bool (7 # 10) a); simpl;
    (split; [lia|]); split; intros H; try reflexivity; try discriminate;
    try tauto;
    repeat (destruct H as [H|H]; try discriminate H); try contradiction.
Qed.

(** X18.  In the explanation of a finding the confidence level, the template
    and the evidence chain agree: the template is the one of the level, the
    chain has at most three entries, and it holds the entry "High confidence
    based on clear radiographic features" exactly when the level is
    ["high"]. *)
Theorem explanation_level_matches_chain :
  forall (finding explanation : dict),
    _explain_finding py_str percent finding = Ok explanation ->
    exists (level : string) (chain : list value),
      dict_get "confidence_level" explanation = Some (VStr level) /\
      dict_get "template" explanation =
        Some (VStr (explanation_templates level)) /\
      dict_get "evidence_chain" explanation = Some (VList chain) /\
      (length chain <= 3)%nat /\
      (level = "high" <-> In high_confidence_entry chain).
Proof.
  intros finding explanation H. unfold _explain_finding in H.
  bind_inv H. bind_inv H. bind_inv H. bind_inv H. injection H as <-.
  destruct (evidence_chain_closes _ _ Ha0) as (c & Hc & Hlen & Hin).
  assert (c = a) by congruence. subst c.
  exists (confidence_level a), a0.
  split; [reflexivity|]. split; [reflexivity|]. split; [reflexivity|].
  split; [exact Hlen|]. rewrite Hin. apply confidence_level_high.
Qed.

Lemma key_finding_set_explanation (d : dict) (v : value) :
  key_finding (dict_set "explanation" v d) = key_finding d.
Proof.
  unfold key_finding. now rewrite !get_set_ne by discriminate.
Qed.

(** X19.  When [generate_explanations] returns, each finding has come back
    as itself with its explanation under ["explanation"]: no other key is
    added or changed. *)
Theorem explanations_frame :
  forall (findings explained : list value),
    generate_explanations py_str percent findings = Ok explained ->
    Forall2 (explained_by py_str percent) findings explained /\
    forall i d d',
      findings !! i = Some (VDict d) ->
      explained !! i = Some (VDict d') ->
      forall k, k <> "explanation" -> dict_get k d' = dict_get k d.
Proof.
  intros findings explained H. unfold generate_explanations in H.
  apply mapM_Forall2 in H.
  assert (HF : Forall2 (explained_by py_str percent) findings explained).
  { eapply Forall2_impl; [exact H|]. clear. intros f e H. cbv beta in H.
    bind_inv H. bind_inv H. injection H as <-.
    destruct f as [| | | | | |d]; try discriminate. injection Ha as <-.
    exists d, a0. auto. }
  split; [exact HF|].
  intros i d d' Hi Hi' k Hk.
  destruct (Forall2_lookup_lr _ _ _ _ _ _ HF Hi Hi')
    as (d0 & x & E & _ & E').
  injection E as <-. injection E' as ->.
  apply dict_get_set_ne. congruence.
Qed.

(** *** The summary *)

Lemma insert_desc_map {A B} (key : A -> Q) (key' : B -> Q) (h : A -> B) :
  (forall x, key' (h x) = key x) ->
  forall x l, map h (insert_desc key x l) = insert_desc key' (h x) (map h l).
Proof.
  intros Hk x l. induction l as [|y l IH]; simpl; [reflexivity|].
  rewrite !Hk. destruct (Qltb (key x) (key y)); simpl; [now rewrite IH|].
  reflexivity.
Qed.

Lemma sorted_reverse_map {A B} (key : A -> Q) (key' : B -> Q) (h : A -> B) :
  (forall x, key' (h x) = key x) ->
  forall l, map h (sorted_reverse key l) = sorted_reverse key' (map h l).
Proof.
  intros Hk l. induction l as [|x l IH]; simpl; [reflexivity|].
  now rewrite (insert_desc_map key key' h Hk), IH.
Qed.

Lemma filter_map_length {A B} (h : A -> B) (p : B -> bool) (l : list A) :
  length (List.filter (fun x => p (h x)) l) =
  length (List.filter p (map h l)).
Proof.
  induction l as [|x l IH]; simpl; [reflexivity|].
  destruct (p (h x)); simpl; now rewrite IH.
Qed.

(** The summary reads of the scored findings only their [summary_view]. *)
Lemma summary_views (scored scored' : list (dict * Q)) :
  map summary_view scored = map summary_view scored' ->
  length (List.filter (fun dc : dict * Q => Qle_bool (7 # 10) (snd dc)) scored)
  = length (List.filter (fun dc : dict * Q => Qle_bool (7 # 10) (snd dc))
              scored') /\
  map snd scored = map snd scored' /\
  map (fun dc : dict * Q => key_finding (fst dc))
    (firstn 3 (sorted_reverse snd scored)) =
  map (fun dc : dict * Q => key_finding (fst dc))
    (firstn 3 (sorted_reverse snd scored')) /\
  map (fun dc : dict * Q => get (fst dc) "confidence" (VInt 0)) scored =
  map (fun dc : dict * Q => get (fst dc) "confidence" (VInt 0)) scored'.
Proof.
  intros H. split; [|split; [|split]].
  4: { assert (E : forall l : list (dict * Q),
               map (fun dc : dict * Q => get (fst dc) "confidence" (VInt 0)) l
               = map (fun v : value * Q =>
                        match fst v with
                        | VDict (_ :: (_, c) :: _) => c
                        | _ => VNone
                        end) (map summary_view l))
         by (intros l; rewrite map_map; reflexivity).
       now rewrite (E scored), (E scored'), H. }
  - transitivity
      (length (List.filter (fun p : value * Q => Qle_bool (7 # 10) (snd p))
                 (map summary_view scored))).
    + exact (filter_map_length summary_view
               (fun p : value * Q => Qle_bool (7 # 10) (snd p)) scored).
    + rewrite H. symmetry.
      exact (filter_map_length summary_view
               (fun p : value * Q => Qle_bool (7 # 10) (snd p)) scored').
  - assert (E : forall l : list (dict * Q),
               map snd l = map snd (map summary_view l))
      by (intros l; rewrite map_map; reflexivity).
    now rewrite (E scored), (E scored'), H.
  - assert (E : forall l : list (dict * Q),
               map (fun dc : dict * Q => key_finding (fst dc))
                 (firstn 3 (sorted_reverse snd l)) =
               map fst (firstn 3 (sorted_reverse snd (map summary_view l)))).
    { intros l.
      rewrite <- (sorted_reverse_map snd snd summary_view)
        by reflexivity.
      rewrite firstn_map, map_map. reflexivity. }
    now rewrite (E scored), (E scored'), H.
Qed.

Lemma explained_scored (findings : list value) : forall explained,
  Forall2 (explained_by py_str percent) findings explained ->
  exists scored scored',
    mapM (fun f => d <- as_dict f ;;
                   c <- as_number (get d "confidence" (VInt 0)) ;;
                   Ok (d, c)) findings = Ok scored /\
    mapM (fun f => d <- as_dict f ;;
                   c <- as_number (get d "confidence" (VInt 0)) ;;
                   Ok (d, c)) explained = Ok scored' /\
    map summary_view scored = map summary_view scored'.
Proof.
  induction findings as [|f findings IH]; intros explained H.
  - inversion H; subst. exists [], []. auto.
  - inversion H as [|? e ? rest Hfe Hrest]; subst.
    destruct (IH _ Hrest) as (sc & sc' & Hs & Hs' & Hv).
    destruct Hfe as (d & x & -> & Hx & ->).
    unfold _explain_finding in Hx.
    bind_inv Hx. bind_inv Hx. bind_inv Hx.
    unfold _generate_reasoning in Ha1. bind_inv Ha1.
    exists ((d, a2) :: sc), ((dict_set "explanation" (VDict x) d, a2) :: sc').
    cbn [mapM as_dict bind].
    rewrite get_set_ne by discriminate.
    rewrite Ha2, Hs, Hs'. cbn [bind].
    split; [reflexivity|]. split; [reflexivity|].
    cbn [map]. rewrite Hv. unfold summary_view at 1 3. cbn [fst snd].
    now rewrite key_finding_set_explanation.
Qed.

(** X20.  Explaining the findings does not change their summary: the
    summary of the explained findings, which is the one the report shows, is
    the summary of the findings themselves, and it is computed without
    raising. *)
Theorem explanations_keep_summary :
  forall (compensated : bool) (findings explained : list value),
    generate_explanations py_str percent findings = Ok explained ->
    exists summary,
      generate_summary_explanation compensated explained = Ok summary /\
      generate_summary_explanation compensated findings = Ok summary.
Proof.
  intros compensated findings explained H.
  assert (HF : Forall2 (explained_by py_str percent) findings explained).
  { unfold generate_explanations in H. apply mapM_Forall2 in H.
    eapply Forall2_impl; [exact H|]. clear. intros f e H. cbv beta in H.
    bind_inv H. bind_inv H. injection H as <-.
    destruct f as [| | | | | |d]; try discriminate. injection Ha as <-.
    exists d, a0. auto. }
  assert (Hlen : length explained = length findings).
  { unfold generate_explanations in H. now apply mapM_length in H. }
  destruct (explained_scored _ _ HF) as (sc & sc' & Hs & Hs' & Hv).
  destruct (summary_views _ _ Hv) as (E1 & E2 & E3 & E4).
  destruct (scored_values _ _ Hs') as [Ev Hn].
  unfold generate_summary_explanation. rewrite Hs, Hs', Hlen. cbn [bind].
  rewrite E1, E3, E4, Ev.
  destruct (0 <? Z.of_nat (length findings)).
  - destruct (mean_numbers compensated _ (Z.of_nat (length findings)) Hn)
      as [avg Havg].
    rewrite Havg. cbn [bind]. eexists. split; reflexivity.
  - cbn [bind]. eexists. split; reflexivity.
Qed.

End Explanations.

Section Summary.
Import ExplainabilityEngine.




End Summary.

Section ExplanationsInstances.
Import ExplainabilityEngine.

Lemma explanation_level_matches_chain_witness :
  exists explanation level chain,
    _explain_finding (fun _ => "") (fun _ => "") sample_finding
      = Ok explanation /\
    dict_get "confidence_level" explanation = Some (VStr level) /\
    dict_get "evidence_chain" explanation = Some (VList chain) /\
    (level = "high" <-> In high_confidence_entry chain).
Proof.
  destruct (explanation_level_matches_chain (fun _ => "") (fun _ => "")
              sample_finding _ eq_refl)
    as (level & chain & Hl & _ & Hc & _ & Hiff).
  eexists _, level, chain. split; [reflexivity|].
  split; [exact Hl|]. split; [exact Hc|exact Hiff].
Defined.

Lemma explanations_frame_witness :
  exists explained,
    generate_explanations (fun _ => "") (fun _ => "") [VDict sample_finding]
      = Ok explained /\
    Forall2 (explained_by (fun _ => "") (fun _ => ""))
      [VDict sample_finding] explained.
Proof.
  eexists. split; [reflexivity|].
  exact (proj1 (explanations_frame (fun _ => "") (fun _ => "")
                  [VDict sample_finding] _ eq_refl)).
Defined.

Lemma explanations_keep_summary_witness :
  exists explained summary,
    generate_explanations (fun _ => "") (fun _ => "") [VDict sample_finding]
      = Ok explained /\
    generate_summary_explanation false explained = Ok summary /\
    generate_summary_explanation false [VDict sample_finding] = Ok summary.
Proof.
  destruct (explanations_keep_summary (fun _ => "") (fun _ => "") false
              [VDict sample_finding] _ eq_refl) as (summary & H1 & H2).
  eexists _, summary. split; [reflexivity|]. split; [exact H1|exact H2].
Defined.

End ExplanationsInstances.

(** ** Labels against the report text *)

Section LabelComparison.
Import ReportEvaluator.

Lemma compare_labels_from report_text radlex_dict labels :
  forall matched missed,
    fold_left (fun (acc : list string * list string) label =>
      let (matched, missed) := acc in
      if mentions report_text (keywords_of label radlex_dict)
      then (matched ++ [label], missed)
      else (matched, missed ++ [label]))
      labels (matched, missed) =
    (matched ++ List.filter (mentioned report_text radlex_dict) labels,
     missed ++ List.filter (fun label =>
                              negb (mentioned report_text radlex_dict label))
                 labels).
Proof.
  induction labels as [|label labels IH]; intros matched missed.
  - simpl. now rewrite !app_nil_r.
  - cbn [fold_left List.filter].
    change (mentioned report_text radlex_dict label)
      with (mentions report_text (keywords_of label radlex_dict)).
    destruct (mentions report_text (keywords_of label radlex_dict));
      rewrite IH; cbn [negb]; rewrite <- app_assoc; reflexivity.
Qed.

Lemma filter_partition_perm {A} (p : A -> bool) (l : list A) :
  Permutation (List.filter p l ++ List.filter (fun x => negb (p x)) l) l.
Proof.
  induction l as [|x l IH]; simpl; [constructor|].
  destruct (p x); simpl.
  - now constructor.
  - rewrite <- Permutation_middle. now constructor.
Qed.

(** X22.  The comparison splits the labels in two, each list in the order
    of the labels given and with their repetitions: the labels one of whose
    keywords occurs in the report text (case apart) are matched, all others
    are missed.  Together the two lists are a rearrangement of the labels;
    a label for which the table has no keyword is always missed. *)
Theorem labels_partitioned :
  forall (labels : list string) (report_text : string)
         (radlex_dict : list (string * list string)),
    fst (compare_labels_with_report labels report_text radlex_dict) =
      List.filter (mentioned report_text radlex_dict) labels /\
    snd (compare_labels_with_report labels report_text radlex_dict) =
      List.filter (fun label => negb (mentioned report_text radlex_dict label))
        labels /\
    Permutation
      (fst (compare_labels_with_report labels report_text radlex_dict) ++
       snd (compare_labels_with_report labels report_text radlex_dict))
      labels /\
    forall label,
      In label labels -> keywords_of label radlex_dict = [] ->
      In label (snd (compare_labels_with_report labels report_text
                       radlex_dict)).
Proof.
  intros labels report_text radlex_dict.
  unfold compare_labels_with_report. rewrite compare_labels_from.
  cbn [fst snd app].
  split; [reflexivity|]. split; [reflexivity|].
  split; [apply filter_partition_perm|].
  intros label Hin Hk. apply List.filter_In. split; [exact Hin|].
  unfold mentioned. now rewrite Hk.
Qed.
End LabelComparison.

(** ** The statistics of the learning engine *)

Section LearningStatistics.
Import ContinuousLearningEngine.

Lemma rule_kinds_partition (l : list rule) :
  (length (List.filter (fun r => match r with
                                 | EditPattern _ _ _ => true
                                 | _ => false end) l) +
   length (List.filter is_confidence_adjustment l) +
   length (List.filter (fun r => match r with
                                 | FindingAssociation _ _ _ => true
                                 | _ => false end) l) = length l)%nat.
Proof.
  induction l as [|r l IH]; simpl; [reflexivity|].
  destruct r; simpl; lia.
Qed.

Lemma filter_length_impl {A} (p q : A -> bool) (l : list A) :
  (forall x, p x = true -> q x = true) ->
  (length (List.filter p l) <= length (List.filter q l))%nat.
Proof.
  intros H. induction l as [|x l IH]; simpl; [lia|].
  destruct (p x) eqn:E.
  - rewrite (H x E). simpl. lia.
  - destruct (q x); simpl; lia.
Qed.

Variable py_str : value -> string.
Variable list_of_set : list value -> list value.

(** X23.  In the statistics of the learning engine the three counts of
    ["rules_by_type"] add up to ["total_rules_mined"]; the rules of high
    confidence are edit patterns, so at most as many; the entries with
    edits are at most the learning entries; and with no learning entry no
    rule is mined. *)
Theorem learning_statistics_partition :
  forall (f : file (list LearningEntry.t)) (self self' : engine)
         (stats : dict),
    get_learning_statistics py_str list_of_set f self = Ok (stats, self') ->
    exists (entries total edit confidence association high with_edits : Z),
      dict_get "total_learning_entries" stats = Some (VInt entries) /\
      dict_get "total_rules_mined" stats = Some (VInt total) /\
      dict_get "rules_by_type" stats =
        Some (VDict [("edit_pattern", VInt edit);
                     ("confidence_adjustment", VInt confidence);
                     ("finding_association", VInt association)]) /\
      dict_get "high_confidence_rules" stats = Some (VInt high) /\
      dict_get "entries_with_edits" stats = Some (VInt with_edits) /\
      0 <= edit /\ 0 <= confidence /\ 0 <= association /\
      edit + confidence + association = total /\
      0 <= high <= edit /\
      0 <= with_edits <= entries /\
      (entries = 0 -> total = 0).
Proof.
  intros f self self' stats H. unfold get_learning_statistics in H.
  bind_inv H. bind_inv H. injection H as <- _.
  destruct a0 as [mined engine']. cbn [fst].
  eexists _, _, _, _, _, _, _.
  split; [reflexivity|]. split; [reflexivity|]. split; [reflexivity|].
  split; [reflexivity|]. split; [reflexivity|].
  pose proof (rule_kinds_partition mined) as Hp.
  split; [lia|]. split; [lia|]. split; [lia|]. split; [lia|].
  split.
  { split; [lia|]. apply inj_le.
    apply filter_length_impl. intros [p s c|p a0 s|p a0 s]; auto. }
  split.
  { pose proof (filter_length_le LearningEntry.has_edits a). lia. }
  intros Hz. destruct a as [|entry data]; [|simpl in Hz; lia].
  unfold mine_rules in Ha0. rewrite Ha in Ha0. simpl in Ha0.
  injection Ha0 as <- _. reflexivity.
Qed.
End LearningStatistics.

Section LearningStatisticsInstances.
Import ContinuousLearningEngine.

Lemma learning_statistics_partition_witness :
  exists stats self' total,
    get_learning_statistics (fun _ => "") (fun s => s)
      (Stored [cardiomegaly_record "2025-01-01T10:30:00" "x.jpg"
                 (VList []) (VDict []) (VDict []) 1])
      init = Ok (stats, self') /\
    dict_get "total_rules_mined" stats = Some (VInt total).
Proof.
  destruct (learning_statistics_partition (fun _ => "") (fun s => s)
              (Stored [cardiomegaly_record "2025-01-01T10:30:00" "x.jpg"
                         (VList []) (VDict []) (VDict []) 1])
              init _ _ eq_refl)
    as (entries & total & _ & _ & _ & _ & _ & _ & Ht & _).
  eexists _, _, total. split; [reflexivity|exact Ht].
Defined.
End LearningStatisticsInstances.

(** ** The feedback logger: a call without an edited report *)

Section UneditedCall.
Import FeedbackLogger.

(** X24.  A call of [log_feedback] without an edited report, on a feedback
    log that can be read, stores its entry (without edits, with an edit
    count of 0) where the first entry without edits of the image was, or
    last when there is none; it leaves the learning log as it is; and it
    does not return the entry but raises [AttributeError]. *)
Theorem unedited_call_saves_then_raises :
  forall (self : logger) (now image_name : string) (original_report : dict)
         (explanations user_feedback ontology_mapping metadata : value)
         (logs : list Entry.t),
    _load_logs self = Ok logs ->
    exists entry,
      log_feedback self now image_name original_report None explanations
        user_feedback ontology_mapping metadata =
      ({| feedback_log := Stored (upsert image_name entry logs);
          learning_data := learning_data self |},
       Raise AttributeError) /\
      Entry.image entry = image_name /\
      Entry.timestamp entry = now /\
      Entry.original_report entry = original_report /\
      Entry.edited_report entry = None /\
      Entry.has_edits entry = false /\
      Entry.edit_count entry = 0.
Proof.
  intros self now image_name original_report explanations user_feedback
    ontology_mapping metadata logs Hl.
  unfold log_feedback. rewrite Hl, existing_entry_index_upsert.
  eexists. split; [reflexivity|]. repeat split.
Qed.
End UneditedCall.

Section UneditedCallInstances.
Import FeedbackLogger.

Lemma unedited_call_saves_then_raises_witness :
  snd (log_feedback empty_logger "2025-01-01T10:00:00" "x.jpg"
         generated_report None VNone VNone VNone VNone) =
  Raise AttributeError.
Proof.
  destruct (unedited_call_saves_then_raises empty_logger
              "2025-01-01T10:00:00" "x.jpg" generated_report
              VNone VNone VNone VNone [] eq_refl) as (entry & -> & _).
  reflexivity.
Defined.
End UneditedCallInstances.
